(** * Packet reception core of pquic: [picoquic/packet.c]

    A shallow embedding of the receive path of [picoquic/packet.c]
    (packet-number reconstruction, header parsing, header-protection
    removal, segment dispatch and the walk over coalesced segments),
    together with the properties of that code that the specification
    of the reception core states.

    Conventions.
    - C unsigned integers of width [w] are [Z] values in [0, 2^w); every
      C operation that can wrap is followed by the matching reduction
      ([u8], [u16], [u32], [u64]).
    - A byte buffer is a [list Z]; a read yields a value in [0, 256), and
      [0] past the end of the list.
    - A [picoquic_cnx_t*] is a handle ([nat]) into the connection table
      of the endpoint, [NULL] is [None].
    - Functions of other translation units (the frame decoder, the TLS
      engine, the cryptographic primitives, the per-type handlers) are
      [Variable]s of the sections that use them. *)

From Stdlib Require Import ZArith Lia List Bool.
From stdpp Require Import base numbers option list gmap.
Import ListNotations.

Local Open Scope Z_scope.

(** ** Machine integers *)

Definition u8 (x : Z) : Z := x mod 2 ^ 8.
Definition u16 (x : Z) : Z := x mod 2 ^ 16.
Definition u32 (x : Z) : Z := x mod 2 ^ 32.
Definition u64 (x : Z) : Z := x mod 2 ^ 64.

(** [(int) x] for a 32-bit unsigned [x] (two's complement). *)
Definition s32 (x : Z) : Z :=
  let y := u32 x in if y <? 2 ^ 31 then y else y - 2 ^ 32.

(** [~x] on [uint64_t]. *)
Definition not64 (x : Z) : Z := u64 (Z.lnot x).

(** ** The packet number logic (packet.c, lines 301-324) *)

Definition picoquic_get_packet_number64 (highest mask pn : Z) : Z :=
  let expected := u64 (highest + 1) in
  let not_mask_plus_one := u64 (not64 mask + 1) in
  let pn64 := Z.lor (Z.land expected mask) pn in
  if pn64 <? expected then
    let delta1 := u64 (expected - pn64) in
    let delta2 := u64 (not_mask_plus_one - delta1) in
    if delta2 <? delta1 then u64 (pn64 + not_mask_plus_one) else pn64
  else
    let delta1 := u64 (pn64 - expected) in
    let delta2 := u64 (not_mask_plus_one - delta1) in
    if (delta2 <=? delta1) && (0 <? Z.land pn64 mask)
    then u64 (pn64 - not_mask_plus_one)
    else pn64.

(** The value of [ph->pnmask] after the decoding loop of
    [picoquic_decrypt_packet] (lines 374 and 382): all ones, shifted left
    by eight bits once per packet-number byte, in 64-bit arithmetic. *)
Definition pnmask_shift (m : Z) : Z := u64 (Z.shiftl m 8).

Definition pnmask_of_length (pn_l : Z) : Z :=
  Nat.iter (Z.to_nat pn_l) pnmask_shift 0xFFFFFFFFFFFFFFFF.

(** The mask the specification describes: the low [8 * pn_l] bits set. *)
Definition spec_low_mask (pn_l : Z) : Z := Z.ones (8 * pn_l).


(** ** Outcomes

    A run of the C code either completes, or dereferences a pointer that
    designates no object ([Fault]), or, for the one loop of this file whose
    termination is not syntactic, exhausts the fuel it was given. *)

Inductive outcome (A : Type) : Type :=
  | Done (a : A)
  | Fault
  | OutOfFuel.
Arguments Done {A} a.
Arguments Fault {A}.
Arguments OutOfFuel {A}.

#[global] Instance outcome_ret : MRet outcome := fun A a => Done a.
#[global] Instance outcome_bind : MBind outcome := fun A B f m =>
  match m with
  | Done a => f a
  | Fault => Fault
  | OutOfFuel => OutOfFuel
  end.

(** Dereference: [None] is a pointer to nothing. *)
Definition deref {A : Type} (o : option A) : outcome A :=
  match o with
  | Some a => Done a
  | None => Fault
  end.

(** ** Buffers *)

(** [bytes[i]], the value of a [uint8_t] *)
Definition byte_at (bytes : list Z) (i : Z) : Z :=
  u8 (nth (Z.to_nat i) bytes 0).

(** [bytes + k] *)
Definition advance (bytes : list Z) (k : Z) : list Z := drop (Z.to_nat k) bytes.

(** [bytes[i] = v] *)
Definition store_byte (bytes : list Z) (i v : Z) : list Z :=
  <[Z.to_nat i := v]> bytes.

(** [memcpy(bytes + i, out, |out|)] *)
Definition store_bytes (bytes : list Z) (i : Z) (out : list Z) : list Z :=
  take (Z.to_nat i) bytes ++ out ++ drop (Z.to_nat i + List.length out) bytes.

(** [PICOPARSE_32(b)]: a big-endian 32-bit value. *)
Definition PICOPARSE_32 (b : list Z) : Z :=
  Z.lor (Z.lor (Z.lor (Z.shiftl (byte_at b 0) 24) (Z.shiftl (byte_at b 1) 16))
               (Z.shiftl (byte_at b 2) 8))
        (byte_at b 3).

(** ** Data model *)

(** Modelled from the spec: [picoquic_connection_id_t] and its helpers
    ([picoquic_parse_connection_id], [picoquic_compare_connection_id],
    [picoquic_is_connection_id_null], [picoquic_null_connection_id]) live
    in [picoquic.h] and [util.c], which are not among the sources at hand.
    A connection id is an opaque byte string of length 0..20, equality is
    byte-wise, and the id of length 0 is the null id. *)
Definition picoquic_connection_id_t : Type := list Z.

Definition id_len (c : picoquic_connection_id_t) : Z := Z.of_nat (List.length c).

Definition PICOQUIC_CONNECTION_ID_MAX_SIZE : Z := 20.

Definition picoquic_null_connection_id : picoquic_connection_id_t := [].

Definition picoquic_is_connection_id_null (c : picoquic_connection_id_t) : bool :=
  id_len c =? 0.

(** [picoquic_compare_connection_id(a, b) == 0] *)
Definition picoquic_compare_connection_id_eq
    (a b : picoquic_connection_id_t) : bool :=
  bool_decide (a = b).

(** Modelled from the spec: [picoquic_parse_connection_id] (util.c).  Given
    a length [L] and a buffer it yields an [L]-byte id and advances by [L];
    a length above the maximum yields the null id and advances by 0. *)
Definition picoquic_parse_connection_id (bytes : list Z) (len : Z)
  : Z * picoquic_connection_id_t :=
  if len <=? PICOQUIC_CONNECTION_ID_MAX_SIZE
  then (len, map (byte_at bytes) (map Z.of_nat (seq 0 (Z.to_nat len))))
  else (0, picoquic_null_connection_id).

(** Modelled from the spec: [picoquic_varint_decode] (intformat.c).  It
    consumes 1, 2, 4 or 8 bytes depending on the two high bits of the first
    byte and returns the number of bytes consumed with the value, or 0 when
    fewer than that many bytes remain. *)
Definition picoquic_varint_decode (bytes : list Z) (max_bytes : Z) : Z * Z :=
  let length := Z.shiftl 1 (Z.shiftr (Z.land (byte_at bytes 0) 0xC0) 6) in
  if length >? max_bytes then (0, 0)
  else
    (length,
     fold_left (fun v i => u64 (u64 (Z.shiftl v 8) + byte_at bytes (Z.of_nat i)))
               (seq 1 (Z.to_nat length - 1))
               (Z.land (byte_at bytes 0) 0x3F)).

(** The enumerations of [picoquic.h].  The header is not among the sources
    at hand; the enumerators are those [packet.c] names. *)
Inductive picoquic_packet_type_enum : Type :=
  | picoquic_packet_error
  | picoquic_packet_version_negotiation
  | picoquic_packet_initial
  | picoquic_packet_retry
  | picoquic_packet_handshake
  | picoquic_packet_0rtt_protected
  | picoquic_packet_1rtt_protected_phi0
  | picoquic_packet_1rtt_protected_phi1.

Inductive picoquic_packet_context_enum : Type :=
  | picoquic_packet_context_application
  | picoquic_packet_context_handshake
  | picoquic_packet_context_initial.

Inductive picoquic_version_header_encoding : Type :=
  | picoquic_version_header_29
  | picoquic_version_header_other.

Inductive picoquic_state_enum : Type :=
  | picoquic_state_client_init
  | picoquic_state_client_init_sent
  | picoquic_state_client_init_resent
  | picoquic_state_client_handshake_start
  | picoquic_state_client_handshake_progress
  | picoquic_state_client_almost_ready
  | picoquic_state_client_ready
  | picoquic_state_server_init
  | picoquic_state_server_handshake
  | picoquic_state_server_almost_ready
  | picoquic_state_server_ready
  | picoquic_state_closing_received
  | picoquic_state_closing
  | picoquic_state_draining
  | picoquic_state_disconnected.

Inductive picoquic_call_back_event_t : Type :=
  | picoquic_callback_ready
  | picoquic_callback_stateless_reset.

#[global] Instance picoquic_packet_type_enum_eq_dec :
  EqDecision picoquic_packet_type_enum.
Proof. solve_decision. Defined.
#[global] Instance picoquic_packet_context_enum_eq_dec :
  EqDecision picoquic_packet_context_enum.
Proof. solve_decision. Defined.
#[global] Instance picoquic_state_enum_eq_dec : EqDecision picoquic_state_enum.
Proof. solve_decision. Defined.

(** The long packet types, [(bytes[0] >> 4) & 3]: 0 is Initial, 1 is 0-RTT,
    2 is Handshake and 3 is Retry. *)
Definition picoquic_long_packet_type_initial : Z := 0.
Definition picoquic_long_packet_type_0rtt : Z := 1.
Definition picoquic_long_packet_type_handshake : Z := 2.
Definition picoquic_long_packet_type_retry : Z := 3.

(** Return codes.  The [PICOQUIC_ERROR_*] macros of [picoquic.h] are offsets
    in the error class [0x400]; what [packet.c] relies on is that they
    are pairwise distinct and differ from [0], [1] and [-1]. *)
Definition PICOQUIC_ERROR_CLASS : Z := 0x400.
Definition PICOQUIC_ERROR_DUPLICATE : Z := PICOQUIC_ERROR_CLASS + 1.
Definition PICOQUIC_ERROR_FNV1A_CHECK : Z := PICOQUIC_ERROR_CLASS + 2.
Definition PICOQUIC_ERROR_AEAD_CHECK : Z := PICOQUIC_ERROR_CLASS + 3.
Definition PICOQUIC_ERROR_UNEXPECTED_PACKET : Z := PICOQUIC_ERROR_CLASS + 4.
Definition PICOQUIC_ERROR_MEMORY : Z := PICOQUIC_ERROR_CLASS + 5.
Definition PICOQUIC_ERROR_SPURIOUS_REPEAT : Z := PICOQUIC_ERROR_CLASS + 6.
Definition PICOQUIC_ERROR_CNXID_CHECK : Z := PICOQUIC_ERROR_CLASS + 7.
Definition PICOQUIC_ERROR_INITIAL_TOO_SHORT : Z := PICOQUIC_ERROR_CLASS + 8.
Definition PICOQUIC_ERROR_RETRY : Z := PICOQUIC_ERROR_CLASS + 19.
Definition PICOQUIC_ERROR_DETECTED : Z := PICOQUIC_ERROR_CLASS + 21.
Definition PICOQUIC_ERROR_STATELESS_RESET : Z := PICOQUIC_ERROR_CLASS + 30.
Definition PICOQUIC_ERROR_CONNECTION_DELETED : Z := PICOQUIC_ERROR_CLASS + 31.
Definition PICOQUIC_ERROR_CNXID_SEGMENT : Z := PICOQUIC_ERROR_CLASS + 32.

Definition PICOQUIC_RESET_SECRET_SIZE : Z := 16.

(** [struct sockaddr]: the raw bytes of the address. *)
Definition sockaddr : Type := list Z.

(** [picoquic_packet_header] *)
Record picoquic_packet_header : Type := {
  ph_dest_cnx_id : picoquic_connection_id_t;
  ph_srce_cnx_id : picoquic_connection_id_t;
  ph_pn : Z;
  ph_vn : Z;
  ph_offset : Z;
  ph_pn_offset : Z;
  ph_ptype : picoquic_packet_type_enum;
  ph_pnmask : Z;
  ph_pn64 : Z;
  ph_payload_length : Z;
  ph_version_index : Z;
  ph_epoch : Z;
  ph_pc : picoquic_packet_context_enum;
  ph_has_spin_bit : Z;
  ph_spin : Z;
  ph_spin_vec : Z;
  ph_token_length : Z;
  ph_token_offset : Z
}.

Definition set_ph_dest_cnx_id (v : picoquic_connection_id_t)
    (r : picoquic_packet_header) : picoquic_packet_header :=
  {| ph_dest_cnx_id := v; ph_srce_cnx_id := ph_srce_cnx_id r;
     ph_pn := ph_pn r; ph_vn := ph_vn r; ph_offset := ph_offset r;
     ph_pn_offset := ph_pn_offset r; ph_ptype := ph_ptype r;
     ph_pnmask := ph_pnmask r; ph_pn64 := ph_pn64 r;
     ph_payload_length := ph_payload_length r;
     ph_version_index := ph_version_index r; ph_epoch := ph_epoch r;
     ph_pc := ph_pc r; ph_has_spin_bit := ph_has_spin_bit r;
     ph_spin := ph_spin r; ph_spin_vec := ph_spin_vec r;
     ph_token_length := ph_token_length r;
     ph_token_offset := ph_token_offset r |}.

Definition set_ph_srce_cnx_id (v : picoquic_connection_id_t)
    (r : picoquic_packet_header) : picoquic_packet_header :=
  {| ph_dest_cnx_id := ph_dest_cnx_id r; ph_srce_cnx_id := v;
     ph_pn := ph_pn r; ph_vn := ph_vn r; ph_offset := ph_offset r;
     ph_pn_offset := ph_pn_offset r; ph_ptype := ph_ptype r;
     ph_pnmask := ph_pnmask r; ph_pn64 := ph_pn64 r;
     ph_payload_length := ph_payload_length r;
     ph_version_index := ph_version_index r; ph_epoch := ph_epoch r;
     ph_pc := ph_pc r; ph_has_spin_bit := ph_has_spin_bit r;
     ph_spin := ph_spin r; ph_spin_vec := ph_spin_vec r;
     ph_token_length := ph_token_length r;
     ph_token_offset := ph_token_offset r |}.

Definition set_ph_pn (v : Z)
    (r : picoquic_packet_header) : picoquic_packet_header :=
  {| ph_dest_cnx_id := ph_dest_cnx_id r; ph_srce_cnx_id := ph_srce_cnx_id r;
     ph_pn := v; ph_vn := ph_vn r; ph_offset := ph_offset r;
     ph_pn_offset := ph_pn_offset r; ph_ptype := ph_ptype r;
     ph_pnmask := ph_pnmask r; ph_pn64 := ph_pn64 r;
     ph_payload_length := ph_payload_length r;
     ph_version_index := ph_version_index r; ph_epoch := ph_epoch r;
     ph_pc := ph_pc r; ph_has_spin_bit := ph_has_spin_bit r;
     ph_spin := ph_spin r; ph_spin_vec := ph_spin_vec r;
     ph_token_length := ph_token_length r;
     ph_token_offset := ph_token_offset r |}.

Definition set_ph_vn (v : Z)
    (r : picoquic_packet_header) : picoquic_packet_header :=
  {| ph_dest_cnx_id := ph_dest_cnx_id r; ph_srce_cnx_id := ph_srce_cnx_id r;
     ph_pn := ph_pn r; ph_vn := v; ph_offset := ph_offset r;
     ph_pn_offset := ph_pn_offset r; ph_ptype := ph_ptype r;
     ph_pnmask := ph_pnmask r; ph_pn64 := ph_pn64 r;
     ph_payload_length := ph_payload_length r;
     ph_version_index := ph_version_index r; ph_epoch := ph_epoch r;
     ph_pc := ph_pc r; ph_has_spin_bit := ph_has_spin_bit r;
     ph_spin := ph_spin r; ph_spin_vec := ph_spin_vec r;
     ph_token_length := ph_token_length r;
     ph_token_offset := ph_token_offset r |}.

Definition set_ph_offset (v : Z)
    (r : picoquic_packet_header) : picoquic_packet_header :=
  {| ph_dest_cnx_id := ph_dest_cnx_id r; ph_srce_cnx_id := ph_srce_cnx_id r;
     ph_pn := ph_pn r; ph_vn := ph_vn r; ph_offset := v;
     ph_pn_offset := ph_pn_offset r; ph_ptype := ph_ptype r;
     ph_pnmask := ph_pnmask r; ph_pn64 := ph_pn64 r;
     ph_payload_length := ph_payload_length r;
     ph_version_index := ph_version_index r; ph_epoch := ph_epoch r;
     ph_pc := ph_pc r; ph_has_spin_bit := ph_has_spin_bit r;
     ph_spin := ph_spin r; ph_spin_vec := ph_spin_vec r;
     ph_token_length := ph_token_length r;
     ph_token_offset := ph_token_offset r |}.

Definition set_ph_pn_offset (v : Z)
    (r : picoquic_packet_header) : picoquic_packet_header :=
  {| ph_dest_cnx_id := ph_dest_cnx_id r; ph_srce_cnx_id := ph_srce_cnx_id r;
     ph_pn := ph_pn r; ph_vn := ph_vn r; ph_offset := ph_offset r;
     ph_pn_offset := v; ph_ptype := ph_ptype r; ph_pnmask := ph_pnmask r;
     ph_pn64 := ph_pn64 r; ph_payload_length := ph_payload_length r;
     ph_version_index := ph_version_index r; ph_epoch := ph_epoch r;
     ph_pc := ph_pc r; ph_has_spin_bit := ph_has_spin_bit r;
     ph_spin := ph_spin r; ph_spin_vec := ph_spin_vec r;
     ph_token_length := ph_token_length r;
     ph_token_offset := ph_token_offset r |}.

Definition set_ph_ptype (v : picoquic_packet_type_enum)
    (r : picoquic_packet_header) : picoquic_packet_header :=
  {| ph_dest_cnx_id := ph_dest_cnx_id r; ph_srce_cnx_id := ph_srce_cnx_id r;
     ph_pn := ph_pn r; ph_vn := ph_vn r; ph_offset := ph_offset r;
     ph_pn_offset := ph_pn_offset r; ph_ptype := v; ph_pnmask := ph_pnmask r;
     ph_pn64 := ph_pn64 r; ph_payload_length := ph_payload_length r;
     ph_version_index := ph_version_index r; ph_epoch := ph_epoch r;
     ph_pc := ph_pc r; ph_has_spin_bit := ph_has_spin_bit r;
     ph_spin := ph_spin r; ph_spin_vec := ph_spin_vec r;
     ph_token_length := ph_token_length r;
     ph_token_offset := ph_token_offset r |}.

Definition set_ph_pnmask (v : Z)
    (r : picoquic_packet_header) : picoquic_packet_header :=
  {| ph_dest_cnx_id := ph_dest_cnx_id r; ph_srce_cnx_id := ph_srce_cnx_id r;
     ph_pn := ph_pn r; ph_vn := ph_vn r; ph_offset := ph_offset r;
     ph_pn_offset := ph_pn_offset r; ph_ptype := ph_ptype r; ph_pnmask := v;
     ph_pn64 := ph_pn64 r; ph_payload_length := ph_payload_length r;
     ph_version_index := ph_version_index r; ph_epoch := ph_epoch r;
     ph_pc := ph_pc r; ph_has_spin_bit := ph_has_spin_bit r;
     ph_spin := ph_spin r; ph_spin_vec := ph_spin_vec r;
     ph_token_length := ph_token_length r;
     ph_token_offset := ph_token_offset r |}.

Definition set_ph_pn64 (v : Z)
    (r : picoquic_packet_header) : picoquic_packet_header :=
  {| ph_dest_cnx_id := ph_dest_cnx_id r; ph_srce_cnx_id := ph_srce_cnx_id r;
     ph_pn := ph_pn r; ph_vn := ph_vn r; ph_offset := ph_offset r;
     ph_pn_offset := ph_pn_offset r; ph_ptype := ph_ptype r;
     ph_pnmask := ph_pnmask r; ph_pn64 := v;
     ph_payload_length := ph_payload_length r;
     ph_version_index := ph_version_index r; ph_epoch := ph_epoch r;
     ph_pc := ph_pc r; ph_has_spin_bit := ph_has_spin_bit r;
     ph_spin := ph_spin r; ph_spin_vec := ph_spin_vec r;
     ph_token_length := ph_token_length r;
     ph_token_offset := ph_token_offset r |}.

Definition set_ph_payload_length (v : Z)
    (r : picoquic_packet_header) : picoquic_packet_header :=
  {| ph_dest_cnx_id := ph_dest_cnx_id r; ph_srce_cnx_id := ph_srce_cnx_id r;
     ph_pn := ph_pn r; ph_vn := ph_vn r; ph_offset := ph_offset r;
     ph_pn_offset := ph_pn_offset r; ph_ptype := ph_ptype r;
     ph_pnmask := ph_pnmask r; ph_pn64 := ph_pn64 r; ph_payload_length := v;
     ph_version_index := ph_version_index r; ph_epoch := ph_epoch r;
     ph_pc := ph_pc r; ph_has_spin_bit := ph_has_spin_bit r;
     ph_spin := ph_spin r; ph_spin_vec := ph_spin_vec r;
     ph_token_length := ph_token_length r;
     ph_token_offset := ph_token_offset r |}.

Definition set_ph_version_index (v : Z)
    (r : picoquic_packet_header) : picoquic_packet_header :=
  {| ph_dest_cnx_id := ph_dest_cnx_id r; ph_srce_cnx_id := ph_srce_cnx_id r;
     ph_pn := ph_pn r; ph_vn := ph_vn r; ph_offset := ph_offset r;
     ph_pn_offset := ph_pn_offset r; ph_ptype := ph_ptype r;
     ph_pnmask := ph_pnmask r; ph_pn64 := ph_pn64 r;
     ph_payload_length := ph_payload_length r; ph_version_index := v;
     ph_epoch := ph_epoch r; ph_pc := ph_pc r;
     ph_has_spin_bit := ph_has_spin_bit r; ph_spin := ph_spin r;
     ph_spin_vec := ph_spin_vec r; ph_token_length := ph_token_length r;
     ph_token_offset := ph_token_offset r |}.

Definition set_ph_epoch (v : Z)
    (r : picoquic_packet_header) : picoquic_packet_header :=
  {| ph_dest_cnx_id := ph_dest_cnx_id r; ph_srce_cnx_id := ph_srce_cnx_id r;
     ph_pn := ph_pn r; ph_vn := ph_vn r; ph_offset := ph_offset r;
     ph_pn_offset := ph_pn_offset r; ph_ptype := ph_ptype r;
     ph_pnmask := ph_pnmask r; ph_pn64 := ph_pn64 r;
     ph_payload_length := ph_payload_length r;
     ph_version_index := ph_version_index r; ph_epoch := v; ph_pc := ph_pc r;
     ph_has_spin_bit := ph_has_spin_bit r; ph_spin := ph_spin r;
     ph_spin_vec := ph_spin_vec r; ph_token_length := ph_token_length r;
     ph_token_offset := ph_token_offset r |}.

Definition set_ph_pc (v : picoquic_packet_context_enum)
    (r : picoquic_packet_header) : picoquic_packet_header :=
  {| ph_dest_cnx_id := ph_dest_cnx_id r; ph_srce_cnx_id := ph_srce_cnx_id r;
     ph_pn := ph_pn r; ph_vn := ph_vn r; ph_offset := ph_offset r;
     ph_pn_offset := ph_pn_offset r; ph_ptype := ph_ptype r;
     ph_pnmask := ph_pnmask r; ph_pn64 := ph_pn64 r;
     ph_payload_length := ph_payload_length r;
     ph_version_index := ph_version_index r; ph_epoch := ph_epoch r;
     ph_pc := v; ph_has_spin_bit := ph_has_spin_bit r; ph_spin := ph_spin r;
     ph_spin_vec := ph_spin_vec r; ph_token_length := ph_token_length r;
     ph_token_offset := ph_token_offset r |}.

Definition set_ph_has_spin_bit (v : Z)
    (r : picoquic_packet_header) : picoquic_packet_header :=
  {| ph_dest_cnx_id := ph_dest_cnx_id r; ph_srce_cnx_id := ph_srce_cnx_id r;
     ph_pn := ph_pn r; ph_vn := ph_vn r; ph_offset := ph_offset r;
     ph_pn_offset := ph_pn_offset r; ph_ptype := ph_ptype r;
     ph_pnmask := ph_pnmask r; ph_pn64 := ph_pn64 r;
     ph_payload_length := ph_payload_length r;
     ph_version_index := ph_version_index r; ph_epoch := ph_epoch r;
     ph_pc := ph_pc r; ph_has_spin_bit := v; ph_spin := ph_spin r;
     ph_spin_vec := ph_spin_vec r; ph_token_length := ph_token_length r;
     ph_token_offset := ph_token_offset r |}.

Definition set_ph_spin (v : Z)
    (r : picoquic_packet_header) : picoquic_packet_header :=
  {| ph_dest_cnx_id := ph_dest_cnx_id r; ph_srce_cnx_id := ph_srce_cnx_id r;
     ph_pn := ph_pn r; ph_vn := ph_vn r; ph_offset := ph_offset r;
     ph_pn_offset := ph_pn_offset r; ph_ptype := ph_ptype r;
     ph_pnmask := ph_pnmask r; ph_pn64 := ph_pn64 r;
     ph_payload_length := ph_payload_length r;
     ph_version_index := ph_version_index r; ph_epoch := ph_epoch r;
     ph_pc := ph_pc r; ph_has_spin_bit := ph_has_spin_bit r; ph_spin := v;
     ph_spin_vec := ph_spin_vec r; ph_token_length := ph_token_length r;
     ph_token_offset := ph_token_offset r |}.

Definition set_ph_token_length (v : Z)
    (r : picoquic_packet_header) : picoquic_packet_header :=
  {| ph_dest_cnx_id := ph_dest_cnx_id r; ph_srce_cnx_id := ph_srce_cnx_id r;
     ph_pn := ph_pn r; ph_vn := ph_vn r; ph_offset := ph_offset r;
     ph_pn_offset := ph_pn_offset r; ph_ptype := ph_ptype r;
     ph_pnmask := ph_pnmask r; ph_pn64 := ph_pn64 r;
     ph_payload_length := ph_payload_length r;
     ph_version_index := ph_version_index r; ph_epoch := ph_epoch r;
     ph_pc := ph_pc r; ph_has_spin_bit := ph_has_spin_bit r;
     ph_spin := ph_spin r; ph_spin_vec := ph_spin_vec r;
     ph_token_length := v; ph_token_offset := ph_token_offset r |}.

Definition set_ph_token_offset (v : Z)
    (r : picoquic_packet_header) : picoquic_packet_header :=
  {| ph_dest_cnx_id := ph_dest_cnx_id r; ph_srce_cnx_id := ph_srce_cnx_id r;
     ph_pn := ph_pn r; ph_vn := ph_vn r; ph_offset := ph_offset r;
     ph_pn_offset := ph_pn_offset r; ph_ptype := ph_ptype r;
     ph_pnmask := ph_pnmask r; ph_pn64 := ph_pn64 r;
     ph_payload_length := ph_payload_length r;
     ph_version_index := ph_version_index r; ph_epoch := ph_epoch r;
     ph_pc := ph_pc r; ph_has_spin_bit := ph_has_spin_bit r;
     ph_spin := ph_spin r; ph_spin_vec := ph_spin_vec r;
     ph_token_length := ph_token_length r; ph_token_offset := v |}.

(** [picoquic_packet_context_t]: the per-space packet context.
    [end_of_sack_range] is [first_sack_item.end_of_sack_range], the largest
    packet number received; [sack_list] stands for the receive set. *)
Record picoquic_packet_context_t : Type := {
  send_sequence : Z;
  end_of_sack_range : Z;
  ack_needed : Z;
  sack_list : list (Z * Z)
}.

Definition set_ack_needed (v : Z)
    (r : picoquic_packet_context_t) : picoquic_packet_context_t :=
  {| send_sequence := send_sequence r;
     end_of_sack_range := end_of_sack_range r; ack_needed := v;
     sack_list := sack_list r |}.

(** [picoquic_path_t] *)
Record picoquic_path_t : Type := {
  local_cnxid : picoquic_connection_id_t;
  remote_cnxid : picoquic_connection_id_t;
  reset_secret : list Z;
  pkt_ctx : picoquic_packet_context_enum -> picoquic_packet_context_t;
  local_addr : sockaddr;
  local_addr_len : Z;
  peer_addr : sockaddr;
  path_rest : list Z
}.

Definition set_remote_cnxid (v : picoquic_connection_id_t)
    (r : picoquic_path_t) : picoquic_path_t :=
  {| local_cnxid := local_cnxid r; remote_cnxid := v;
     reset_secret := reset_secret r; pkt_ctx := pkt_ctx r;
     local_addr := local_addr r; local_addr_len := local_addr_len r;
     peer_addr := peer_addr r; path_rest := path_rest r |}.

Definition set_pkt_ctx (v : picoquic_packet_context_enum -> picoquic_packet_context_t)
    (r : picoquic_path_t) : picoquic_path_t :=
  {| local_cnxid := local_cnxid r; remote_cnxid := remote_cnxid r;
     reset_secret := reset_secret r; pkt_ctx := v;
     local_addr := local_addr r; local_addr_len := local_addr_len r;
     peer_addr := peer_addr r; path_rest := path_rest r |}.

Definition set_local_addr (v : sockaddr)
    (r : picoquic_path_t) : picoquic_path_t :=
  {| local_cnxid := local_cnxid r; remote_cnxid := remote_cnxid r;
     reset_secret := reset_secret r; pkt_ctx := pkt_ctx r; local_addr := v;
     local_addr_len := local_addr_len r; peer_addr := peer_addr r;
     path_rest := path_rest r |}.

Definition set_local_addr_len (v : Z)
    (r : picoquic_path_t) : picoquic_path_t :=
  {| local_cnxid := local_cnxid r; remote_cnxid := remote_cnxid r;
     reset_secret := reset_secret r; pkt_ctx := pkt_ctx r;
     local_addr := local_addr r; local_addr_len := v;
     peer_addr := peer_addr r; path_rest := path_rest r |}.

(** [picoquic_crypto_context_t]: four nullable pointers to key contexts. *)
Record picoquic_crypto_context_t : Type := {
  aead_encrypt : option Z;
  aead_decrypt : option Z;
  hp_enc : option Z;
  hp_dec : option Z
}.

(** [picoquic_cnx_t], restricted to the fields [packet.c] reads or writes
    itself; [cnx_rest] stands for everything else. *)
Record picoquic_cnx_t : Type := {
  cnx_state : picoquic_state_enum;
  client_mode : Z;
  version_index : Z;
  initial_cnxid : picoquic_connection_id_t;
  path : list picoquic_path_t;
  crypto_context : Z -> picoquic_crypto_context_t;
  callback_fn : option Z;
  original_destination_connection_id : picoquic_connection_id_t;
  processed_transport_parameter : Z;
  remote_parameters_received : Z;
  cnx_rest : list Z
}.

Definition set_cnx_state (v : picoquic_state_enum)
    (r : picoquic_cnx_t) : picoquic_cnx_t :=
  {| cnx_state := v; client_mode := client_mode r;
     version_index := version_index r; initial_cnxid := initial_cnxid r;
     path := path r; crypto_context := crypto_context r;
     callback_fn := callback_fn r;
     original_destination_connection_id := original_destination_connection_id r;
     processed_transport_parameter := processed_transport_parameter r;
     remote_parameters_received := remote_parameters_received r;
     cnx_rest := cnx_rest r |}.

Definition set_path (v : list picoquic_path_t)
    (r : picoquic_cnx_t) : picoquic_cnx_t :=
  {| cnx_state := cnx_state r; client_mode := client_mode r;
     version_index := version_index r; initial_cnxid := initial_cnxid r;
     path := v; crypto_context := crypto_context r;
     callback_fn := callback_fn r;
     original_destination_connection_id := original_destination_connection_id r;
     processed_transport_parameter := processed_transport_parameter r;
     remote_parameters_received := remote_parameters_received r;
     cnx_rest := cnx_rest r |}.

Definition set_original_destination_connection_id (v : picoquic_connection_id_t)
    (r : picoquic_cnx_t) : picoquic_cnx_t :=
  {| cnx_state := cnx_state r; client_mode := client_mode r;
     version_index := version_index r; initial_cnxid := initial_cnxid r;
     path := path r; crypto_context := crypto_context r;
     callback_fn := callback_fn r; original_destination_connection_id := v;
     processed_transport_parameter := processed_transport_parameter r;
     remote_parameters_received := remote_parameters_received r;
     cnx_rest := cnx_rest r |}.

Definition set_processed_transport_parameter (v : Z)
    (r : picoquic_cnx_t) : picoquic_cnx_t :=
  {| cnx_state := cnx_state r; client_mode := client_mode r;
     version_index := version_index r; initial_cnxid := initial_cnxid r;
     path := path r; crypto_context := crypto_context r;
     callback_fn := callback_fn r;
     original_destination_connection_id := original_destination_connection_id r;
     processed_transport_parameter := v;
     remote_parameters_received := remote_parameters_received r;
     cnx_rest := cnx_rest r |}.

(** [picoquic_quic_t]: the endpoint.  It owns the connections; a
    [picoquic_cnx_t*] is a key of [cnx_table]. *)
Record picoquic_quic_t : Type := {
  local_ctx_length : Z;
  cnx_table : gmap nat picoquic_cnx_t;
  quic_rest : list Z
}.

Definition set_cnx_table (v : gmap nat picoquic_cnx_t)
    (r : picoquic_quic_t) : picoquic_quic_t :=
  {| local_ctx_length := local_ctx_length r; cnx_table := v;
     quic_rest := quic_rest r |}.

(** ** What [packet.c] takes from the rest of the library

    The declarations of [picoquic.h] that the file needs as values, and the
    functions of other translation units that it calls.  A function that
    works on a connection takes the endpoint and the handle of the
    connection and returns the endpoint it leaves behind. *)
Class picoquic_externals : Type := {
  (** the enumerators of value 0, which [memset] leaves in a zeroed header
      and which [ph->pc = 0] assigns *)
  packet_type_zero : picoquic_packet_type_enum;
  packet_context_zero : picoquic_packet_context_enum;
  PICOQUIC_ENFORCED_INITIAL_MTU : Z;
  PICOQUIC_RESET_PACKET_MIN_SIZE : Z;
  (** [(a->sa_family == AF_INET) ? sizeof(struct sockaddr_in)
                                 : sizeof(struct sockaddr_in6)] *)
  sockaddr_len : sockaddr -> Z;
  (** the table [picoquic_supported_versions] *)
  picoquic_get_version_index : Z -> Z;
  version_header_encoding : Z -> picoquic_version_header_encoding;
  (** the connection registry *)
  picoquic_cnx_by_id :
    picoquic_quic_t -> picoquic_connection_id_t -> option nat;
  picoquic_cnx_by_net : picoquic_quic_t -> sockaddr -> option nat;
  picoquic_create_cnx :
    picoquic_quic_t -> picoquic_connection_id_t -> picoquic_connection_id_t ->
    sockaddr -> Z -> Z -> option nat * picoquic_quic_t;
  picoquic_delete_cnx : picoquic_quic_t -> nat -> picoquic_quic_t;
  (** header protection and AEAD; a key context is designated by a [Z] *)
  picoquic_hp_iv_size : Z -> Z;
  picoquic_hp_encrypt : Z -> list Z -> list Z -> list Z;
  picoquic_aead_decrypt_generic :
    list Z -> Z -> Z -> list Z -> option Z -> Z * list Z;
  (** the receive set *)
  picoquic_is_pn_already_received :
    picoquic_path_t -> picoquic_packet_context_enum -> Z -> Z;
  picoquic_record_pn_received :
    picoquic_quic_t -> nat -> option nat -> picoquic_packet_context_enum ->
    Z -> Z -> Z * picoquic_quic_t;
  (** the per-type handlers and what they call *)
  picoquic_reset_cnx_version :
    picoquic_quic_t -> nat -> list Z -> Z -> Z -> Z * picoquic_quic_t;
  picoquic_incoming_initial :
    picoquic_quic_t -> nat -> list Z -> sockaddr -> sockaddr -> Z ->
    picoquic_packet_header -> Z -> Z -> Z * option nat * picoquic_quic_t;
  picoquic_incoming_retry :
    picoquic_quic_t -> nat -> list Z -> picoquic_packet_header -> Z ->
    Z * picoquic_quic_t;
  picoquic_incoming_server_cleartext :
    picoquic_quic_t -> nat -> list Z -> sockaddr -> Z ->
    picoquic_packet_header -> Z -> Z * picoquic_quic_t;
  picoquic_incoming_client_cleartext :
    picoquic_quic_t -> nat -> list Z -> picoquic_packet_header -> Z ->
    Z * picoquic_quic_t;
  picoquic_incoming_0rtt :
    picoquic_quic_t -> nat -> list Z -> picoquic_packet_header -> Z ->
    Z * picoquic_quic_t;
  picoquic_incoming_encrypted :
    picoquic_quic_t -> nat -> list Z -> picoquic_packet_header -> sockaddr ->
    Z -> Z * picoquic_quic_t;
  (** stateless responses *)
  picoquic_prepare_version_negotiation :
    picoquic_quic_t -> sockaddr -> sockaddr -> Z -> picoquic_packet_header ->
    picoquic_quic_t;
  queue_stateless_reset :
    picoquic_quic_t -> Z -> sockaddr -> sockaddr -> Z ->
    picoquic_packet_header -> picoquic_quic_t;
  (** hooks and up-calls *)
  picoquic_received_packet : picoquic_quic_t -> nat -> picoquic_quic_t;
  picoquic_header_parsed :
    picoquic_quic_t -> nat -> picoquic_packet_header -> option nat -> Z ->
    picoquic_quic_t;
  picoquic_cnx_set_next_wake_time :
    picoquic_quic_t -> nat -> Z -> picoquic_quic_t;
  picoquic_handle_plugin_negotiation :
    picoquic_quic_t -> nat -> picoquic_quic_t;
  run_callback_fn :
    Z -> picoquic_quic_t -> nat -> picoquic_call_back_event_t ->
    picoquic_quic_t
}.

Section Reception.

Context `{!picoquic_externals}.

(** [*pcnx], for a possibly null endpoint and a possibly null handle. *)
Definition deref_cnx (quic : option picoquic_quic_t) (pcnx : option nat)
  : outcome picoquic_cnx_t :=
  q ← deref quic; h ← deref pcnx; deref (cnx_table q !! h).

(** [cnx->path[0]] *)
Definition path_0 (cnx : picoquic_cnx_t) : outcome picoquic_path_t :=
  deref (path cnx !! 0%nat).

(** [memset(ph, 0, sizeof(picoquic_packet_header))] *)
Definition ph_memset_zero : picoquic_packet_header :=
  {| ph_dest_cnx_id := picoquic_null_connection_id;
     ph_srce_cnx_id := picoquic_null_connection_id;
     ph_pn := 0; ph_vn := 0; ph_offset := 0; ph_pn_offset := 0;
     ph_ptype := packet_type_zero; ph_pnmask := 0; ph_pn64 := 0;
     ph_payload_length := 0; ph_version_index := 0; ph_epoch := 0;
     ph_pc := packet_context_zero; ph_has_spin_bit := 0; ph_spin := 0;
     ph_spin_vec := 0; ph_token_length := 0; ph_token_offset := 0 |}.

(** [(uint16_t)((length > ph->offset) ? length - ph->offset : 0)] *)
Definition remaining16 (length : Z) (ph : picoquic_packet_header) : Z :=
  u16 (if length >? ph_offset ph then u32 (length - ph_offset ph) else 0).

(** ** [picoquic_parse_packet_header] (packet.c, lines 44-298) *)

(** Lines 101-113: the connection of a Version Negotiation packet. *)
Definition vn_find_cnx (quic : option picoquic_quic_t) (addr_from : sockaddr)
    (ph : picoquic_packet_header) (pcnx : option nat)
  : outcome (option nat) :=
  match pcnx, quic with
  | None, Some q =>
      if id_len (ph_dest_cnx_id ph) >? 0
      then Done (picoquic_cnx_by_id q (ph_dest_cnx_id ph))
      else
        match picoquic_cnx_by_net q addr_from with
        | Some h =>
            c ← deref_cnx quic (Some h);
            p ← path_0 c;
            if negb (id_len (local_cnxid p) =? 0) then Done None
            else Done (Some h)
        | None => Done None
        end
  | _, _ => Done pcnx
  end.

(** Lines 127-172: the long packet type, under the version-29 encoding. *)
Definition long_header_type_29 (bytes : list Z) (length type : Z)
    (ph : picoquic_packet_header) : picoquic_packet_header :=
  if type =? picoquic_long_packet_type_initial then
    let '(l_tok_len, tok_len) :=
      picoquic_varint_decode (advance bytes (ph_offset ph))
                             (u32 (length - ph_offset ph)) in
    let ph := set_ph_ptype picoquic_packet_initial ph in
    let ph := set_ph_pc picoquic_packet_context_initial ph in
    let ph := set_ph_epoch 0 ph in
    if l_tok_len =? 0 then
      let ph := set_ph_offset length ph in
      let ph := set_ph_ptype picoquic_packet_error ph in
      set_ph_pc packet_context_zero ph
    else
      let ph := set_ph_token_length (u32 tok_len) ph in
      let ph := set_ph_token_offset (u32 (ph_offset ph + u32 l_tok_len)) ph in
      set_ph_offset (u32 (ph_offset ph + u32 (u64 (l_tok_len + tok_len)))) ph
  else if type =? picoquic_long_packet_type_0rtt then
    let ph := set_ph_ptype picoquic_packet_0rtt_protected ph in
    let ph := set_ph_pc picoquic_packet_context_application ph in
    set_ph_epoch 1 ph
  else if type =? picoquic_long_packet_type_handshake then
    let ph := set_ph_ptype picoquic_packet_handshake ph in
    let ph := set_ph_pc picoquic_packet_context_handshake ph in
    set_ph_epoch 2 ph
  else if type =? picoquic_long_packet_type_retry then
    let ph := set_ph_ptype picoquic_packet_retry ph in
    let ph := set_ph_pc picoquic_packet_context_initial ph in
    set_ph_epoch 0 ph
  else
    let ph := set_ph_offset length ph in
    let ph := set_ph_ptype picoquic_packet_error ph in
    set_ph_pc packet_context_zero ph.

(** Lines 184-204: the payload length.  The result is the header with the
    local variables [payload_length] and [var_length]. *)
Definition long_header_payload_length (bytes : list Z) (length : Z)
    (ph : picoquic_packet_header) : picoquic_packet_header * Z * Z :=
  if bool_decide (ph_ptype ph = picoquic_packet_retry) then
    if length >? ph_offset ph
    then (ph, u32 (u16 length - ph_offset ph), 0)
    else (set_ph_ptype picoquic_packet_error ph, 0, 0)
  else
    let '(var_length, payload_length) :=
      if ph_offset ph <? length then
        let '(l, v) :=
          picoquic_varint_decode (advance bytes (ph_offset ph))
                                 (u32 (length - ph_offset ph)) in
        (u32 l, v)
      else (0, 0) in
    let pn_length_clear := 0 in
    if (var_length <=? 0)
       || (u64 (u64 (u32 (ph_offset ph + var_length) + pn_length_clear)
                + payload_length) >? length)
       || (ph_version_index ph <? 0)
    then
      let ph := set_ph_ptype picoquic_packet_error ph in
      (set_ph_payload_length (remaining16 length ph) ph,
       payload_length, var_length)
    else (ph, payload_length, var_length).

(** Lines 213-239: the connection of a long-header packet. *)
Definition long_header_find_cnx (quic : option picoquic_quic_t)
    (addr_from : sockaddr) (ph : picoquic_packet_header) (pcnx : option nat)
  : outcome (option nat) :=
  let '(pcnx, context_by_addr) :=
    match pcnx, quic with
    | None, Some q =>
        match picoquic_cnx_by_id q (ph_dest_cnx_id ph) with
        | Some h => (Some h, false)
        | None =>
            match picoquic_cnx_by_net q addr_from with
            | Some h => (Some h, true)
            | None => (None, false)
            end
        end
    | _, _ => (pcnx, false)
    end in
  if context_by_addr then
    if bool_decide (ph_ptype ph = picoquic_packet_initial)
       || bool_decide (ph_ptype ph = picoquic_packet_0rtt_protected)
    then
      c ← deref_cnx quic pcnx;
      if negb (picoquic_compare_connection_id_eq (initial_cnxid c)
                                                 (ph_dest_cnx_id ph))
      then Done None else Done pcnx
    else Done None
  else Done pcnx.

(** Lines 72-243: the long header. *)
Definition parse_long_header (quic : option picoquic_quic_t) (bytes : list Z)
    (length : Z) (addr_from : sockaddr) (ph : picoquic_packet_header)
    (pcnx : option nat)
  : outcome (Z * picoquic_packet_header * option nat) :=
  if length <? 7 then Done (-1, ph, pcnx)
  else
    let type := Z.land (Z.shiftr (byte_at bytes 0) 4) 3 in
    let ph := set_ph_vn (PICOPARSE_32 (advance bytes 1)) ph in
    let l_dest_id := byte_at bytes 5 in
    if 6 + l_dest_id + 1 >? s32 length then Done (-1, ph, pcnx)
    else
      let ph := set_ph_offset 6 ph in
      let '(n, cid) :=
        picoquic_parse_connection_id (advance bytes (ph_offset ph)) l_dest_id in
      let ph := set_ph_dest_cnx_id cid ph in
      let ph := set_ph_offset (u32 (ph_offset ph + n)) ph in
      let l_srce_id := byte_at bytes (ph_offset ph) in
      let ph := set_ph_offset (u32 (ph_offset ph + 1)) ph in
      let '(n, cid) :=
        picoquic_parse_connection_id (advance bytes (ph_offset ph)) l_srce_id in
      let ph := set_ph_srce_cnx_id cid ph in
      let ph := set_ph_offset (u32 (ph_offset ph + n)) ph in
      let ph := set_ph_has_spin_bit 0 ph in
      let ph := set_ph_spin 0 ph in
      if ph_vn ph =? 0 then
        let ph := set_ph_ptype picoquic_packet_version_negotiation ph in
        let ph := set_ph_pc picoquic_packet_context_initial ph in
        let ph := set_ph_payload_length (remaining16 length ph) ph in
        pcnx ← vn_find_cnx quic addr_from ph pcnx;
        Done (0, ph, pcnx)
      else
        let ph := set_ph_version_index (picoquic_get_version_index (ph_vn ph)) ph in
        let ph :=
          if ph_version_index ph >=? 0 then
            match version_header_encoding (ph_version_index ph) with
            | picoquic_version_header_29 =>
                long_header_type_29 bytes length type ph
            | _ =>
                let ph := set_ph_ptype picoquic_packet_error ph in
                let ph := set_ph_version_index (-1) ph in
                set_ph_pc packet_context_zero ph
            end
          else ph in
        let '(ph, payload_length, var_length) :=
          long_header_payload_length bytes length ph in
        if bool_decide (ph_ptype ph <> picoquic_packet_error) then
          let ph := set_ph_payload_length (u16 payload_length) ph in
          let ph := set_ph_offset (u32 (ph_offset ph + var_length)) ph in
          let ph := set_ph_pn_offset (ph_offset ph) ph in
          pcnx ← long_header_find_cnx quic addr_from ph pcnx;
          Done (0, ph, pcnx)
        else Done (0, ph, pcnx).

(** Lines 244-295: the short header. *)
Definition parse_short_header (quic : option picoquic_quic_t) (bytes : list Z)
    (length : Z) (addr_from : sockaddr) (ph : picoquic_packet_header)
    (pcnx : option nat) (receiving : Z)
  : outcome (Z * picoquic_packet_header * option nat) :=
  let local_ctx_length :=
    match quic with
    | None => 0
    | Some q => u8 (local_ctx_length q)
    end in
  cnxid_length ←
    (if (receiving =? 0) && bool_decide (pcnx <> None)
     then c ← deref_cnx quic pcnx; p ← path_0 c; Done (id_len (remote_cnxid p))
     else Done local_ctx_length);
  let ph := set_ph_pc picoquic_packet_context_application ph in
  if s32 length >=? 1 + cnxid_length then
    let '(n, cid) :=
      picoquic_parse_connection_id (advance bytes 1) cnxid_length in
    let ph := set_ph_dest_cnx_id cid ph in
    let ph := set_ph_offset (u32 (1 + n)) ph in
    let pcnx :=
      match pcnx, quic with
      | None, Some q =>
          if local_ctx_length >? 0
          then picoquic_cnx_by_id q (ph_dest_cnx_id ph)
          else picoquic_cnx_by_net q addr_from
      | _, _ => pcnx
      end in
    match pcnx with
    | Some _ =>
        c ← deref_cnx quic pcnx;
        let ph := set_ph_epoch 3 ph in
        let ph := set_ph_version_index (version_index c) ph in
        let ph :=
          match version_header_encoding (ph_version_index ph) with
          | picoquic_version_header_29 =>
              let ph := set_ph_has_spin_bit 1 ph in
              let ph := set_ph_ptype picoquic_packet_1rtt_protected_phi0 ph in
              let ph := set_ph_spin (Z.land (Z.shiftr (byte_at bytes 0) 5) 1) ph in
              let ph := set_ph_pn_offset (ph_offset ph) ph in
              let ph := set_ph_pn 0 ph in
              set_ph_pnmask 0 ph
          | _ => ph
          end in
        if length <? ph_offset ph
        then Done (-1, set_ph_payload_length 0 ph, pcnx)
        else Done (0, set_ph_payload_length (u16 (length - ph_offset ph)) ph, pcnx)
    | None =>
        (* This may be a packet to a forgotten connection *)
        Done (0, set_ph_payload_length (remaining16 length ph) ph, pcnx)
    end
  else
    let ph := set_ph_ptype picoquic_packet_error ph in
    let ph := set_ph_offset length ph in
    let ph := set_ph_payload_length 0 ph in
    Done (0, ph, pcnx).

Definition picoquic_parse_packet_header (quic : option picoquic_quic_t)
    (bytes : list Z) (length : Z) (addr_from : sockaddr)
    (pcnx : option nat) (receiving : Z)
  : outcome (Z * picoquic_packet_header * option nat) :=
  (* Initialize the PH structure to zero, but version index to -1 (error) *)
  let ph := set_ph_version_index (-1) ph_memset_zero in
  if length =? 0 then Done (-1, ph, pcnx)
  else if negb (Z.land (byte_at bytes 0) 0x40 =? 0x40) then
    let ph := set_ph_ptype picoquic_packet_error ph in
    let ph := set_ph_offset length ph in
    let ph := set_ph_payload_length 0 ph in
    Done (0, ph, pcnx)
  else if Z.land (byte_at bytes 0) 0x80 =? 0x80 then
    parse_long_header quic bytes length addr_from ph pcnx
  else
    parse_short_header quic bytes length addr_from ph pcnx receiving.

(** ** [picoquic_decrypt_packet] (packet.c, lines 331-418) *)

(** Lines 378-383: the [n] iterations of the loop over the packet-number
    bytes left to run, [i] being the index into the mask. *)
Fixpoint pn_decode_loop (mask : list Z) (n : nat) (i : Z) (bytes : list Z)
    (ph : picoquic_packet_header) (pn_val : Z)
  : list Z * picoquic_packet_header * Z :=
  match n with
  | O => (bytes, ph, pn_val)
  | S n' =>
      let pn_val := u32 (Z.shiftl pn_val 8) in
      let bytes :=
        store_byte bytes (ph_offset ph)
          (u8 (Z.lxor (byte_at bytes (ph_offset ph)) (byte_at mask i))) in
      let pn_val := u32 (pn_val + byte_at bytes (ph_offset ph)) in
      let ph := set_ph_offset (u32 (ph_offset ph + 1)) ph in
      let ph := set_ph_pnmask (pnmask_shift (ph_pnmask ph)) ph in
      pn_decode_loop mask n' (i + 1) bytes ph pn_val
  end.

(** Lines 357-359 and 394-396: the header of a packet whose packet number
    cannot be decoded. *)
Definition ph_pn_invalid (ph : picoquic_packet_header) : picoquic_packet_header :=
  let ph := set_ph_pn 0xFFFFFFFF ph in
  let ph := set_ph_pnmask 0xFFFFFFFF00000000 ph in
  set_ph_offset (ph_pn_offset ph) ph.

(** Lines 350-352 and 370: the five mask bytes, computed from the sample
    that starts four bytes after the packet number. *)
Definition hp_mask (hp : Z) (bytes : list Z) (ph : picoquic_packet_header)
  : list Z :=
  let sample_offset := u32 (ph_pn_offset ph + 4) in
  let sample_size := picoquic_hp_iv_size hp in
  picoquic_hp_encrypt hp
    (take (Z.to_nat sample_size) (advance bytes sample_offset))
    [0; 0; 0; 0; 0].

(** Lines 365-372: the first byte without its protection. *)
Definition unmasked_first_byte (hp : Z) (bytes : list Z)
    (ph : picoquic_packet_header) : Z :=
  let first_byte := byte_at bytes 0 in
  let first_mask := if Z.land first_byte 0x80 =? 0x80 then 0x0F else 0x1F in
  u8 (Z.lxor first_byte (Z.land (byte_at (hp_mask hp bytes ph) 0) first_mask)).

(** Lines 347-400: removal of the header protection. *)
Definition remove_header_protection (bytes : list Z) (length : Z)
    (ph : picoquic_packet_header) (hp_enc : option Z)
  : list Z * picoquic_packet_header :=
  match hp_enc with
  | Some hp =>
      let sample_offset := u32 (ph_pn_offset ph + 4) in
      let sample_size := picoquic_hp_iv_size hp in
      if u64 (sample_offset + sample_size) >? length then
        (* Invalid packet format. Avoid crash! *)
        (bytes, ph_pn_invalid ph)
      else
        let mask := hp_mask hp bytes ph in
        let first_byte := unmasked_first_byte hp bytes ph in
        let pn_l := u8 (Z.land first_byte 3 + 1) in
        let ph := set_ph_pnmask 0xFFFFFFFFFFFFFFFF ph in
        let bytes := store_byte bytes 0 first_byte in
        let '(bytes, ph, pn_val) :=
          pn_decode_loop mask (Z.to_nat pn_l) 1 bytes ph 0 in
        let ph := set_ph_pn pn_val ph in
        let ph := set_ph_payload_length (u16 (ph_payload_length ph - pn_l)) ph in
        (* Only set the key phase byte if short header *)
        let ph :=
          if bool_decide (ph_ptype ph = picoquic_packet_1rtt_protected_phi0) then
            set_ph_ptype
              (if Z.land (Z.shiftr first_byte 2) 1 =? 1
               then picoquic_packet_1rtt_protected_phi1
               else picoquic_packet_1rtt_protected_phi0) ph
          else ph in
        (bytes, ph)
  | None =>
      (* The hp_enc algorithm was not initialized. Avoid crash! *)
      (bytes, ph_pn_invalid ph)
  end.

(** [already_received] is [None] for a null pointer and the pointed value
    otherwise; [path_from] is a nullable index into [cnx->path].  The result
    is the decoded length, the buffer, the header and [*already_received]. *)
Definition picoquic_decrypt_packet (cnx : picoquic_cnx_t) (bytes : list Z)
    (packet_length : Z) (ph : picoquic_packet_header)
    (hp_enc aead_context : option Z) (already_received : option Z)
    (path_from : option nat)
  : outcome (Z * list Z * picoquic_packet_header * option Z) :=
  let length := u32 (ph_offset ph + ph_payload_length ph) in
  (* Might happen if the CID is not the one expected *)
  path_from ←
    match path_from with
    | Some i => deref (path cnx !! i)
    | None => path_0 cnx
    end;
  let already_received := option_map (fun _ => 0) already_received in
  let '(bytes, ph) := remove_header_protection bytes length ph hp_enc in
  (* Build a packet number to 64 bits *)
  let highest :=
    match already_received with
    | None => send_sequence (pkt_ctx path_from (ph_pc ph))
    | Some _ => end_of_sack_range (pkt_ctx path_from (ph_pc ph))
    end in
  let ph :=
    set_ph_pn64
      (picoquic_get_packet_number64 highest (ph_pnmask ph) (ph_pn ph)) ph in
  (* verify that the packet is new *)
  let already_received :=
    match already_received with
    | Some v =>
        if negb (picoquic_is_pn_already_received path_from (ph_pc ph)
                   (ph_pn64 ph) =? 0)
        then Some 1 else Some v
    | None => None
    end in
  (* by conventions, values larger than input indicate error *)
  let '(decoded, out) :=
    picoquic_aead_decrypt_generic
      (take (Z.to_nat (ph_payload_length ph)) (advance bytes (ph_offset ph)))
      (ph_payload_length ph) (ph_pn64 ph)
      (take (Z.to_nat (ph_offset ph)) bytes) aead_context in
  Done (decoded, store_bytes bytes (ph_offset ph) out, ph, already_received).

(** [get_incoming_path] (lines 423-434), the operation that
    [packet_register_noparam_protoops] registers for
    [PROTOOP_NOPARAM_GET_INCOMING_PATH], and through it
    [picoquic_get_incoming_path]: index 0 of [cnx->path], or null. *)
Definition picoquic_get_incoming_path (cnx : picoquic_cnx_t)
    (ph : picoquic_packet_header) : outcome (option nat) :=
  if picoquic_compare_connection_id_eq (ph_dest_cnx_id ph) (initial_cnxid cnx)
  then Done (Some 0%nat)
  else
    p ← path_0 cnx;
    if picoquic_compare_connection_id_eq (ph_dest_cnx_id ph) (local_cnxid p)
    then Done (Some 0%nat) else Done None.

(** [memcmp(a, b, n) == 0] *)
Definition memcmp_eq (a b : list Z) (n : Z) : bool :=
  bool_decide (map (fun i => byte_at a (Z.of_nat i)) (seq 0 (Z.to_nat n))
               = map (fun i => byte_at b (Z.of_nat i)) (seq 0 (Z.to_nat n))).

(** ** [picoquic_parse_header_and_decrypt] (packet.c, lines 444-563)

    The result is the return code with the endpoint, the buffer, the header,
    [*pcnx], [*consumed] and [*new_context_created]. *)

(** Lines 467-481: the admission of an Initial packet. *)
Definition admit_initial (quic : picoquic_quic_t) (packet_length : Z)
    (addr_from : sockaddr) (current_time : Z) (ph : picoquic_packet_header)
    (pcnx : option nat) (new_context_created : Z)
  : outcome (Z * picoquic_quic_t * option nat * Z) :=
  server_side ←
    match pcnx with
    | None => Done true
    | Some _ => c ← deref_cnx (Some quic) pcnx; Done (client_mode c =? 0)
    end;
  let ret :=
    if server_side && (packet_length <? PICOQUIC_ENFORCED_INITIAL_MTU)
    then PICOQUIC_ERROR_INITIAL_TOO_SHORT else 0 in
  if (ret =? 0) && bool_decide (pcnx = None) then
    (* if listening is OK, listen *)
    let '(pcnx, quic) :=
      picoquic_create_cnx quic (ph_dest_cnx_id ph) (ph_srce_cnx_id ph)
                          addr_from current_time (ph_vn ph) in
    Done (ret, quic, pcnx, if bool_decide (pcnx = None) then 0 else 1)
  else Done (ret, quic, pcnx, new_context_created).

(** Lines 486-527: decryption by packet type.  The result is the return
    code, [decoded_length], the buffer, the header, [already_received],
    [length] and [*consumed]. *)
Definition decrypt_by_type (cnx : picoquic_cnx_t) (bytes : list Z)
    (length packet_length : Z) (ph : picoquic_packet_header)
    (ret consumed : Z)
  : outcome (Z * Z * list Z * picoquic_packet_header * Z * Z * Z) :=
  path_from ← picoquic_get_incoming_path cnx ph;
  let decrypt (len epoch : Z) :=
    picoquic_decrypt_packet cnx bytes len ph
      (hp_dec (crypto_context cnx epoch))
      (aead_decrypt (crypto_context cnx epoch)) (Some 0) path_from in
  let already (a : option Z) := default 0 a in
  match ph_ptype ph with
  | picoquic_packet_version_negotiation =>
      (* Packet is not encrypted *)
      Done (ret, 0, bytes, ph, 0, length, consumed)
  | picoquic_packet_initial =>
      '(decoded_length, bytes, ph, a) ← decrypt packet_length 0;
      let length := u32 (ph_offset ph + ph_payload_length ph) in
      Done (ret, decoded_length, bytes, ph, already a, length, length)
  | picoquic_packet_retry =>
      (* packet is not encrypted, no sequence number. *)
      let ph := set_ph_pn 0 ph in
      let ph := set_ph_pn64 0 ph in
      let ph := set_ph_pnmask 0 ph in
      Done (ret, ph_payload_length ph, bytes, ph, 0, length, consumed)
  | picoquic_packet_handshake =>
      '(decoded_length, bytes, ph, a) ← decrypt length 2;
      Done (ret, decoded_length, bytes, ph, already a, length, consumed)
  | picoquic_packet_0rtt_protected =>
      '(decoded_length, bytes, ph, a) ← decrypt length 1;
      Done (ret, decoded_length, bytes, ph, already a, length, consumed)
  | picoquic_packet_1rtt_protected_phi0
  | picoquic_packet_1rtt_protected_phi1 =>
      '(decoded_length, bytes, ph, a) ← decrypt length 3;
      Done (ret, decoded_length, bytes, ph, already a, length, consumed)
  | picoquic_packet_error =>
      (* Packet type error. Log and ignore *)
      Done (PICOQUIC_ERROR_DETECTED, 0, bytes, ph, 0, length, consumed)
  end.

(** Lines 545-559: a short-header packet without connection may be a
    stateless reset. *)
Definition detect_stateless_reset (quic : picoquic_quic_t) (bytes : list Z)
    (length : Z) (addr_from : sockaddr) (ret : Z)
  : outcome (Z * option nat) :=
  match picoquic_cnx_by_net quic addr_from with
  | Some h =>
      if length >=? PICOQUIC_RESET_PACKET_MIN_SIZE then
        c ← deref_cnx (Some quic) (Some h);
        p ← path_0 c;
        if memcmp_eq (advance bytes (length - PICOQUIC_RESET_SECRET_SIZE))
                     (reset_secret p) PICOQUIC_RESET_SECRET_SIZE
        then Done (PICOQUIC_ERROR_STATELESS_RESET, Some h)
        else Done (ret, None)
      else Done (ret, None)
  | None => Done (ret, None)
  end.

Definition picoquic_parse_header_and_decrypt (quic : picoquic_quic_t)
    (bytes : list Z) (length packet_length : Z) (addr_from : sockaddr)
    (current_time : Z) (pcnx : option nat) (consumed : Z)
    (new_context_created : Z)
  : outcome (Z * picoquic_quic_t * list Z * picoquic_packet_header
             * option nat * Z * Z) :=
  '(ret, ph, pcnx) ←
    picoquic_parse_packet_header (Some quic) bytes length addr_from pcnx 1;
  if negb (ret =? 0) then
    Done (ret, quic, bytes, ph, pcnx, consumed, new_context_created)
  else
    let length := u32 (ph_offset ph + ph_payload_length ph) in
    let consumed := length in
    '(ret, quic, pcnx, new_context_created) ←
      (if bool_decide (ph_ptype ph = picoquic_packet_initial)
       then admit_initial quic packet_length addr_from current_time ph pcnx
                          new_context_created
       else Done (ret, quic, pcnx, new_context_created));
    match pcnx with
    | Some h =>
        cnx ← deref_cnx (Some quic) pcnx;
        '(ret, decoded_length, bytes, ph, already_received, length, consumed) ←
          decrypt_by_type cnx bytes length packet_length ph ret consumed;
        if decoded_length >? u32 (length - ph_offset ph) then
          if negb (new_context_created =? 0) then
            Done (PICOQUIC_ERROR_AEAD_CHECK, picoquic_delete_cnx quic h, bytes,
                  ph, None, consumed, 0)
          else
            Done (PICOQUIC_ERROR_AEAD_CHECK, quic, bytes, ph, pcnx, consumed,
                  new_context_created)
        else if negb (already_received =? 0) then
          Done (PICOQUIC_ERROR_DUPLICATE, quic, bytes, ph, pcnx, consumed,
                new_context_created)
        else
          Done (ret, quic, bytes,
                set_ph_payload_length (u16 decoded_length) ph, pcnx, consumed,
                new_context_created)
    | None =>
        if bool_decide (ph_ptype ph = picoquic_packet_1rtt_protected_phi0)
           || bool_decide (ph_ptype ph = picoquic_packet_1rtt_protected_phi1)
        then
          (* This may be a stateles reset *)
          '(ret, pcnx) ← detect_stateless_reset quic bytes length addr_from ret;
          Done (ret, quic, bytes, ph, pcnx, consumed, new_context_created)
        else Done (ret, quic, bytes, ph, pcnx, consumed, new_context_created)
    end.

(** ** The handlers that [packet.c] defines for itself *)

(** Replaces the connection of handle [h] by its image under [f]. *)
Definition update_cnx (quic : picoquic_quic_t) (h : nat)
    (f : picoquic_cnx_t -> picoquic_cnx_t) : outcome picoquic_quic_t :=
  c ← deref (cnx_table quic !! h);
  Done (set_cnx_table (<[h := f c]> (cnx_table quic)) quic).

(** Replaces [cnx->path[0]] by its image under [f]. *)
Definition update_path_0 (quic : picoquic_quic_t) (h : nat)
    (f : picoquic_path_t -> picoquic_path_t) : outcome picoquic_quic_t :=
  c ← deref (cnx_table quic !! h);
  p ← path_0 c;
  update_cnx quic h (set_path (<[0%nat := f p]> (path c))).

(** Modelled from the spec: [picoquic_set_cnx_state] (quicctx.c) makes the
    connection transition to the given state. *)
Definition picoquic_set_cnx_state (quic : picoquic_quic_t) (h : nat)
    (state : picoquic_state_enum) : outcome picoquic_quic_t :=
  update_cnx quic h (set_cnx_state state).

(** [picoquic_incoming_version_negotiation] (lines 576-599) *)
Definition picoquic_incoming_version_negotiation (quic : picoquic_quic_t)
    (h : nat) (bytes : list Z) (length : Z) (addr_from : sockaddr)
    (ph : picoquic_packet_header) (current_time : Z)
  : outcome (Z * picoquic_quic_t) :=
  c ← deref (cnx_table quic !! h);
  p ← path_0 c;
  if negb (picoquic_compare_connection_id_eq (ph_dest_cnx_id ph) (local_cnxid p))
     || negb (ph_vn ph =? 0)
  then Done (0, quic)
  else
    Done (picoquic_reset_cnx_version quic h (advance bytes (ph_offset ph))
            (u32 (length - ph_offset ph)) current_time).

(** [picoquic_process_unexpected_cnxid] (lines 661-704); the construction
    and queueing of the reset packet is [queue_stateless_reset]. *)
Definition picoquic_process_unexpected_cnxid (quic : picoquic_quic_t)
    (length : Z) (addr_from addr_to : sockaddr) (if_index_to : Z)
    (ph : picoquic_packet_header) : picoquic_quic_t :=
  if (length >? PICOQUIC_RESET_PACKET_MIN_SIZE)
     && (bool_decide (ph_ptype ph = picoquic_packet_1rtt_protected_phi0)
         || bool_decide (ph_ptype ph = picoquic_packet_1rtt_protected_phi1))
  then queue_stateless_reset quic length addr_from addr_to if_index_to ph
  else quic.

(** [picoquic_incoming_stateless_reset] (lines 1052-1063) *)
Definition picoquic_incoming_stateless_reset (quic : picoquic_quic_t) (h : nat)
  : outcome (Z * picoquic_quic_t) :=
  (* Stateless reset. The connection should be abandonned *)
  quic ← picoquic_set_cnx_state quic h picoquic_state_disconnected;
  c ← deref (cnx_table quic !! h);
  let quic :=
    match callback_fn c with
    | Some f => run_callback_fn f quic h picoquic_callback_stateless_reset
    | None => quic
    end in
  Done (PICOQUIC_ERROR_AEAD_CHECK, quic).

(** ** [picoquic_incoming_segment] (packet.c, lines 1253-1459) *)

(** Lines 1335-1366: an Initial packet on a known connection. *)
Definition dispatch_initial (quic : picoquic_quic_t) (h : nat)
    (bytes : list Z) (addr_from addr_to : sockaddr) (if_index_to : Z)
    (ph : picoquic_packet_header) (current_time new_context_created ret : Z)
  : outcome (Z * picoquic_quic_t * option nat) :=
  c ← deref (cnx_table quic !! h);
  for_this_cnx ←
    (if picoquic_compare_connection_id_eq (ph_dest_cnx_id ph) (initial_cnxid c)
     then Done true
     else p ← path_0 c;
          Done (picoquic_compare_connection_id_eq (ph_dest_cnx_id ph)
                                                  (local_cnxid p)));
  if for_this_cnx : bool then
    (* Verify that the source CID matches expectation *)
    p ← path_0 c;
    '(ret, quic) ←
      (if picoquic_is_connection_id_null (remote_cnxid p) then
         quic ← update_path_0 quic h (fun p =>
                  set_local_addr addr_to
                    (set_local_addr_len (sockaddr_len addr_to)
                       (set_remote_cnxid (ph_srce_cnx_id ph) p)));
         Done (ret, quic)
       else if negb (picoquic_compare_connection_id_eq (remote_cnxid p)
                                                       (ph_srce_cnx_id ph))
       then Done (PICOQUIC_ERROR_UNEXPECTED_PACKET, quic)
       else Done (ret, quic));
    if ret =? 0 then
      if client_mode c =? 0 then
        quic ← update_cnx quic h
                 (set_original_destination_connection_id (ph_dest_cnx_id ph));
        let '(ret, cnx, quic) :=
          picoquic_incoming_initial quic h bytes addr_from addr_to if_index_to
                                    ph current_time new_context_created in
        Done (ret, quic, cnx)
      else
        let '(ret, quic) :=
          picoquic_incoming_server_cleartext quic h bytes addr_to if_index_to
                                             ph current_time in
        Done (ret, quic, Some h)
    else Done (ret, quic, Some h)
  else Done (PICOQUIC_ERROR_DETECTED, quic, Some h).

(** Lines 1310-1400: a parsed and decrypted packet on a known connection. *)
Definition dispatch_packet (quic : picoquic_quic_t) (h : nat) (bytes : list Z)
    (length consumed : Z) (addr_from addr_to : sockaddr) (if_index_to : Z)
    (ph : picoquic_packet_header) (current_time new_context_created ret : Z)
  : outcome (Z * picoquic_quic_t * option nat) :=
  (* Hook for performing action when connection received new packet *)
  let quic := picoquic_received_packet quic h in
  c ← deref (cnx_table quic !! h);
  path ← picoquic_get_incoming_path c ph;
  let quic := picoquic_header_parsed quic h ph path consumed in
  c ← deref (cnx_table quic !! h);
  let keep (r : Z * picoquic_quic_t) := Done (r.1, r.2, Some h) in
  match ph_ptype ph with
  | picoquic_packet_version_negotiation =>
      if bool_decide (cnx_state c = picoquic_state_client_init_sent) then
        r ← picoquic_incoming_version_negotiation quic h bytes length addr_from
              ph current_time;
        keep r
      else Done (PICOQUIC_ERROR_DETECTED, quic, Some h)
  | picoquic_packet_initial =>
      dispatch_initial quic h bytes addr_from addr_to if_index_to ph
                       current_time new_context_created ret
  | picoquic_packet_retry =>
      keep (picoquic_incoming_retry quic h bytes ph current_time)
  | picoquic_packet_handshake =>
      if negb (client_mode c =? 0)
      then keep (picoquic_incoming_server_cleartext quic h bytes addr_to
                   if_index_to ph current_time)
      else keep (picoquic_incoming_client_cleartext quic h bytes ph current_time)
  | picoquic_packet_0rtt_protected =>
      keep (picoquic_incoming_0rtt quic h bytes ph current_time)
  | picoquic_packet_1rtt_protected_phi0
  | picoquic_packet_1rtt_protected_phi1 =>
      keep (picoquic_incoming_encrypted quic h bytes ph addr_from current_time)
  | picoquic_packet_error =>
      (* Packet type error. Log and ignore *)
      Done (PICOQUIC_ERROR_DETECTED, quic, Some h)
  end.

(** Lines 1296-1403. *)
Definition process_segment (quic : picoquic_quic_t) (cnx : option nat)
    (bytes : list Z) (length consumed : Z) (addr_from addr_to : sockaddr)
    (if_index_to : Z) (ph : picoquic_packet_header)
    (current_time new_context_created ret : Z)
  : outcome (Z * picoquic_quic_t * option nat) :=
  if ret =? 0 then
    match cnx with
    | None =>
        if (ph_version_index ph <? 0) && negb (ph_vn ph =? 0) then
          (* use the result of parsing to consider version negotiation *)
          Done (ret,
                picoquic_prepare_version_negotiation quic addr_from addr_to
                  if_index_to ph,
                cnx)
        else
          (* Unexpected packet. Reject, drop and log. *)
          let quic :=
            if negb (picoquic_is_connection_id_null (ph_dest_cnx_id ph))
            then picoquic_process_unexpected_cnxid quic length addr_from addr_to
                   if_index_to ph
            else quic in
          Done (PICOQUIC_ERROR_DETECTED, quic, cnx)
    | Some h =>
        dispatch_packet quic h bytes length consumed addr_from addr_to
                        if_index_to ph current_time new_context_created ret
    end
  else if ret =? PICOQUIC_ERROR_STATELESS_RESET then
    h ← deref cnx;
    r ← picoquic_incoming_stateless_reset quic h;
    Done (r.1, r.2, cnx)
  else Done (ret, quic, cnx).

(** [path_x->pkt_ctx[pc].ack_needed = 1] *)
Definition mark_ack_needed (pc : picoquic_packet_context_enum)
    (p : picoquic_path_t) : picoquic_path_t :=
  set_pkt_ctx
    (fun pc' =>
       if bool_decide (pc' = pc) then set_ack_needed 1 (pkt_ctx p pc')
       else pkt_ctx p pc') p.

(** Lines 1405-1445: bookkeeping by return code. *)
Definition conclude_segment (quic : picoquic_quic_t) (cnx : option nat)
    (ph : picoquic_packet_header) (current_time ret : Z)
  : outcome (Z * picoquic_quic_t) :=
  if (ret =? 0) || (ret =? PICOQUIC_ERROR_SPURIOUS_REPEAT) then
    match cnx with
    | Some h =>
        c ← deref (cnx_table quic !! h);
        '(ret, quic) ←
          (if bool_decide (cnx_state c <> picoquic_state_disconnected)
              && bool_decide (ph_ptype ph <> picoquic_packet_version_negotiation)
           then
             (* Mark the sequence number as received *)
             path_x ← picoquic_get_incoming_path c ph;
             Done (picoquic_record_pn_received quic h path_x (ph_pc ph)
                     (ph_pn64 ph) current_time)
           else Done (ret, quic));
        Done (ret, picoquic_cnx_set_next_wake_time quic h current_time)
    | None => Done (ret, quic)
    end
  else if ret =? PICOQUIC_ERROR_DUPLICATE then
    (* Bad packets are dropped silently, but duplicates should be
       acknowledged *)
    match cnx with
    | Some h =>
        c ← deref (cnx_table quic !! h);
        path_x ← picoquic_get_incoming_path c ph;
        i ← deref path_x;
        p ← deref (path c !! i);
        quic ← update_cnx quic h
                 (set_path (<[i := mark_ack_needed (ph_pc ph) p]> (path c)));
        Done (-1, quic)
    | None => Done (-1, quic)
    end
  else if (ret =? PICOQUIC_ERROR_AEAD_CHECK)
          || (ret =? PICOQUIC_ERROR_INITIAL_TOO_SHORT)
          || (ret =? PICOQUIC_ERROR_UNEXPECTED_PACKET)
          || (ret =? PICOQUIC_ERROR_FNV1A_CHECK)
          || (ret =? PICOQUIC_ERROR_CNXID_CHECK)
          || (ret =? PICOQUIC_ERROR_RETRY)
          || (ret =? PICOQUIC_ERROR_DETECTED)
          || (ret =? PICOQUIC_ERROR_CONNECTION_DELETED)
          || (ret =? PICOQUIC_ERROR_CNXID_SEGMENT)
  then Done (-1, quic) (* Bad packets are dropped silently *)
  else if ret =? 1 then Done (-1, quic)
  else if negb (ret =? 0) then Done (-1, quic)
  else Done (ret, quic).

(** Lines 1451-1456: the plugin negotiation, once the transport parameters
    of the peer are known. *)
Definition negotiate_plugins (quic : picoquic_quic_t) (cnx : option nat)
  : outcome picoquic_quic_t :=
  match cnx with
  | Some h =>
      c ← deref (cnx_table quic !! h);
      if (processed_transport_parameter c =? 0)
         && negb (remote_parameters_received c =? 0)
      then
        update_cnx (picoquic_handle_plugin_negotiation quic h) h
                   (set_processed_transport_parameter 1)
      else Done quic
  | None => Done quic
  end.

(** The result is the return code with the endpoint, the buffer,
    [*consumed], [*previous_dest_id] and [*new_context_created].  The calls
    that only write the log are left out. *)
Definition picoquic_incoming_segment (quic : picoquic_quic_t) (bytes : list Z)
    (length packet_length consumed : Z) (addr_from addr_to : sockaddr)
    (if_index_to current_time : Z)
    (previous_dest_id : picoquic_connection_id_t)
  : outcome (Z * picoquic_quic_t * list Z * Z * picoquic_connection_id_t * Z) :=
  let cnx : option nat := None in
  let new_context_created := 0 in
  (* Parse the header and decrypt the packet *)
  '(ret, quic, bytes, ph, cnx, consumed, new_context_created) ←
    picoquic_parse_header_and_decrypt quic bytes length packet_length
      addr_from current_time cnx consumed new_context_created;
  (* Verify that the segment coalescing is for the same destination ID *)
  let previous_dest_id :=
    if (ret =? 0) && picoquic_is_connection_id_null previous_dest_id
    then ph_dest_cnx_id ph else previous_dest_id in
  '(ret, quic, cnx) ←
    process_segment quic cnx bytes length consumed addr_from addr_to
                    if_index_to ph current_time new_context_created ret;
  '(ret, quic) ← conclude_segment quic cnx ph current_time ret;
  quic ← negotiate_plugins quic cnx;
  Done (ret, quic, bytes, consumed, previous_dest_id, new_context_created).

(** ** [picoquic_incoming_packet] (packet.c, lines 1461-1492)

    [fuel] bounds the number of iterations of the [while] loop.  The last
    component of the state, which the C code does not have, records the
    calls of [picoquic_incoming_segment] in order: for each call the value
    of [consumed_index], the code the call returned and the value it left
    in [consumed].  The result is the return code with the endpoint, the
    buffer, [*new_context_created] and that record. *)
Fixpoint incoming_packet_loop (fuel : nat) (quic : picoquic_quic_t)
    (bytes : list Z) (length consumed_index : Z) (addr_from addr_to : sockaddr)
    (if_index_to current_time : Z)
    (previous_destid : picoquic_connection_id_t)
    (new_context_created ret : Z) (walked : list (Z * Z * Z))
  : outcome (Z * picoquic_quic_t * list Z * Z * list (Z * Z * Z)) :=
  if consumed_index <? length then
    match fuel with
    | O => OutOfFuel
    | S fuel' =>
        let consumed := 0 in
        '(ret, quic, segment, consumed, previous_destid, new_context_created) ←
          picoquic_incoming_segment quic (advance bytes consumed_index)
            (u32 (length - consumed_index)) length consumed addr_from addr_to
            if_index_to current_time previous_destid;
        let bytes := take (Z.to_nat consumed_index) bytes ++ segment in
        let walked := walked ++ [(consumed_index, ret, consumed)] in
        if ret =? 0 then
          incoming_packet_loop fuel' quic bytes length
            (u32 (consumed_index + consumed)) addr_from addr_to if_index_to
            current_time previous_destid new_context_created ret walked
        else
          Done (0, quic, bytes, new_context_created, walked)
    end
  else Done (ret, quic, bytes, new_context_created, walked).

Definition picoquic_incoming_packet (fuel : nat) (quic : picoquic_quic_t)
    (bytes : list Z) (length : Z) (addr_from addr_to : sockaddr)
    (if_index_to current_time new_context_created : Z)
  : outcome (Z * picoquic_quic_t * list Z * Z * list (Z * Z * Z)) :=
  incoming_packet_loop fuel quic bytes length 0 addr_from addr_to if_index_to
    current_time picoquic_null_connection_id new_context_created 0 [].

End Reception.

(** ** A small endpoint to run the code on

    One instance of the externals, simple enough to evaluate: a single
    supported version, keys that leave the bytes as they are, handlers that
    only leave a mark in [quic_rest].  The declarations have the values of
    upstream picoquic: [picoquic_packet_error] and
    [picoquic_packet_context_application] are the enumerators of value 0,
    the enforced Initial MTU is 1200 and the minimal reset packet has 39
    bytes. *)
Module Example.

Definition mark (m : Z) (quic : picoquic_quic_t) : picoquic_quic_t :=
  {| local_ctx_length := local_ctx_length quic; cnx_table := cnx_table quic;
     quic_rest := quic_rest quic ++ [m] |}.

Definition mark_version_reset : Z := 101.
Definition mark_initial : Z := 102.
Definition mark_retry : Z := 103.
Definition mark_server_cleartext : Z := 104.
Definition mark_client_cleartext : Z := 105.
Definition mark_0rtt : Z := 106.
Definition mark_encrypted : Z := 107.
Definition mark_version_negotiation_sent : Z := 201.
Definition mark_stateless_reset_sent : Z := 202.
Definition mark_plugin_negotiation : Z := 301.
Definition mark_callback_ready : Z := 401.
Definition mark_callback_stateless_reset : Z := 402.

(** The registry knows the connection of handle 0 by the connection id of
    its first path and by the address of its peer. *)
Definition cnx_by_id (quic : picoquic_quic_t) (cid : picoquic_connection_id_t)
  : option nat :=
  c ← cnx_table quic !! 0%nat;
  p ← path c !! 0%nat;
  if bool_decide (local_cnxid p = cid) then Some 0%nat else None.

Definition cnx_by_net (quic : picoquic_quic_t) (addr : sockaddr) : option nat :=
  c ← cnx_table quic !! 0%nat;
  p ← path c !! 0%nat;
  if bool_decide (peer_addr p = addr) then Some 0%nat else None.

Definition no_keys : picoquic_crypto_context_t :=
  {| aead_encrypt := None; aead_decrypt := None; hp_enc := None; hp_dec := None |}.

Definition all_keys : picoquic_crypto_context_t :=
  {| aead_encrypt := Some 1; aead_decrypt := Some 1;
     hp_enc := Some 1; hp_dec := Some 1 |}.

Definition empty_pkt_ctx : picoquic_packet_context_t :=
  {| send_sequence := 0; end_of_sack_range := 0; ack_needed := 0;
     sack_list := [] |}.

(** A server-side connection for a peer at [addr] that chose [dcid]. *)
Definition new_server_cnx (dcid scid : picoquic_connection_id_t)
    (addr : sockaddr) : picoquic_cnx_t :=
  {| cnx_state := picoquic_state_server_init; client_mode := 0;
     version_index := 0; initial_cnxid := dcid;
     path := [ {| local_cnxid := [0xBB]; remote_cnxid := scid;
                  reset_secret := map Z.of_nat (seq 1 16);
                  pkt_ctx := fun _ => empty_pkt_ctx;
                  local_addr := []; local_addr_len := 0; peer_addr := addr;
                  path_rest := [] |} ];
     crypto_context := fun epoch => if epoch =? 0 then no_keys else all_keys;
     callback_fn := Some 1;
     original_destination_connection_id := picoquic_null_connection_id;
     processed_transport_parameter := 0; remote_parameters_received := 0;
     cnx_rest := [] |}.

Definition create_cnx (quic : picoquic_quic_t)
    (dcid scid : picoquic_connection_id_t) (addr : sockaddr)
    (current_time vn : Z) : option nat * picoquic_quic_t :=
  let h := size (cnx_table quic) in
  (Some h,
   set_cnx_table (<[h := new_server_cnx dcid scid addr]> (cnx_table quic)) quic).

Definition delete_cnx (quic : picoquic_quic_t) (h : nat) : picoquic_quic_t :=
  set_cnx_table (delete h (cnx_table quic)) quic.

(** The AEAD check succeeds under any key and strips a 16-byte tag; without
    a key it fails with [SIZE_MAX]. *)
Definition aead_decrypt_generic (input : list Z) (input_length seq_num : Z)
    (auth_data : list Z) (ctx : option Z) : Z * list Z :=
  match ctx with
  | Some _ =>
      if input_length <? 16 then (2 ^ 64 - 1, [])
      else (input_length - 16, take (Z.to_nat (input_length - 16)) input)
  | None => (2 ^ 64 - 1, [])
  end.

Definition is_pn_already_received (p : picoquic_path_t)
    (pc : picoquic_packet_context_enum) (pn64 : Z) : Z :=
  if existsb (fun r : Z * Z => (r.1 <=? pn64) && (pn64 <=? r.2))
             (sack_list (pkt_ctx p pc))
  then 1 else 0.

(** Recording a packet number adds it to the receive set of the path. *)
Definition record_in_path (pc : picoquic_packet_context_enum) (pn64 : Z)
    (p : picoquic_path_t) : picoquic_path_t :=
  set_pkt_ctx
    (fun pc' =>
       if bool_decide (pc' = pc) then
         {| send_sequence := send_sequence (pkt_ctx p pc');
            end_of_sack_range := Z.max pn64 (end_of_sack_range (pkt_ctx p pc'));
            ack_needed := ack_needed (pkt_ctx p pc');
            sack_list := (pn64, pn64) :: sack_list (pkt_ctx p pc') |}
       else pkt_ctx p pc') p.

Definition record_pn_received (quic : picoquic_quic_t) (h : nat)
    (path_x : option nat) (pc : picoquic_packet_context_enum)
    (pn64 current_time : Z) : Z * picoquic_quic_t :=
  match cnx_table quic !! h, path_x with
  | Some c, Some i =>
      (0, set_cnx_table
            (<[h := set_path (alter (record_in_path pc pn64) i (path c)) c]>
               (cnx_table quic)) quic)
  | _, _ => (0, quic)
  end.

#[local] Instance externals : picoquic_externals := {|
  packet_type_zero := picoquic_packet_error;
  packet_context_zero := picoquic_packet_context_application;
  PICOQUIC_ENFORCED_INITIAL_MTU := 1200;
  PICOQUIC_RESET_PACKET_MIN_SIZE := 39;
  sockaddr_len := fun a => if byte_at a 0 =? 2 then 16 else 28;
  picoquic_get_version_index := fun vn => if vn =? 0xff00001d then 0 else -1;
  version_header_encoding := fun _ => picoquic_version_header_29;
  picoquic_cnx_by_id := cnx_by_id;
  picoquic_cnx_by_net := cnx_by_net;
  picoquic_create_cnx := create_cnx;
  picoquic_delete_cnx := delete_cnx;
  picoquic_hp_iv_size := fun _ => 16;
  picoquic_hp_encrypt := fun _ _ input => input;
  picoquic_aead_decrypt_generic := aead_decrypt_generic;
  picoquic_is_pn_already_received := is_pn_already_received;
  picoquic_record_pn_received := record_pn_received;
  picoquic_reset_cnx_version := fun q _ _ _ _ => (0, mark mark_version_reset q);
  picoquic_incoming_initial :=
    fun q h _ _ _ _ _ _ _ => (0, Some h, mark mark_initial q);
  picoquic_incoming_retry := fun q _ _ _ _ => (0, mark mark_retry q);
  picoquic_incoming_server_cleartext :=
    fun q _ _ _ _ _ _ => (0, mark mark_server_cleartext q);
  picoquic_incoming_client_cleartext :=
    fun q _ _ _ _ => (0, mark mark_client_cleartext q);
  picoquic_incoming_0rtt := fun q _ _ _ _ => (0, mark mark_0rtt q);
  picoquic_incoming_encrypted := fun q _ _ _ _ _ => (0, mark mark_encrypted q);
  picoquic_prepare_version_negotiation :=
    fun q _ _ _ _ => mark mark_version_negotiation_sent q;
  queue_stateless_reset := fun q _ _ _ _ _ => mark mark_stateless_reset_sent q;
  picoquic_received_packet := fun q _ => q;
  picoquic_header_parsed := fun q _ _ _ _ => q;
  picoquic_cnx_set_next_wake_time := fun q _ _ => q;
  picoquic_handle_plugin_negotiation := fun q _ => mark mark_plugin_negotiation q;
  run_callback_fn := fun _ q _ ev =>
    mark (match ev with
          | picoquic_callback_ready => mark_callback_ready
          | picoquic_callback_stateless_reset => mark_callback_stateless_reset
          end) q
|}.

(** Addresses: an IPv4 peer and another one. *)
Definition peer : sockaddr := [2; 192; 0; 2; 1].
Definition stranger : sockaddr := [2; 192; 0; 2; 99].
Definition here : sockaddr := [2; 192; 0; 2; 200].

(** An endpoint without connection, and one with a server-side connection
    for [peer], which first addressed it with the connection id [0xAA]. *)
Definition quic_empty : picoquic_quic_t :=
  {| local_ctx_length := 1; cnx_table := ∅; quic_rest := [] |}.

Definition quic_one : picoquic_quic_t :=
  {| local_ctx_length := 1;
     cnx_table := {[ 0%nat := new_server_cnx [0xAA] [] peer ]};
     quic_rest := [] |}.

(** Segments. *)

(** An Initial of the supported version: destination id [0xAA], no source
    id, no token, a payload of two bytes (12 bytes in all). *)
Definition initial_segment : list Z :=
  [0xC0; 0xff; 0x00; 0x00; 0x1d; 0x01; 0xAA; 0x00; 0x00; 0x02; 0x00; 0x00].

(** A long header of an unknown version, with two empty connection ids
    (7 bytes). *)
Definition unknown_version_segment : list Z :=
  [0xC0; 0x0a; 0x0a; 0x0a; 0x0a; 0x00; 0x00].

(** A Handshake packet of the supported version for the connection id
    [0xBB], with a payload of 20 bytes (29 bytes in all). *)
Definition handshake_segment : list Z :=
  [0xE0; 0xff; 0x00; 0x00; 0x1d; 0x01; 0xBB; 0x00; 0x14]
  ++ [0x05] ++ repeat 0 19.

(** A short-header packet for the connection id [0xBB]: a packet number of
    one byte, 5, and 20 more bytes (23 bytes in all). *)
Definition one_rtt_segment : list Z :=
  [0x40; 0xBB; 0x05] ++ repeat 0 20.

(** A short-header packet for the unknown connection id [0xCC] that ends
    with the reset secret of the connection of [quic_one] (40 bytes). *)
Definition reset_segment : list Z :=
  [0x40; 0xCC] ++ repeat 0 22 ++ map Z.of_nat (seq 1 16).

(** A long header of version 0 that announces a source connection id of
    eight bytes and stops there (7 bytes). *)
Definition truncated_vn_segment : list Z :=
  [0xC0; 0x00; 0x00; 0x00; 0x00; 0x00; 0x08].

(** The same with an unknown version. *)
Definition truncated_unknown_version_segment : list Z :=
  [0xC0; 0x0a; 0x0a; 0x0a; 0x0a; 0x00; 0x08].



(** The result of a run, or [d] when there is none. *)
Definition result_or {A : Type} (d : A) (o : outcome A) : A :=
  match o with
  | Done a => a
  | _ => d
  end.

(** The header [picoquic_parse_packet_header] produces for
    [one_rtt_segment] on [quic_one]. *)
Definition parsed_header
    (o : outcome (Z * picoquic_packet_header * option nat))
  : picoquic_packet_header :=
  match o with
  | Done (_, ph, _) => ph
  | _ => ph_memset_zero
  end.

Definition one_rtt_header : picoquic_packet_header :=
  Eval vm_compute in
    parsed_header
      (picoquic_parse_packet_header (Some quic_one) one_rtt_segment 23 peer
                                    None 1).

(** What [picoquic_decrypt_packet] makes of it. *)
Definition decrypted (o : outcome (Z * list Z * picoquic_packet_header * option Z))
  : Z * list Z * picoquic_packet_header * option Z :=
  match o with
  | Done r => r
  | _ => (0, [], ph_memset_zero, None)
  end.

Definition one_rtt_decrypted : Z * list Z * picoquic_packet_header * option Z :=
  Eval vm_compute in
    decrypted
      (picoquic_decrypt_packet (new_server_cnx [0xAA] [] peer) one_rtt_segment
         23 one_rtt_header (Some 1) (Some 1) (Some 0) (Some 0%nat)).

(** [initial_segment] alone in a datagram, from a stranger, on the endpoint
    without connection. *)
Definition initial_header : picoquic_packet_header :=
  Eval vm_compute in
    parsed_header
      (picoquic_parse_packet_header (Some quic_empty) initial_segment 12
                                    stranger None 1).

Definition initial_alone :=
  Eval vm_compute in
    result_or (0, quic_empty, [], ph_memset_zero, None, 0, 0)
      (picoquic_parse_header_and_decrypt quic_empty initial_segment 12 12
         stranger 0 None 0 0).





(** The run of [picoquic_incoming_packet] on that datagram. *)
Definition two_segments :=
  Eval vm_compute in
    result_or (0, quic_one, [], 0, [])
      (picoquic_incoming_packet 36 quic_one
         (handshake_segment ++ unknown_version_segment) 36 peer here 0 0 0).

(** [one_rtt_segment] alone in a datagram from [peer]: what
    [picoquic_incoming_segment] returns. *)
Definition one_rtt_at_head :=
  Eval vm_compute in
    result_or (0, quic_one, [], 0, picoquic_null_connection_id, 0)
      (picoquic_incoming_segment quic_one one_rtt_segment 23 23 0 peer here
         0 0 picoquic_null_connection_id).

(** [reset_segment] from [peer]: what [picoquic_parse_header_and_decrypt]
    returns. *)
Definition reset_parsed :=
  Eval vm_compute in
    result_or (0, quic_one, [], ph_memset_zero, None, 0, 0)
      (picoquic_parse_header_and_decrypt quic_one reset_segment 40 40 peer 0
         None 0 0).

(** An endpoint whose connection has received the transport parameters of
    the peer, before and after the plugin negotiation. *)
Definition quic_parameters_received : picoquic_quic_t :=
  let c := new_server_cnx [0xAA] [] peer in
  {| local_ctx_length := 1;
     cnx_table :=
       {[ 0%nat :=
            {| cnx_state := cnx_state c; client_mode := client_mode c;
               version_index := version_index c;
               initial_cnxid := initial_cnxid c; path := path c;
               crypto_context := crypto_context c;
               callback_fn := callback_fn c;
               original_destination_connection_id :=
                 original_destination_connection_id c;
               processed_transport_parameter := 0;
               remote_parameters_received := 1;
               cnx_rest := cnx_rest c |} ]};
     quic_rest := [] |}.

Definition quic_negotiated : picoquic_quic_t :=
  result_or quic_parameters_received
    (negotiate_plugins quic_parameters_received (Some 0%nat)).

(** The same externals, but for the connections [picoquic_create_cnx]
    makes, which have the Initial keys. *)
Definition keyed_create_cnx (quic : picoquic_quic_t)
    (dcid scid : picoquic_connection_id_t) (addr : sockaddr)
    (current_time vn : Z) : option nat * picoquic_quic_t :=
  let h := size (cnx_table quic) in
  let c := new_server_cnx dcid scid addr in
  (Some h,
   set_cnx_table
     (<[h := {| cnx_state := cnx_state c; client_mode := client_mode c;
                version_index := version_index c;
                initial_cnxid := initial_cnxid c; path := path c;
                crypto_context := fun _ => all_keys;
                callback_fn := callback_fn c;
                original_destination_connection_id :=
                  original_destination_connection_id c;
                processed_transport_parameter :=
                  processed_transport_parameter c;
                remote_parameters_received := remote_parameters_received c;
                cnx_rest := cnx_rest c |}]> (cnx_table quic)) quic).

Definition keyed_externals : picoquic_externals := {|
  packet_type_zero := picoquic_packet_error;
  packet_context_zero := picoquic_packet_context_application;
  PICOQUIC_ENFORCED_INITIAL_MTU := 1200;
  PICOQUIC_RESET_PACKET_MIN_SIZE := 39;
  sockaddr_len := sockaddr_len;
  picoquic_get_version_index := picoquic_get_version_index;
  version_header_encoding := version_header_encoding;
  picoquic_cnx_by_id := cnx_by_id;
  picoquic_cnx_by_net := cnx_by_net;
  picoquic_create_cnx := keyed_create_cnx;
  picoquic_delete_cnx := delete_cnx;
  picoquic_hp_iv_size := picoquic_hp_iv_size;
  picoquic_hp_encrypt := picoquic_hp_encrypt;
  picoquic_aead_decrypt_generic := aead_decrypt_generic;
  picoquic_is_pn_already_received := is_pn_already_received;
  picoquic_record_pn_received := record_pn_received;
  picoquic_reset_cnx_version := picoquic_reset_cnx_version;
  picoquic_incoming_initial := picoquic_incoming_initial;
  picoquic_incoming_retry := picoquic_incoming_retry;
  picoquic_incoming_server_cleartext := picoquic_incoming_server_cleartext;
  picoquic_incoming_client_cleartext := picoquic_incoming_client_cleartext;
  picoquic_incoming_0rtt := picoquic_incoming_0rtt;
  picoquic_incoming_encrypted := picoquic_incoming_encrypted;
  picoquic_prepare_version_negotiation := picoquic_prepare_version_negotiation;
  queue_stateless_reset := queue_stateless_reset;
  picoquic_received_packet := picoquic_received_packet;
  picoquic_header_parsed := picoquic_header_parsed;
  picoquic_cnx_set_next_wake_time := picoquic_cnx_set_next_wake_time;
  picoquic_handle_plugin_negotiation := picoquic_handle_plugin_negotiation;
  run_callback_fn := run_callback_fn
|}.

(** An Initial of the supported version with a payload of 40 bytes, in a
    datagram padded to 1200 bytes. *)
Definition padded_initial : list Z :=
  [0xC0; 0xff; 0x00; 0x00; 0x1d; 0x01; 0xAA; 0x00; 0x00; 0x28]
  ++ repeat 0 1190.

(** What [picoquic_parse_header_and_decrypt] returns for it, with the
    externals that give the Initial keys. *)
Definition padded_initial_parsed :=
  Eval vm_compute in
    result_or (0, quic_empty, [], ph_memset_zero, None, 0, 0)
      (@picoquic_parse_header_and_decrypt keyed_externals quic_empty
         padded_initial 1200 1200 stranger 0 None 0 0).

End Example.


#[local] Existing Instance Example.externals.
(** ** Arithmetic facts *)

Lemma pnmask_of_length_values :
  pnmask_of_length 1 = 0xFFFFFFFFFFFFFF00 /\
  pnmask_of_length 2 = 0xFFFFFFFFFFFF0000 /\
  pnmask_of_length 3 = 0xFFFFFFFFFF000000 /\
  pnmask_of_length 4 = 0xFFFFFFFF00000000.
Proof. repeat split; reflexivity. Qed.

Lemma pnmask_of_length_closed (n : Z) :
  1 <= n <= 4 -> pnmask_of_length n = 2 ^ 64 - 2 ^ (8 * n).
Proof.
  intros H.
  assert (n = 1 \/ n = 2 \/ n = 3 \/ n = 4) as [->|[->|[->| ->]]] by lia;
    reflexivity.
Qed.

(** Masking with [2^64 - 2^k] clears the low [k] bits of a 64-bit value. *)
Lemma land_high_mask (x k : Z) :
  0 <= k <= 64 -> 0 <= x < 2 ^ 64 ->
  Z.land x (2 ^ 64 - 2 ^ k) = x - x mod 2 ^ k.
Proof.
  intros Hk Hx.
  assert (Hm : 2 ^ 64 - 2 ^ k = Z.shiftl (Z.ones (64 - k)) k).
  { rewrite Z.ones_equiv, Z.shiftl_mul_pow2 by lia.
    replace (2 ^ 64) with (2 ^ (64 - k) * 2 ^ k)
      by (rewrite <- Z.pow_add_r by lia; f_equal; lia).
    lia. }
  rewrite Hm.
  assert (Hq : 0 <= x / 2 ^ k < 2 ^ (64 - k)).
  { split; [apply Z.div_pos; lia|].
    apply Z.div_lt_upper_bound; [lia|].
    rewrite <- Z.pow_add_r by lia. replace (k + (64 - k)) with 64 by lia. lia. }
  transitivity (Z.shiftl (Z.land (Z.shiftr x k) (Z.ones (64 - k))) k).
  - apply Z.bits_inj'. intros i Hi.
    rewrite Z.land_spec.
    destruct (Z.lt_ge_cases i k) as [Hlt|Hge].
    + rewrite !Z.shiftl_spec_low by lia. apply andb_false_r.
    + rewrite !Z.shiftl_spec by lia. rewrite Z.land_spec, Z.shiftr_spec by lia.
      replace (i - k + k) with i by lia. reflexivity.
  - rewrite Z.land_ones by lia. rewrite Z.shiftr_div_pow2 by lia.
    rewrite Z.mod_small by lia. rewrite Z.shiftl_mul_pow2 by lia.
    pose proof (Z.div_mod x (2 ^ k)). lia.
Qed.

(** Or-ing a multiple of [2^k] with a value below [2^k] adds them. *)
Lemma lor_high_low (h l k : Z) :
  0 <= k -> 0 <= l < 2 ^ k -> h mod 2 ^ k = 0 -> Z.lor h l = h + l.
Proof.
  intros Hk Hl Hh.
  assert (Hd : Z.land h l = 0).
  { apply Z.bits_inj'. intros i Hi. rewrite Z.land_spec, Z.bits_0.
    destruct (Z.lt_ge_cases i k) as [Hlt|Hge].
    - rewrite <- (Z.mod_pow2_bits_low h k i) by lia. rewrite Hh, Z.bits_0.
      reflexivity.
    - destruct (Z.eq_dec l 0) as [->|Hne]; [rewrite Z.bits_0; apply andb_false_r|].
      rewrite (Z.bits_above_log2 l i); [apply andb_false_r|lia|].
      apply Z.log2_lt_pow2; [lia|].
      apply Z.lt_le_trans with (2 ^ k); [lia|].
      apply Z.pow_le_mono_r; lia. }
  rewrite <- Z.lxor_lor by exact Hd.
  symmetry. apply Z.add_nocarry_lxor. exact Hd.
Qed.

(** [picoquic_get_packet_number64] in plain arithmetic, for a mask that
    clears the low [k] bits: the candidate shares the high bits of
    [expected = highest + 1], and one window [2^k] is added or removed
    when that brings it closer. *)
Lemma get_packet_number64_arith (highest k pn : Z) :
  0 <= highest < 2 ^ 62 -> 0 < k <= 32 -> 0 <= pn < 2 ^ k ->
  picoquic_get_packet_number64 highest (2 ^ 64 - 2 ^ k) pn =
    let W := 2 ^ k in
    let e := highest + 1 in
    let c := e - e mod W + pn in
    if c <? e then
      if W - (e - c) <? e - c then c + W else c
    else
      if (W - (c - e) <=? c - e) && (0 <? e - e mod W) then c - W else c.
Proof.
  intros Hh Hk Hpn.
  assert (HW : 0 < 2 ^ k <= 2 ^ 32).
  { split; [lia|]. apply Z.pow_le_mono_r; lia. }
  change (2 ^ 32) with 4294967296 in HW.
  change (2 ^ 62) with 4611686018427387904 in Hh.
  set (W := 2 ^ k) in *.
  pose proof (Z.mod_pos_bound (highest + 1) W ltac:(lia)) as Hr.
  pose proof (Z.mod_le (highest + 1) W ltac:(lia) ltac:(lia)) as Hr'.
  unfold picoquic_get_packet_number64, not64.
  assert (He : u64 (highest + 1) = highest + 1).
  { unfold u64. apply Z.mod_small. change (2 ^ 64) with 18446744073709551616. lia. }
  assert (Hn : u64 (u64 (Z.lnot (2 ^ 64 - W)) + 1) = W).
  { unfold Z.lnot, u64. change (2 ^ 64) with 18446744073709551616.
    replace (Z.pred (- (18446744073709551616 - W)))
      with (W - 1 + (-1) * 18446744073709551616) by lia.
    rewrite Z.mod_add by lia.
    rewrite (Z.mod_small (W - 1)) by lia.
    replace (W - 1 + 1) with W by lia. apply Z.mod_small. lia. }
  rewrite He, Hn.
  assert (Hl : Z.land (highest + 1) (2 ^ 64 - W) = highest + 1 - (highest + 1) mod W).
  { apply land_high_mask; [lia|]. change (2 ^ 64) with 18446744073709551616. lia. }
  rewrite Hl.
  assert (Hc : Z.lor (highest + 1 - (highest + 1) mod W) pn
               = highest + 1 - (highest + 1) mod W + pn).
  { apply (lor_high_low _ _ k); [lia|exact Hpn|].
    rewrite Zminus_mod, Z.mod_mod, Z.sub_diag by lia. apply Z.mod_0_l. lia. }
  rewrite Hc.
  set (e := highest + 1) in *. set (r := e mod W) in *.
  assert (Hl2 : Z.land (e - r + pn) (2 ^ 64 - W) = e - r).
  { assert (Hb : 0 <= e - r + pn < 2 ^ 64)
      by (change (2 ^ 64) with 18446744073709551616; lia).
    pose proof (land_high_mask (e - r + pn) k ltac:(lia) Hb) as Hx.
    change (2 ^ k) with W in Hx. rewrite Hx. clear Hx Hb.
    assert (Hz : (e - r + pn) mod W = pn).
    { subst r. pose proof (Z.div_mod e W ltac:(lia)) as Hd.
      replace (e - e mod W + pn) with (pn + (e / W) * W) by lia.
      rewrite Z.mod_add by lia. apply Z.mod_small. lia. }
    rewrite Hz. lia. }
  rewrite Hl2. cbv zeta.
  assert (Hu : forall x, 0 <= x < 18446744073709551616 -> u64 x = x).
  { intros x Hx. unfold u64. apply Z.mod_small.
    change (2 ^ 64) with 18446744073709551616. lia. }
  destruct (e - r + pn <? e) eqn:E1.
  - apply Z.ltb_lt in E1.
    rewrite (Hu (e - (e - r + pn))) by lia.
    rewrite (Hu (W - (e - (e - r + pn)))) by lia.
    destruct (_ <? _); [apply Hu; lia|reflexivity].
  - apply Z.ltb_ge in E1.
    rewrite (Hu (e - r + pn - e)) by lia.
    rewrite (Hu (W - (e - r + pn - e))) by lia.
    destruct (_ <=? _) eqn:E2; simpl; [|reflexivity].
    destruct (0 <? e - r) eqn:E3; [|reflexivity].
    apply Z.ltb_lt in E3. apply Hu.
    assert (W <= e - r).
    { subst r. pose proof (Z.div_mod e W ltac:(lia)) as Hd.
      assert (0 < e / W) by nia. nia. }
    lia.
Qed.

(** ** Packet-number reconstruction *)

(** The claim of the specification, as it is stated: a window of
    [2^(8n)] values centred on [reference]. *)
Definition pn_round_trip_as_stated (reference n delta : Z) : Prop :=
  0 <= reference < 2 ^ 62 -> 1 <= n <= 4 ->
  - 2 ^ (8 * n - 1) <= delta < 2 ^ (8 * n - 1) -> 0 <= reference + delta ->
  picoquic_get_packet_number64 reference (pnmask_of_length n)
    ((reference + delta) mod 2 ^ (8 * n)) = reference + delta.

(** C1, counterexample: with [reference = 0x100], one packet-number byte
    and [delta = -128] the packet number [0x80] is truncated to [0x80] and
    reconstructed as [0x180]. *)
Lemma pn_round_trip_fails_at_lower_end :
  ~ pn_round_trip_as_stated 0x100 1 (-128).
Proof.
  unfold pn_round_trip_as_stated. intros Hc.
  assert (Hv : picoquic_get_packet_number64 256 (pnmask_of_length 1)
                 ((256 + -128) mod 2 ^ (8 * 1)) = 0x180) by reflexivity.
  rewrite Hc in Hv; [discriminate|lia|lia|simpl; lia|lia].
Qed.

(** C1, as amended: the window of [picoquic_get_packet_number64] is centred
    on [expected = reference + 1]: every packet number [reference + delta]
    with [-2^(8n-1) < delta <= 2^(8n-1)] is reconstructed from its low
    [8n] bits. *)
Theorem pn_round_trip (reference n delta : Z) :
  0 <= reference < 2 ^ 62 -> 1 <= n <= 4 ->
  - 2 ^ (8 * n - 1) < delta <= 2 ^ (8 * n - 1) -> 0 <= reference + delta ->
  picoquic_get_packet_number64 reference (pnmask_of_length n)
    ((reference + delta) mod 2 ^ (8 * n)) = reference + delta.
Proof.
  intros Hr Hn Hd Ht.
  rewrite pnmask_of_length_closed by exact Hn.
  assert (Hpn : 0 <= (reference + delta) mod 2 ^ (8 * n) < 2 ^ (8 * n))
    by (apply Z.mod_pos_bound; lia).
  rewrite get_packet_number64_arith by (try exact Hr; try exact Hpn; lia).
  cbv zeta.
  change (2 ^ 62) with 4611686018427387904 in Hr.
  assert (n = 1 \/ n = 2 \/ n = 3 \/ n = 4) as [->|[->|[->| ->]]] by lia;
    [ change (2 ^ (8 * 1)) with 256 in *; change (2 ^ (8 * 1 - 1)) with 128 in *
    | change (2 ^ (8 * 2)) with 65536 in *;
      change (2 ^ (8 * 2 - 1)) with 32768 in *
    | change (2 ^ (8 * 3)) with 16777216 in *;
      change (2 ^ (8 * 3 - 1)) with 8388608 in *
    | change (2 ^ (8 * 4)) with 4294967296 in *;
      change (2 ^ (8 * 4 - 1)) with 2147483648 in * ];
    match goal with
    | |- context [(reference + 1) mod ?W] =>
        pose proof (Z.div_mod (reference + 1) W ltac:(lia));
        pose proof (Z.mod_pos_bound (reference + 1) W ltac:(lia));
        pose proof (Z.div_mod (reference + delta) W ltac:(lia));
        generalize dependent ((reference + 1) mod W);
        generalize dependent ((reference + 1) / W);
        generalize dependent ((reference + delta) mod W);
        generalize dependent ((reference + delta) / W)
    end;
    intros;
    repeat match goal with
           | |- context [if ?b then _ else _] => destruct b eqn:?
           end;
    rewrite ?andb_true_iff, ?andb_false_iff in *; lia.
Qed.

(** The witness of [pn_round_trip]: [reference = 0x180], one byte,
    [delta = 128]. *)
Lemma pn_round_trip_witness :
  picoquic_get_packet_number64 0x180 (pnmask_of_length 1)
    ((0x180 + 128) mod 2 ^ (8 * 1)) = 0x180 + 128.
Proof.
  apply (pn_round_trip 0x180 1 128); [lia|lia|simpl; lia|lia].
Defined.

(** The boundary values of the specification, as they are stated. *)
Definition pn_boundary_as_stated : Prop :=
  let m := pnmask_of_length 1 in
  picoquic_get_packet_number64 0x100 m 0x7F = 0x7F /\
  picoquic_get_packet_number64 0x100 m 0x80 = 0x80 /\
  picoquic_get_packet_number64 0x100 m 0xFF = 0xFF /\
  picoquic_get_packet_number64 0x180 m 0x00 = 0x200.

(** C7, counterexample: with the highest packet number [0x100] the
    truncated value [0x7F] is reconstructed as [0x17F], which is at
    distance [0x7E] of the expected [0x101], and not as [0x7F]. *)
Lemma pn_boundary_fails : ~ pn_boundary_as_stated.
Proof.
  unfold pn_boundary_as_stated. intros [H7F _].
  vm_compute in H7F. discriminate.
Qed.

(** Reading the reference of the scenario as the expected packet number,
    that is with the highest packet number [0xFF], does not help: [0x7F]
    still gives [0x17F], and with the highest packet number [0x17F] the
    truncated value [0x00] gives [0x100]. *)
Lemma pn_boundary_fails_for_expected :
  picoquic_get_packet_number64 0xFF (pnmask_of_length 1) 0x7F = 0x17F /\
  picoquic_get_packet_number64 0x17F (pnmask_of_length 1) 0x00 = 0x100.
Proof. split; reflexivity. Qed.

(** C7, as amended: with one packet-number byte and the highest packet
    number [0x100], the truncated values [0x7F], [0x80] and [0xFF] are
    reconstructed as [0x17F], [0x180] and [0xFF]; with the highest packet
    number [0x180], [0x00] is reconstructed as [0x200]. *)
Theorem pn_boundary_values :
  let m := pnmask_of_length 1 in
  picoquic_get_packet_number64 0x100 m 0x7F = 0x17F /\
  picoquic_get_packet_number64 0x100 m 0x80 = 0x180 /\
  picoquic_get_packet_number64 0x100 m 0xFF = 0xFF /\
  picoquic_get_packet_number64 0x180 m 0x00 = 0x200.
Proof. repeat split; reflexivity. Qed.

(** ** The packet-number mask of the decryptor *)

Lemma land_3_bounds (a : Z) : 0 <= Z.land a 3 <= 3.
Proof.
  change 3 with (Z.ones 2) at 1 2. rewrite Z.land_ones by lia.
  pose proof (Z.mod_pos_bound a (2 ^ 2) ltac:(lia)). change (2 ^ 2) with 4 in *.
  lia.
Qed.

Lemma high_mask_testbit (k i : Z) :
  0 <= k <= 64 -> 0 <= i ->
  Z.testbit (2 ^ 64 - 2 ^ k) i = (k <=? i) && (i <? 64).
Proof.
  intros Hk Hi.
  assert (Hm : 2 ^ 64 - 2 ^ k = Z.shiftl (Z.ones (64 - k)) k).
  { rewrite Z.ones_equiv, Z.shiftl_mul_pow2 by lia.
    replace (2 ^ 64) with (2 ^ (64 - k) * 2 ^ k)
      by (rewrite <- Z.pow_add_r by lia; f_equal; lia).
    lia. }
  rewrite Hm.
  destruct (Z.leb_spec k i) as [Hle|Hlt].
  - rewrite Z.shiftl_spec by lia.
    destruct (Z.ltb_spec i 64) as [Hlo|Hhi].
    + apply Z.ones_spec_low. lia.
    + apply Z.ones_spec_high. lia.
  - apply Z.shiftl_spec_low. lia.
Qed.

(** The loop over the packet-number bytes shifts the mask once per byte,
    moves the offset by one per byte and leaves the other fields alone. *)
Lemma pn_decode_loop_fields `{!picoquic_externals} (mask : list Z) (n : nat) :
  forall (i : Z) (bytes : list Z) (ph : picoquic_packet_header) (pn_val : Z),
  let ph' := (pn_decode_loop mask n i bytes ph pn_val).1.2 in
  ph_pnmask ph' = Nat.iter n pnmask_shift (ph_pnmask ph) /\
  ph_offset ph' = Nat.iter n (fun o => u32 (o + 1)) (ph_offset ph) /\
  ph_payload_length ph' = ph_payload_length ph /\
  ph_ptype ph' = ph_ptype ph /\
  ph_pn_offset ph' = ph_pn_offset ph /\
  ph_pc ph' = ph_pc ph /\
  ph_version_index ph' = ph_version_index ph /\
  ph_vn ph' = ph_vn ph /\
  ph_dest_cnx_id ph' = ph_dest_cnx_id ph.
Proof.
  induction n as [|n IH]; intros i bytes ph pn_val.
  - simpl. repeat split; reflexivity.
  - cbn [pn_decode_loop]. cbv zeta.
    specialize (IH (i + 1)
      (store_byte bytes (ph_offset ph)
         (u8 (Z.lxor (byte_at bytes (ph_offset ph)) (byte_at mask i))))
      (set_ph_pnmask (pnmask_shift (ph_pnmask ph))
         (set_ph_offset (u32 (ph_offset ph + 1)) ph))
      (u32 (u32 (Z.shiftl pn_val 8)
            + byte_at (store_byte bytes (ph_offset ph)
                         (u8 (Z.lxor (byte_at bytes (ph_offset ph))
                                     (byte_at mask i))))
                      (ph_offset ph)))).
    cbv zeta in IH. rewrite !Nat.iter_succ_r. exact IH.
Qed.

(** The claim of the specification about the mask, as it is stated. *)
Definition pnmask_as_stated (pn_l pnmask : Z) : Prop :=
  pnmask = spec_low_mask pn_l.

(** C6, as amended: after the removal of the header protection of a packet
    whose decoded packet-number length is [n = (first_byte & 3) + 1],
    [ph->pnmask] is the 64-bit value whose low [8n] bits are clear and whose
    [64 - 8n] high bits are set; it is the complement of the mask the
    specification describes. *)
Theorem pnmask_after_decrypt `{!picoquic_externals}
    (cnx : picoquic_cnx_t) (bytes : list Z) (packet_length : Z)
    (ph : picoquic_packet_header) (hp : Z) (aead_context : option Z)
    (already_received : option Z) (path_from : option nat)
    (decoded : Z) (bytes' : list Z) (ph' : picoquic_packet_header)
    (already_received' : option Z) :
  picoquic_decrypt_packet cnx bytes packet_length ph (Some hp) aead_context
    already_received path_from = Done (decoded, bytes', ph', already_received') ->
  u64 (u32 (ph_pn_offset ph + 4) + picoquic_hp_iv_size hp)
    <= u32 (ph_offset ph + ph_payload_length ph) ->
  let n := Z.land (unmasked_first_byte hp bytes ph) 3 + 1 in
  1 <= n <= 4 /\
  ph_pnmask ph' = 2 ^ 64 - 2 ^ (8 * n) /\
  ph_pnmask ph' = u64 (Z.lnot (spec_low_mask n)) /\
  forall i, 0 <= i -> Z.testbit (ph_pnmask ph') i = (8 * n <=? i) && (i <? 64).
Proof.
  intros Hrun Hsample n.
  pose proof (land_3_bounds (unmasked_first_byte hp bytes ph)) as Hb.
  assert (Hn : 1 <= n <= 4) by (subst n; lia).
  assert (Hmask : ph_pnmask ph' = 2 ^ 64 - 2 ^ (8 * n)).
  { unfold picoquic_decrypt_packet in Hrun.
    destruct (match path_from with
              | Some i => deref (path cnx !! i)
              | None => path_0 cnx
              end) as [p| |]; try discriminate.
    cbn [mbind outcome_bind] in Hrun.
    unfold remove_header_protection in Hrun.
    replace (u64 (u32 (ph_pn_offset ph + 4) + picoquic_hp_iv_size hp)
             >? u32 (ph_offset ph + ph_payload_length ph)) with false in Hrun
      by (symmetry; rewrite Z.gtb_ltb; apply Z.ltb_ge; exact Hsample).
    cbv zeta in Hrun.
    pose proof (pn_decode_loop_fields (hp_mask hp bytes ph)
      (Z.to_nat (u8 (Z.land (unmasked_first_byte hp bytes ph) 3 + 1))) 1
      (store_byte bytes 0 (unmasked_first_byte hp bytes ph))
      (set_ph_pnmask 18446744073709551615 ph) 0) as Hloop.
    cbv zeta in Hloop. destruct Hloop as (Hpm & _).
    destruct (pn_decode_loop _ _ _ _ _ _) as [[b2 ph2] pn_val].
    cbn [fst snd] in Hpm.
    destruct (picoquic_aead_decrypt_generic _ _ _ _ _) as [d out].
    injection Hrun as _ _ Hph _. subst ph'.
    cbn [ph_pnmask set_ph_pn64].
    match goal with
    | |- context [bool_decide ?P] => destruct (bool_decide P)
    end; cbn [ph_pnmask set_ph_ptype set_ph_payload_length set_ph_pn];
      rewrite Hpm; cbn [ph_pnmask set_ph_pnmask];
      (replace (u8 (Z.land (unmasked_first_byte hp bytes ph) 3 + 1)) with n
         by (unfold u8; rewrite Z.mod_small;
             [reflexivity|change (2 ^ 8) with 256; lia]));
      apply (pnmask_of_length_closed n Hn). }
  split; [exact Hn|]. split; [exact Hmask|]. split.
  - rewrite Hmask. unfold spec_low_mask, u64, Z.lnot.
    rewrite Z.ones_equiv.
    assert (Hp : 0 < 2 ^ (8 * n) <= 2 ^ 64)
      by (split; [lia|apply Z.pow_le_mono_r; lia]).
    replace (Z.pred (- Z.pred (2 ^ (8 * n))))
      with (2 ^ 64 - 2 ^ (8 * n) + (-1) * 2 ^ 64) by lia.
    rewrite Z.mod_add by lia. symmetry. apply Z.mod_small. lia.
  - intros i Hi. rewrite Hmask. apply high_mask_testbit; lia.
Qed.

(** C6, counterexample: the short-header packet [one_rtt_segment] has a
    packet number of one byte; after [picoquic_parse_header_and_decrypt]
    its mask is [0xFFFFFFFFFFFFFF00] and not [0xFF]. *)
Lemma pnmask_low_bits_fails :
  match picoquic_parse_header_and_decrypt Example.quic_one
          Example.one_rtt_segment 23 23 Example.peer 0 None 0 0 with
  | Done (ret, _, bytes', ph', _, _, _) =>
      ret = 0 /\
      Z.land (byte_at bytes' 0) 3 + 1 = 1 /\
      ph_pnmask ph' = 0xFFFFFFFFFFFFFF00 /\
      ~ pnmask_as_stated 1 (ph_pnmask ph')
  | _ => False
  end.
Proof.
  vm_compute. repeat split; try reflexivity. intros H; discriminate H.
Qed.

(** The witness of [pnmask_after_decrypt]: the same packet. *)
Lemma pnmask_after_decrypt_witness :
  let n :=
    Z.land (unmasked_first_byte 1 Example.one_rtt_segment Example.one_rtt_header)
           3 + 1 in
  let ph' := Example.one_rtt_decrypted.1.2 in
  1 <= n <= 4 /\
  ph_pnmask ph' = 2 ^ 64 - 2 ^ (8 * n) /\
  ph_pnmask ph' = u64 (Z.lnot (spec_low_mask n)) /\
  forall i, 0 <= i -> Z.testbit (ph_pnmask ph') i = (8 * n <=? i) && (i <? 64).
Proof.
  apply (pnmask_after_decrypt (Example.new_server_cnx [0xAA] [] Example.peer)
           Example.one_rtt_segment 23 Example.one_rtt_header 1 (Some 1)
           (Some 0) (Some 0%nat) Example.one_rtt_decrypted.1.1.1
           Example.one_rtt_decrypted.1.1.2 Example.one_rtt_decrypted.1.2
           Example.one_rtt_decrypted.2).
  - vm_compute. reflexivity.
  - apply Z.leb_le. vm_compute. reflexivity.
Defined.

(** ** The header parser and the bounds of the datagram *)

(** The invariant of the specification: the header and the payload it
    announces lie within the datagram. *)
Definition header_within_datagram (length : Z) (ph : picoquic_packet_header)
  : Prop :=
  ph_offset ph + ph_payload_length ph <= length.

(** C9: [picoquic_parse_packet_header] checks the length of the destination
    connection id against the datagram (line 82) and not that of the source
    connection id (lines 88-89), nor that of the token of an Initial packet
    (line 147).  On a datagram of seven bytes that announces a source
    connection id of eight bytes it returns 0 with [offset = 15], as a
    Version Negotiation packet when the version is 0 and as an Error packet
    when the version is unknown; on an Initial of eight bytes that announces
    a token of 63 bytes it returns 0 with [offset = 71]. *)
Theorem parse_header_overruns_datagram :
  match picoquic_parse_packet_header (Some Example.quic_empty)
          Example.truncated_vn_segment 7 Example.stranger None 1 with
  | Done (ret, ph, _) =>
      ret = 0 /\ ph_ptype ph = picoquic_packet_version_negotiation /\
      ph_offset ph = 15 /\ ph_payload_length ph = 0 /\
      ~ header_within_datagram 7 ph
  | _ => False
  end /\
  match picoquic_parse_packet_header (Some Example.quic_empty)
          Example.truncated_unknown_version_segment 7 Example.stranger None 1 with
  | Done (ret, ph, _) =>
      ret = 0 /\ ph_ptype ph = picoquic_packet_error /\
      ph_offset ph = 15 /\ ph_payload_length ph = 0 /\
      ~ header_within_datagram 7 ph
  | _ => False
  end /\
  match picoquic_parse_packet_header (Some Example.quic_empty)
          [0xC0; 0xff; 0x00; 0x00; 0x1d; 0x00; 0x00; 0x3f] 8
          Example.stranger None 1 with
  | Done (ret, ph, _) =>
      ret = 0 /\ ph_ptype ph = picoquic_packet_error /\
      ph_offset ph = 71 /\ ph_payload_length ph = 0 /\
      ~ header_within_datagram 8 ph
  | _ => False
  end.
Proof.
  unfold header_within_datagram. vm_compute.
  repeat split; intros H; apply H; reflexivity.
Qed.

(** ** Proof steps for code in the [outcome] monad *)

(** Case analysis on the first [match] or [if] of a hypothesis whose
    scrutinee can be destructed; the cases that contradict are closed. *)
Ltac simpl_outcome_in H :=
  unfold mbind, outcome_bind, mret, outcome_ret, deref in H;
  cbv beta iota in H.

Ltac case_hyp H :=
  simpl_outcome_in H;
  match type of H with
  | context [match ?x with _ => _ end] =>
      destruct x eqn:?; simpl_outcome_in H; try discriminate H
  end.

Lemma gtb_false (a b : Z) : a <= b -> (a >? b) = false.
Proof. intros H. rewrite Z.gtb_ltb. apply Z.ltb_ge. exact H. Qed.

Lemma bool_decide_false_eq {A : Type} `{EqDecision A} (x y : A) :
  x <> y -> bool_decide (x = y) = false.
Proof. intros H. apply bool_decide_eq_false. exact H. Qed.

(** ** The return code of the header parser *)

(** [picoquic_parse_packet_header] returns 0 or -1. *)
Lemma parse_packet_header_ret `{!picoquic_externals}
    (quic : option picoquic_quic_t) (bytes : list Z) (length : Z)
    (addr_from : sockaddr) (pcnx : option nat) (receiving : Z)
    (ret : Z) (ph : picoquic_packet_header) (pcnx' : option nat) :
  picoquic_parse_packet_header quic bytes length addr_from pcnx receiving
    = Done (ret, ph, pcnx') ->
  ret = 0 \/ ret = -1.
Proof.
  intros Hrun. unfold picoquic_parse_packet_header in Hrun.
  destruct (length =? 0); [injection Hrun as <- _ _; auto|].
  destruct (negb _); [injection Hrun as <- _ _; auto|].
  destruct (_ =? 128).
  - unfold parse_long_header in Hrun.
    destruct (length <? 7); [injection Hrun as <- _ _; auto|].
    destruct (_ >? s32 length); [injection Hrun as <- _ _; auto|].
    destruct (picoquic_parse_connection_id _ _) as [n1 cid1].
    destruct (picoquic_parse_connection_id _ _) as [n2 cid2].
    destruct (_ =? 0).
    + destruct (vn_find_cnx _ _ _ _) as [p| |];
        cbn [mbind outcome_bind] in Hrun; try discriminate.
      injection Hrun as <- _ _; auto.
    + destruct (long_header_payload_length _ _ _) as [[ph2 pl] vl].
      destruct (bool_decide _).
      * destruct (long_header_find_cnx _ _ _ _) as [p| |];
          cbn [mbind outcome_bind] in Hrun; try discriminate.
        injection Hrun as <- _ _; auto.
      * injection Hrun as <- _ _; auto.
  - unfold parse_short_header in Hrun.
    destruct (if (receiving =? 0) && bool_decide (pcnx <> None) then _ else _)
      as [l| |]; cbn [mbind outcome_bind] in Hrun; try discriminate.
    destruct (s32 length >=? 1 + l); [|injection Hrun as <- _ _; auto].
    destruct (picoquic_parse_connection_id _ _) as [n cid].
    destruct (match pcnx with
              | Some _ => _
              | None => _
              end) as [h|].
    + destruct (deref_cnx quic (Some h)) as [c| |];
        cbn [mbind outcome_bind] in Hrun; try discriminate.
      destruct (length <? _); injection Hrun as <- _ _; auto.
    + injection Hrun as <- _ _; auto.
Qed.

(** ** A short-header packet for an unknown connection *)

Section UnknownShortHeader.

Context `{!picoquic_externals}.

(** With [picoquic_packet_error] as the enumerator of value 0, the short
    header of a packet that matches no connection is left with the packet
    type [picoquic_packet_error]: lines 291-294 set the payload length
    only. *)
Lemma parse_short_header_unknown (quic : picoquic_quic_t) (bytes : list Z)
    (length : Z) (addr_from : sockaddr) (ph0 ph : picoquic_packet_header)
    (ret : Z) :
  ph_ptype ph0 = picoquic_packet_error ->
  parse_short_header (Some quic) bytes length addr_from ph0 None 1
    = Done (ret, ph, None) ->
  ret = 0 /\ ph_ptype ph = picoquic_packet_error /\
  ph_vn ph = ph_vn ph0 /\ ph_version_index ph = ph_version_index ph0.
Proof.
  intros Hty Hrun. unfold parse_short_header in Hrun.
  change (1 =? 0) with false in Hrun. cbn [andb] in Hrun.
  cbn [mbind outcome_bind] in Hrun.
  destruct (s32 length >=? 1 + _).
  - destruct (picoquic_parse_connection_id _ _) as [n cid].
    destruct (if _ >? 0 then _ else _) as [h|].
    + destruct (deref_cnx (Some quic) (Some h)) as [c| |];
        cbn [mbind outcome_bind] in Hrun; try discriminate.
      destruct (length <? _); injection Hrun as _ _ Hh; discriminate Hh.
    + injection Hrun as <- <-. cbn. auto.
  - injection Hrun as <- <-. cbn. auto.
Qed.

Lemma parse_packet_header_unknown_short (quic : picoquic_quic_t)
    (bytes : list Z) (length : Z) (addr_from : sockaddr)
    (ph : picoquic_packet_header) (ret : Z) :
  packet_type_zero = picoquic_packet_error ->
  0 < length ->
  Z.land (byte_at bytes 0) 0x40 = 0x40 ->
  Z.land (byte_at bytes 0) 0x80 <> 0x80 ->
  picoquic_parse_packet_header (Some quic) bytes length addr_from None 1
    = Done (ret, ph, None) ->
  ret = 0 /\ ph_ptype ph = picoquic_packet_error /\
  ph_vn ph = 0 /\ ph_version_index ph = -1.
Proof.
  intros Hzero Hlen Hfixed Hshort Hrun.
  unfold picoquic_parse_packet_header in Hrun.
  replace (length =? 0) with false in Hrun by (symmetry; apply Z.eqb_neq; lia).
  rewrite Hfixed in Hrun. change (64 =? 64) with true in Hrun.
  cbn [negb] in Hrun.
  replace (Z.land (byte_at bytes 0) 128 =? 128) with false in Hrun
    by (symmetry; apply Z.eqb_neq; exact Hshort).
  apply parse_short_header_unknown in Hrun; [|exact Hzero].
  exact Hrun.
Qed.

(** [picoquic_parse_header_and_decrypt] on a packet of type
    [picoquic_packet_error] that matches no connection: nothing is looked
    up or decrypted. *)
Lemma parse_header_and_decrypt_error_no_cnx (quic : picoquic_quic_t)
    (bytes : list Z) (length packet_length : Z) (addr_from : sockaddr)
    (current_time consumed new_context_created : Z)
    (ph : picoquic_packet_header) :
  picoquic_parse_packet_header (Some quic) bytes length addr_from None 1
    = Done (0, ph, None) ->
  ph_ptype ph = picoquic_packet_error ->
  picoquic_parse_header_and_decrypt quic bytes length packet_length addr_from
    current_time None consumed new_context_created
  = Done (0, quic, bytes, ph, None, u32 (ph_offset ph + ph_payload_length ph),
          new_context_created).
Proof.
  intros Hparse Hty. unfold picoquic_parse_header_and_decrypt.
  rewrite Hparse. cbn [mbind outcome_bind]. change (0 =? 0) with true.
  cbn [negb]. rewrite Hty. reflexivity.
Qed.

Lemma process_unexpected_cnxid_error (quic : picoquic_quic_t) (length : Z)
    (addr_from addr_to : sockaddr) (if_index_to : Z)
    (ph : picoquic_packet_header) :
  ph_ptype ph = picoquic_packet_error ->
  picoquic_process_unexpected_cnxid quic length addr_from addr_to if_index_to ph
  = quic.
Proof.
  intros Hty. unfold picoquic_process_unexpected_cnxid. rewrite Hty.
  cbn. rewrite andb_false_r. reflexivity.
Qed.

(** C3: with [picoquic_packet_error] as the enumerator of value 0, a
    short-header packet whose destination connection id matches no
    connection is dropped by [picoquic_incoming_segment] with the endpoint
    exactly as it was, whatever its length, its trailing bytes and the
    address it comes from: the test for a stateless reset of lines 545-559
    is never reached, no connection becomes [Disconnected] and no up-call is
    made. *)
Theorem unknown_short_header_is_dropped (quic : picoquic_quic_t)
    (bytes : list Z) (length packet_length consumed : Z)
    (addr_from addr_to : sockaddr) (if_index_to current_time : Z)
    (previous_dest_id : picoquic_connection_id_t)
    (ret0 : Z) (ph : picoquic_packet_header) :
  packet_type_zero = picoquic_packet_error ->
  0 < length ->
  Z.land (byte_at bytes 0) 0x40 = 0x40 ->
  Z.land (byte_at bytes 0) 0x80 <> 0x80 ->
  picoquic_parse_packet_header (Some quic) bytes length addr_from None 1
    = Done (ret0, ph, None) ->
  exists consumed' previous_dest_id',
    picoquic_incoming_segment quic bytes length packet_length consumed
      addr_from addr_to if_index_to current_time previous_dest_id
    = Done (-1, quic, bytes, consumed', previous_dest_id', 0).
Proof.
  intros Hzero Hlen Hfixed Hshort Hparse.
  destruct (parse_packet_header_unknown_short _ _ _ _ _ _
              Hzero Hlen Hfixed Hshort Hparse) as (-> & Hty & Hvn & Hvi).
  unfold picoquic_incoming_segment.
  rewrite (parse_header_and_decrypt_error_no_cnx _ _ _ _ _ _ _ _ _ Hparse Hty).
  cbn [mbind outcome_bind]. unfold process_segment.
  change (0 =? 0) with true. cbn [andb]. rewrite Hvn, Hvi.
  change (-1 <? 0) with true. change (0 =? 0) with true. cbn [andb negb].
  rewrite process_unexpected_cnxid_error by exact Hty.
  eexists _, _.
  destruct (negb (picoquic_is_connection_id_null (ph_dest_cnx_id ph)));
    reflexivity.
Qed.

End UnknownShortHeader.

(** The witness of [unknown_short_header_is_dropped], which is scenario S6
    of the specification: the endpoint [quic_one] has a connection with
    the peer [peer]; a short-header packet of 40 bytes (the minimal reset
    packet has 39) arrives from [peer] for the unknown connection id
    [0xCC], and its last 16 bytes are the reset secret of the connection.
    The connection stays in the state it was in. *)
Lemma unknown_short_header_is_dropped_witness :
  (picoquic_cnx_by_id Example.quic_one [0xCC] = None /\
   picoquic_cnx_by_net Example.quic_one Example.peer = Some 0%nat /\
   PICOQUIC_RESET_PACKET_MIN_SIZE <= 40 /\
   (exists c p, cnx_table Example.quic_one !! 0%nat = Some c /\
                path c !! 0%nat = Some p /\
                drop 24 Example.reset_segment = reset_secret p /\
                cnx_state c = picoquic_state_server_init)) /\
  exists consumed' previous_dest_id',
    picoquic_incoming_segment Example.quic_one Example.reset_segment 40 40 0
      Example.peer Example.here 0 0 picoquic_null_connection_id
    = Done (-1, Example.quic_one, Example.reset_segment, consumed',
            previous_dest_id', 0).
Proof.
  split.
  - split; [reflexivity|]. split; [reflexivity|]. split; [vm_compute; discriminate|].
    eexists _, _. repeat split; reflexivity.
  - apply (unknown_short_header_is_dropped Example.quic_one
             Example.reset_segment 40 40 0 Example.peer Example.here 0 0
             picoquic_null_connection_id 0
             (Example.parsed_header
                (picoquic_parse_packet_header (Some Example.quic_one)
                   Example.reset_segment 40 Example.peer None 1))).
    + reflexivity.
    + lia.
    + reflexivity.
    + vm_compute. discriminate.
    + vm_compute. reflexivity.
Defined.

(** ** An Initial packet in a datagram below the enforced MTU *)





(** ** Duplicates *)

Section Duplicate.

Context `{!picoquic_externals}.

(** [picoquic_decrypt_packet], called with a pointer to a flag, sets the
    flag exactly when the reconstructed packet number is in the receive set
    of the path. *)
Lemma decrypt_flags_duplicates (cnx : picoquic_cnx_t) (bytes : list Z)
    (packet_length : Z) (ph : picoquic_packet_header)
    (hp_enc aead_context : option Z) (v : Z) (path_from : option nat)
    (decoded : Z) (bytes' : list Z) (ph' : picoquic_packet_header)
    (already_received' : option Z) :
  picoquic_decrypt_packet cnx bytes packet_length ph hp_enc aead_context
    (Some v) path_from = Done (decoded, bytes', ph', already_received') ->
  exists p,
    match path_from with
    | Some i => path cnx !! i
    | None => path cnx !! 0%nat
    end = Some p /\
    already_received' =
      Some (if picoquic_is_pn_already_received p (ph_pc ph') (ph_pn64 ph') =? 0
            then 0 else 1).
Proof.
  intros Hrun. unfold picoquic_decrypt_packet, path_0 in Hrun.
  assert (Hp : exists p,
    match path_from with
    | Some i => path cnx !! i
    | None => path cnx !! 0%nat
    end = Some p /\
    match path_from with
    | Some i => deref (path cnx !! i)
    | None => deref (path cnx !! 0%nat)
    end = Done p).
  { destruct path_from as [i|];
      [destruct (path cnx !! i) as [p|] eqn:E
      |destruct (path cnx !! 0%nat) as [p|] eqn:E];
      try (exists p; split; reflexivity); discriminate Hrun. }
  destruct Hp as (p & Hp & Hd). exists p. split; [exact Hp|].
  rewrite Hd in Hrun. cbn [mbind outcome_bind option_map] in Hrun.
  destruct (remove_header_protection _ _ _ _) as [b1 ph1].
  destruct (picoquic_aead_decrypt_generic _ _ _ _ _) as [d out].
  injection Hrun as _ _ <- <-. cbn [ph_pc ph_pn64 set_ph_pn64].
  destruct (_ =? 0); reflexivity.
Qed.

(** The admission of an Initial packet either leaves the endpoint alone
    or creates a connection context, and the latter only when no
    connection matched and the datagram is long enough. *)
Lemma admit_initial_cases (quic : picoquic_quic_t) (packet_length : Z)
    (addr_from : sockaddr) (current_time : Z) (ph : picoquic_packet_header)
    (pcnx : option nat) (ra : Z) (qa : picoquic_quic_t) (pa : option nat)
    (na : Z) :
  admit_initial quic packet_length addr_from current_time ph pcnx 0
    = Done (ra, qa, pa, na) ->
  (ra = 0 \/ ra = PICOQUIC_ERROR_INITIAL_TOO_SHORT) /\
  ((qa = quic /\ pa = pcnx /\ na = 0) \/
   (pcnx = None /\ ra = 0 /\
    PICOQUIC_ENFORCED_INITIAL_MTU <= packet_length /\
    picoquic_create_cnx quic (ph_dest_cnx_id ph) (ph_srce_cnx_id ph) addr_from
      current_time (ph_vn ph) = (pa, qa) /\
    na = if bool_decide (pa = None) then 0 else 1)).
Proof.
  intros Hrun. unfold admit_initial in Hrun.
  destruct (match pcnx with
            | Some _ => _
            | None => Done true
            end) as [s| |] eqn:Hs; cbn [mbind outcome_bind] in Hrun;
    try discriminate.
  destruct (s && (packet_length <? PICOQUIC_ENFORCED_INITIAL_MTU)) eqn:Hshort.
  - change (PICOQUIC_ERROR_INITIAL_TOO_SHORT =? 0) with false in Hrun.
    cbn [andb] in Hrun. injection Hrun as <- <- <- <-.
    split; [right; reflexivity|left; auto].
  - change (0 =? 0) with true in Hrun. cbn [andb] in Hrun.
    destruct (bool_decide (pcnx = None)) eqn:Hnone.
    + apply bool_decide_eq_true in Hnone. subst pcnx.
      injection Hs as <-. cbn [andb] in Hshort. apply Z.ltb_ge in Hshort.
      destruct (picoquic_create_cnx _ _ _ _ _ _) as [pc qc] eqn:Hc.
      injection Hrun as <- <- <- <-.
      split; [left; reflexivity|right; auto].
    + injection Hrun as <- <- <- <-.
      split; [left; reflexivity|left; auto].
Qed.

(** Decryption by type returns the code it was given, or
    [PICOQUIC_ERROR_DETECTED] for a packet of type error. *)
Lemma decrypt_by_type_ret (cnx : picoquic_cnx_t) (bytes : list Z)
    (length packet_length : Z) (ph : picoquic_packet_header)
    (ret consumed r1 d : Z) (b1 : list Z) (ph1 : picoquic_packet_header)
    (a1 l1 c1 : Z) :
  decrypt_by_type cnx bytes length packet_length ph ret consumed
    = Done (r1, d, b1, ph1, a1, l1, c1) ->
  r1 = ret \/ r1 = PICOQUIC_ERROR_DETECTED.
Proof.
  intros Hd. unfold decrypt_by_type in Hd.
  repeat case_hyp Hd; injection Hd as <- _ _ _ _ _ _; auto.
Qed.

(** The test for a stateless reset returns the code it was given, or
    [PICOQUIC_ERROR_STATELESS_RESET] with the connection of the peer. *)
Lemma detect_stateless_reset_ret (quic : picoquic_quic_t) (bytes : list Z)
    (length : Z) (addr_from : sockaddr) (ret r : Z) (p : option nat) :
  detect_stateless_reset quic bytes length addr_from ret = Done (r, p) ->
  (r = ret /\ p = None) \/
  (r = PICOQUIC_ERROR_STATELESS_RESET /\ p = picoquic_cnx_by_net quic addr_from
   /\ p <> None).
Proof.
  intros Hd. unfold detect_stateless_reset in Hd.
  destruct (picoquic_cnx_by_net quic addr_from) as [h|];
    repeat case_hyp Hd; injection Hd as <- <-;
    first [ left; split; reflexivity
          | right; split; [reflexivity|split; [reflexivity|discriminate]] ].
Qed.


(** [process_segment] passes on any code other than 0 and
    [PICOQUIC_ERROR_STATELESS_RESET] without calling a handler. *)
Lemma process_segment_error (quic : picoquic_quic_t) (cnx : option nat)
    (bytes : list Z) (length consumed : Z) (addr_from addr_to : sockaddr)
    (if_index_to : Z) (ph : picoquic_packet_header)
    (current_time new_context_created ret : Z) :
  ret <> 0 -> ret <> PICOQUIC_ERROR_STATELESS_RESET ->
  process_segment quic cnx bytes length consumed addr_from addr_to if_index_to
    ph current_time new_context_created ret = Done (ret, quic, cnx).
Proof.
  intros H0 Hr. unfold process_segment.
  rewrite (proj2 (Z.eqb_neq _ _) H0), (proj2 (Z.eqb_neq _ _) Hr). reflexivity.
Qed.


End Duplicate.


(** ** Ranges *)

Lemma u8_range (x : Z) : 0 <= u8 x < 256.
Proof. unfold u8. apply (Z.mod_pos_bound x (2 ^ 8)). reflexivity. Qed.

Lemma u16_range (x : Z) : 0 <= u16 x < 65536.
Proof. unfold u16. apply (Z.mod_pos_bound x (2 ^ 16)). reflexivity. Qed.

Lemma u32_range (x : Z) : 0 <= u32 x < 4294967296.
Proof. unfold u32. apply (Z.mod_pos_bound x (2 ^ 32)). reflexivity. Qed.

Lemma u64_range (x : Z) : 0 <= u64 x < 18446744073709551616.
Proof. unfold u64. apply (Z.mod_pos_bound x (2 ^ 64)). reflexivity. Qed.

Lemma u16_small (x : Z) : 0 <= x < 65536 -> u16 x = x.
Proof. intros H. unfold u16. apply Z.mod_small. exact H. Qed.

Lemma u32_small (x : Z) : 0 <= x < 4294967296 -> u32 x = x.
Proof. intros H. unfold u32. apply Z.mod_small. exact H. Qed.

Lemma u64_small (x : Z) : 0 <= x < 18446744073709551616 -> u64 x = x.
Proof. intros H. unfold u64. apply Z.mod_small. exact H. Qed.

Lemma u16_le (x : Z) : 0 <= x -> u16 x <= x.
Proof. intros H. unfold u16. apply Z.mod_le; [exact H|reflexivity]. Qed.

Lemma s32_small (x : Z) : 0 <= x < 2147483648 -> s32 x = x.
Proof.
  intros H. unfold s32. rewrite u32_small by lia.
  replace (x <? 2 ^ 31) with true; [reflexivity|].
  symmetry. apply Z.ltb_lt. change (2 ^ 31) with 2147483648. lia.
Qed.

Lemma s32_le (x : Z) : 0 <= x < 4294967296 -> s32 x <= x.
Proof.
  intros H. unfold s32. rewrite u32_small by lia.
  destruct (x <? 2 ^ 31); change (2 ^ 32) with 4294967296; lia.
Qed.

Lemma byte_at_range (bytes : list Z) (i : Z) : 0 <= byte_at bytes i < 256.
Proof. apply u8_range. Qed.

(** A property of every byte value that a computation checks. *)
Lemma for_all_bytes (P : Z -> bool) :
  forallb (fun n => P (Z.of_nat n)) (seq 0 256) = true ->
  forall b, 0 <= b < 256 -> P b = true.
Proof.
  intros Hall b Hb. rewrite forallb_forall in Hall.
  specialize (Hall (Z.to_nat b)). rewrite Z2Nat.id in Hall by lia.
  apply Hall. apply in_seq. lia.
Qed.

(** ** The wire primitives *)

(** [picoquic_varint_decode] consumes 1, 2, 4 or 8 bytes and never more
    than [max_bytes]; it returns 0 bytes when [max_bytes] is too small, and
    its value is a 64-bit one. *)
Lemma varint_decode_length (bytes : list Z) (max_bytes : Z) :
  let l := (picoquic_varint_decode bytes max_bytes).1 in
  (l = 0 \/ l = 1 \/ l = 2 \/ l = 4 \/ l = 8) /\ (l <> 0 -> l <= max_bytes).
Proof.
  unfold picoquic_varint_decode.
  pose proof (byte_at_range bytes 0) as Hb.
  pose proof (for_all_bytes
    (fun b => let l := Z.shiftl 1 (Z.shiftr (Z.land b 192) 6) in
              (l =? 1) || (l =? 2) || (l =? 4) || (l =? 8))
    ltac:(vm_compute; reflexivity) (byte_at bytes 0) Hb) as Hl.
  cbv beta zeta in Hl.
  destruct (_ >? max_bytes) eqn:Hmax; cbn [fst].
  - split; [left; reflexivity|congruence].
  - rewrite Z.gtb_ltb in Hmax. apply Z.ltb_ge in Hmax.
    split; [|intros _; exact Hmax].
    rewrite !orb_true_iff, !Z.eqb_eq in Hl. tauto.
Qed.

Lemma varint_decode_value (bytes : list Z) (max_bytes : Z) :
  0 <= (picoquic_varint_decode bytes max_bytes).2 < 18446744073709551616.
Proof.
  unfold picoquic_varint_decode.
  destruct (_ >? max_bytes); cbn [snd]; [lia|].
  assert (H0 : 0 <= Z.land (byte_at bytes 0) 63 < 18446744073709551616).
  { change 63 with (Z.ones 6). rewrite Z.land_ones by lia.
    pose proof (Z.mod_pos_bound (byte_at bytes 0) (2 ^ 6) ltac:(lia)).
    change (2 ^ 6) with 64 in *. lia. }
  revert H0. generalize (Z.land (byte_at bytes 0) 63).
  generalize (seq 1 (Z.to_nat
    (Z.shiftl 1 (Z.shiftr (Z.land (byte_at bytes 0) 192) 6)) - 1)).
  intros l. induction l as [|i l IH]; intros v Hv; cbn [fold_left].
  - exact Hv.
  - apply IH. apply u64_range.
Qed.

(** [picoquic_parse_connection_id] advances by at most 20 bytes, and by
    the length of the id it yields. *)
Lemma parse_connection_id_advance (bytes : list Z) (len : Z) :
  0 <= len ->
  let r := picoquic_parse_connection_id bytes len in
  0 <= r.1 <= 20 /\ id_len r.2 = r.1 /\ (len <= 20 -> r.1 = len).
Proof.
  intros Hlen. unfold picoquic_parse_connection_id, id_len.
  unfold PICOQUIC_CONNECTION_ID_MAX_SIZE.
  destruct (Z.leb_spec len 20) as [Hle|Hgt]; cbn [fst snd].
  - rewrite !length_map, length_seq. rewrite Z2Nat.id by lia. lia.
  - cbn. lia.
Qed.

(** ** Where a parsed header ends *)

Section Progress.

Context `{!picoquic_externals}.

Lemma remaining16_range (length : Z) (ph : picoquic_packet_header) :
  0 <= remaining16 length ph < 65536.
Proof. apply u16_range. Qed.

Lemma long_header_type_29_facts (bytes : list Z) (length type : Z)
    (ph : picoquic_packet_header) :
  0 <= ph_offset ph -> 0 <= length ->
  let ph' := long_header_type_29 bytes length type ph in
  ph_version_index ph' = ph_version_index ph /\ ph_vn ph' = ph_vn ph /\
  ph_payload_length ph' = ph_payload_length ph /\
  ph_dest_cnx_id ph' = ph_dest_cnx_id ph /\
  0 <= ph_offset ph' /\
  (ph_ptype ph' = picoquic_packet_retry -> ph_offset ph' = ph_offset ph).
Proof.
  intros Ho Hl. unfold long_header_type_29.
  pose proof (u32_range
    (ph_offset ph
     + u32 (u64 ((picoquic_varint_decode (advance bytes (ph_offset ph))
                    (u32 (length - ph_offset ph))).1
                 + (picoquic_varint_decode (advance bytes (ph_offset ph))
                      (u32 (length - ph_offset ph))).2)))) as Hu.
  destruct (picoquic_varint_decode _ _) as [l v]. cbn [fst snd] in Hu.
  repeat match goal with
         | |- context [if ?b then _ else _] => destruct b
         end; cbn; repeat split; auto; try lia; try discriminate.
Qed.

Lemma long_header_payload_length_facts (bytes : list Z) (length : Z)
    (ph ph' : picoquic_packet_header) (pl vl : Z) :
  0 <= ph_offset ph -> 0 <= ph_payload_length ph < 65536 ->
  long_header_payload_length bytes length ph = (ph', pl, vl) ->
  ph_vn ph' = ph_vn ph /\ ph_version_index ph' = ph_version_index ph /\
  ph_offset ph' = ph_offset ph /\ ph_dest_cnx_id ph' = ph_dest_cnx_id ph /\
  0 <= ph_payload_length ph' < 65536 /\
  (ph_ptype ph' = picoquic_packet_error \/
   (ph' = ph /\ ph_offset ph < length /\ 0 <= vl <= 8 /\
    (vl = 0 -> ph_ptype ph = picoquic_packet_retry) /\
    0 <= ph_version_index ph \/ ph' = ph /\ ph_offset ph < length /\ vl = 0 /\
    ph_ptype ph = picoquic_packet_retry)).
Proof.
  intros Ho Hp Hrun. unfold long_header_payload_length in Hrun.
  destruct (bool_decide (ph_ptype ph = picoquic_packet_retry)) eqn:Hretry.
  - apply bool_decide_eq_true in Hretry.
    destruct (Z.gtb_spec length (ph_offset ph)) as [Hgt|Hle];
      injection Hrun as <- <- <-; cbn; repeat split; auto; try lia.
    right. right. repeat split; auto.
  - apply bool_decide_eq_false in Hretry.
    pose proof (varint_decode_length (advance bytes (ph_offset ph))
                  (u32 (length - ph_offset ph))) as Hvl.
    destruct (ph_offset ph <? length) eqn:Hlt.
    + destruct (picoquic_varint_decode _ _) as [l v]. cbn [fst] in Hvl.
      cbv zeta in Hvl. destruct Hvl as (Hl & _).
      assert (Hl8 : u32 l = l) by (apply u32_small; lia).
      rewrite Hl8 in Hrun.
      destruct ((l <=? 0) || _ || _) eqn:Hbad;
        injection Hrun as <- <- <-; cbn -[remaining16].
      * pose proof (remaining16_range length
                      (set_ph_ptype picoquic_packet_error ph)).
        repeat split; auto; lia.
      * rewrite !orb_false_iff in Hbad. destruct Hbad as ((Hl0 & _) & Hvi).
        apply Z.leb_gt in Hl0. apply Z.ltb_ge in Hvi. apply Z.ltb_lt in Hlt.
        repeat split; auto; try lia. right. left. repeat split; auto; lia.
    + change (0 <=? 0) with true in Hrun. cbn [orb] in Hrun.
      injection Hrun as <- <- <-. cbn -[remaining16].
      pose proof (remaining16_range length
                    (set_ph_ptype picoquic_packet_error ph)).
      repeat split; auto; lia.
Qed.

(** What the dispatcher needs to know of a header that
    [picoquic_parse_packet_header] accepted: its payload length is that of
    a [uint16_t]; and either the header ends at least one byte into the
    segment and at most 600 bytes past its end, with the packet number of
    an Initial starting where the header ends, or this is an Error packet
    of a supported version for which no connection was looked up. *)
Definition parsed_progress (length : Z) (ph : picoquic_packet_header)
    (pcnx : option nat) : Prop :=
  0 <= ph_payload_length ph < 65536 /\
  ((1 <= ph_offset ph <= length + 600 /\
    (ph_ptype ph = picoquic_packet_initial -> ph_pn_offset ph = ph_offset ph)) \/
   (ph_ptype ph = picoquic_packet_error /\ pcnx = None /\
    0 <= ph_version_index ph)).

Lemma parse_long_header_progress (quic : picoquic_quic_t) (bytes : list Z)
    (length : Z) (addr_from : sockaddr) (ph : picoquic_packet_header)
    (pcnx : option nat) :
  packet_type_zero = picoquic_packet_error ->
  0 < length <= 2 ^ 32 - 2 ^ 17 ->
  parse_long_header (Some quic) bytes length addr_from
    (set_ph_version_index (-1) ph_memset_zero) None = Done (0, ph, pcnx) ->
  parsed_progress length ph pcnx.
Proof.
  intros Hzero Hlen Hrun. change (2 ^ 32 - 2 ^ 17) with 4294836224 in Hlen.
  unfold parse_long_header in Hrun.
  destruct (length <? 7) eqn:H7; [discriminate|]. apply Z.ltb_ge in H7.
  destruct (_ >? s32 length) eqn:Hd; [discriminate|].
  pose proof (byte_at_range bytes 5) as Hb5.
  cbn [ph_offset set_ph_offset set_ph_vn set_ph_dest_cnx_id] in Hrun.
  pose proof (parse_connection_id_advance (advance bytes 6) (byte_at bytes 5)
                ltac:(lia)) as Hn1.
  destruct (picoquic_parse_connection_id (advance bytes 6) (byte_at bytes 5))
    as [n1 cid1]. cbv zeta in Hn1. cbn [fst snd] in Hn1.
  destruct Hn1 as (Hn1 & _ & _).
  rewrite (u32_small (6 + n1)) in Hrun by lia.
  cbn [ph_offset set_ph_offset set_ph_vn set_ph_dest_cnx_id] in Hrun.
  rewrite (u32_small (6 + n1 + 1)) in Hrun by lia.
  pose proof (byte_at_range bytes (6 + n1)) as Hbs.
  pose proof (parse_connection_id_advance (advance bytes (6 + n1 + 1))
                (byte_at bytes (6 + n1)) ltac:(lia)) as Hn2.
  destruct (picoquic_parse_connection_id (advance bytes (6 + n1 + 1))
              (byte_at bytes (6 + n1))) as [n2 cid2].
  cbv zeta in Hn2. cbn [fst snd] in Hn2. destruct Hn2 as (Hn2 & _ & _).
  cbn [ph_offset set_ph_offset set_ph_srce_cnx_id] in Hrun.
  rewrite (u32_small (6 + n1 + 1 + n2)) in Hrun by lia.
  match type of Hrun with
  | context [set_ph_spin 0 ?r] => set (ph1 := set_ph_spin 0 r) in Hrun
  end.
  assert (Ho1 : ph_offset ph1 = 6 + n1 + 1 + n2) by reflexivity.
  assert (Hp1 : ph_payload_length ph1 = 0) by reflexivity.
  assert (Hv1 : ph_version_index ph1 = -1) by reflexivity.
  assert (Ht1 : ph_ptype ph1 = picoquic_packet_error) by exact Hzero.
  clearbody ph1.
  destruct (ph_vn ph1 =? 0) eqn:Hvn.
  { (* Version Negotiation *)
    destruct (vn_find_cnx _ _ _ _) as [p| |]; cbn [mbind outcome_bind] in Hrun;
      try discriminate.
    injection Hrun as <- <-. unfold parsed_progress.
    cbn -[remaining16]. rewrite Ho1.
    pose proof (remaining16_range length
      (set_ph_pc picoquic_packet_context_initial
         (set_ph_ptype picoquic_packet_version_negotiation ph1))).
    split; [lia|]. left. split; [lia|discriminate]. }
  match type of Hrun with
  | context [long_header_payload_length bytes length ?r] =>
      set (ph2 := r) in Hrun
  end.
  assert (H2 : 0 <= ph_offset ph2 /\ ph_payload_length ph2 = 0 /\
               (ph_version_index ph2 < 0 \/ ph_ptype ph2 = picoquic_packet_retry ->
                ph_offset ph2 = 6 + n1 + 1 + n2)).
  { subst ph2. cbn [ph_version_index set_ph_version_index].
    destruct (picoquic_get_version_index (ph_vn ph1) >=? 0) eqn:Hvi.
    - destruct (version_header_encoding _).
      + pose proof (long_header_type_29_facts bytes length
          (Z.land (Z.shiftr (byte_at bytes 0) 4) 3)
          (set_ph_version_index (picoquic_get_version_index (ph_vn ph1)) ph1)
          ltac:(cbn; lia) ltac:(lia)) as Hf.
        cbv zeta in Hf. destruct Hf as (Hfv & _ & Hfp & _ & Hfo & Hfr).
        split; [exact Hfo|]. split; [rewrite Hfp; exact Hp1|].
        intros [Hneg|Hretry].
        * rewrite Hfv in Hneg. cbn in Hneg. apply Z.geb_le in Hvi. lia.
        * rewrite (Hfr Hretry). exact Ho1.
      + cbn. rewrite Ho1. split; [lia|]. split; [exact Hp1|]. auto.
    - cbn. rewrite Ho1. split; [lia|]. split; [exact Hp1|]. auto. }
  clearbody ph2. destruct H2 as (Ho2 & Hp2 & Hsame).
  destruct (long_header_payload_length bytes length ph2) as [[ph3 pl] vl]
    eqn:Hpl.
  apply long_header_payload_length_facts in Hpl; [|exact Ho2|lia].
  destruct Hpl as (_ & Hvi3 & Ho3 & _ & Hp3 & Hcase).
  pose proof (u16_range pl) as Hpl16.
  destruct (bool_decide (ph_ptype ph3 <> picoquic_packet_error)) eqn:Hne.
  - apply bool_decide_eq_true in Hne.
    destruct (long_header_find_cnx _ _ _ _) as [p| |];
      cbn [mbind outcome_bind] in Hrun; try discriminate.
    injection Hrun as <- <-. unfold parsed_progress.
    cbn [ph_payload_length ph_offset ph_pn_offset ph_ptype set_ph_pn_offset
         set_ph_offset set_ph_payload_length].
    split; [exact Hpl16|]. left.
    assert (Hoff : ph_offset ph3 < length /\ 0 <= vl <= 8 /\
                   (vl = 0 -> ph_ptype ph2 = picoquic_packet_retry)).
    { destruct Hcase as [He|[(-> & Hlt & Hvl & Hr & _)|(-> & Hlt & -> & Hr)]];
        [contradiction|auto|]. split; [exact Hlt|]. split; [lia|auto]. }
    destruct Hoff as (Hlt & Hvl & Hr).
    rewrite u32_small by lia. split; [|reflexivity].
    destruct (Z.eq_dec vl 0) as [->|Hvl0].
    + rewrite Ho3, (Hsame (or_intror (Hr eq_refl))). lia.
    + lia.
  - apply bool_decide_eq_false in Hne.
    assert (Hty : ph_ptype ph3 = picoquic_packet_error)
      by (destruct (ph_ptype ph3); try reflexivity; exfalso; apply Hne;
          discriminate).
    injection Hrun as <- <-. unfold parsed_progress.
    split; [exact Hp3|].
    destruct (Z.lt_ge_cases (ph_version_index ph3) 0) as [Hneg|Hpos].
    + left. rewrite Ho3, Hsame by (left; lia). split; [lia|].
      rewrite Hty. discriminate.
    + right. auto.
Qed.

End Progress.

(** ** The walk over the coalesced segments *)

(** The record of a walk that starts at [consumed_index]: every call is
    made at the index the previous one reached, inside the datagram, and a
    call that returns a code other than 0 is the last one. *)
Fixpoint walk_chain (length consumed_index : Z) (walked : list (Z * Z * Z))
  : Prop :=
  match walked with
  | [] => True
  | (index, ret, consumed) :: rest =>
      index = consumed_index /\ consumed_index < length /\
      if ret =? 0 then walk_chain length (u32 (consumed_index + consumed)) rest
      else rest = []
  end.


Lemma walk_chain_error_is_last (length : Z) (walked : list (Z * Z * Z)) :
  forall consumed_index, walk_chain length consumed_index walked ->
  forall (k : nat) (index ret consumed : Z),
    walked !! k = Some (index, ret, consumed) -> ret <> 0 ->
    walked !! S k = None.
Proof.
  induction walked as [|[[i r] c] rest IH]; intros ci Hchain k index ret consumed
    Hk Hret.
  - discriminate Hk.
  - cbn [walk_chain] in Hchain. destruct Hchain as (_ & _ & Hrest).
    destruct k as [|k].
    + injection Hk as -> -> ->.
      rewrite (proj2 (Z.eqb_neq ret 0) Hret) in Hrest. subst rest. reflexivity.
    + cbn in Hk. destruct (r =? 0).
      * exact (IH _ Hrest k index ret consumed Hk Hret).
      * subst rest. discriminate Hk.
Qed.

Section Walk.

Context `{!picoquic_externals}.

Lemma incoming_packet_loop_walk (length : Z) (addr_from addr_to : sockaddr)
    (if_index_to current_time : Z) (fuel : nat) :
  forall (quic : picoquic_quic_t) (bytes : list Z) (consumed_index : Z)
         (previous_destid : picoquic_connection_id_t)
         (new_context_created ret : Z) (walked0 : list (Z * Z * Z))
         (r : Z) (quic' : picoquic_quic_t) (bytes' : list Z) (n' : Z)
         (walked : list (Z * Z * Z)),
  incoming_packet_loop fuel quic bytes length consumed_index addr_from addr_to
    if_index_to current_time previous_destid new_context_created ret walked0
  = Done (r, quic', bytes', n', walked) ->
  exists new, walked = walked0 ++ new /\ walk_chain length consumed_index new /\
              (r = 0 \/ r = ret).
Proof.
  induction fuel as [|fuel IH]; intros quic bytes ci pd ncc ret walked0 r quic'
    bytes' n' walked Hrun; cbn [incoming_packet_loop] in Hrun.
  - destruct (ci <? length); [discriminate|].
    injection Hrun as <- _ _ _ <-. exists []. rewrite app_nil_r.
    split; [reflexivity|]. split; [exact I|]. auto.
  - destruct (ci <? length) eqn:Hci.
    + apply Z.ltb_lt in Hci.
      destruct (picoquic_incoming_segment _ _ _ _ _ _ _ _ _ _)
        as [[[[[[rs qs] bs] cs] ps] ns]| |];
        cbn [mbind outcome_bind] in Hrun; try discriminate.
      destruct (rs =? 0) eqn:Hrs.
      * apply IH in Hrun. destruct Hrun as (new & -> & Hchain & Hr).
        exists ((ci, rs, cs) :: new). rewrite <- app_assoc.
        split; [reflexivity|]. split.
        -- cbn [walk_chain]. rewrite Hrs. auto.
        -- apply Z.eqb_eq in Hrs. subst rs. destruct Hr; auto.
      * injection Hrun as <- _ _ _ <-. exists [(ci, rs, cs)].
        split; [reflexivity|]. split; [|auto].
        cbn [walk_chain]. rewrite Hrs. auto.
    + injection Hrun as <- _ _ _ <-. exists []. rewrite app_nil_r.
      split; [reflexivity|]. split; [exact I|]. auto.
Qed.


End Walk.



(** ** Only the walk can run out of fuel *)

Definition fuel_free {A : Type} (o : outcome A) : Prop := o <> OutOfFuel.

Lemma fuel_free_done {A : Type} (a : A) : fuel_free (Done a).
Proof. discriminate. Qed.

Lemma fuel_free_fault {A : Type} : fuel_free (@Fault A).
Proof. discriminate. Qed.

Lemma fuel_free_deref {A : Type} (o : option A) : fuel_free (deref o).
Proof. destruct o; discriminate. Qed.

Lemma fuel_free_bind {A B : Type} (m : outcome A) (f : A -> outcome B) :
  fuel_free m -> (forall a, fuel_free (f a)) -> fuel_free (m ≫= f).
Proof.
  intros Hm Hf. destruct m as [a| |]; cbn;
    [apply Hf|discriminate|exfalso; apply Hm; reflexivity].
Qed.

Create HintDb fuel_free.

#[export] Hint Resolve fuel_free_done fuel_free_fault fuel_free_deref
  : fuel_free.

Ltac fuel_free_step :=
  first
    [ solve [auto with fuel_free]
    | progress cbv zeta
    | match goal with
      | |- fuel_free (_ ≫= _) => apply fuel_free_bind; [|intros ?]
      | |- fuel_free (match ?x with _ => _ end) => destruct x
      end ].

Ltac fuel_free_tac := repeat fuel_free_step.

Section FuelFree.

Context `{!picoquic_externals}.

Lemma deref_cnx_fuel_free (quic : option picoquic_quic_t) (pcnx : option nat) :
  fuel_free (deref_cnx quic pcnx).
Proof. unfold deref_cnx. fuel_free_tac. Qed.

Lemma path_0_fuel_free (cnx : picoquic_cnx_t) : fuel_free (path_0 cnx).
Proof. unfold path_0. fuel_free_tac. Qed.

Hint Resolve deref_cnx_fuel_free path_0_fuel_free : fuel_free.

Lemma parse_packet_header_fuel_free (quic : option picoquic_quic_t)
    (bytes : list Z) (length : Z) (addr_from : sockaddr) (pcnx : option nat)
    (receiving : Z) :
  fuel_free (picoquic_parse_packet_header quic bytes length addr_from pcnx
               receiving).
Proof.
  unfold picoquic_parse_packet_header, parse_long_header, parse_short_header,
    vn_find_cnx, long_header_find_cnx.
  fuel_free_tac.
Qed.

Lemma get_incoming_path_fuel_free (cnx : picoquic_cnx_t)
    (ph : picoquic_packet_header) :
  fuel_free (picoquic_get_incoming_path cnx ph).
Proof. unfold picoquic_get_incoming_path. fuel_free_tac. Qed.

Lemma decrypt_packet_fuel_free (cnx : picoquic_cnx_t) (bytes : list Z)
    (packet_length : Z) (ph : picoquic_packet_header)
    (hp_enc aead_context : option Z) (already_received : option Z)
    (path_from : option nat) :
  fuel_free (picoquic_decrypt_packet cnx bytes packet_length ph hp_enc
               aead_context already_received path_from).
Proof. unfold picoquic_decrypt_packet. fuel_free_tac. Qed.

Hint Resolve parse_packet_header_fuel_free get_incoming_path_fuel_free
  decrypt_packet_fuel_free : fuel_free.

Lemma parse_header_and_decrypt_fuel_free (quic : picoquic_quic_t)
    (bytes : list Z) (length packet_length : Z) (addr_from : sockaddr)
    (current_time : Z) (pcnx : option nat) (consumed new_context_created : Z) :
  fuel_free (picoquic_parse_header_and_decrypt quic bytes length packet_length
               addr_from current_time pcnx consumed new_context_created).
Proof.
  unfold picoquic_parse_header_and_decrypt, admit_initial, decrypt_by_type,
    detect_stateless_reset.
  fuel_free_tac.
Qed.

Lemma update_cnx_fuel_free (quic : picoquic_quic_t) (h : nat)
    (f : picoquic_cnx_t -> picoquic_cnx_t) :
  fuel_free (update_cnx quic h f).
Proof. unfold update_cnx. fuel_free_tac. Qed.

Hint Resolve parse_header_and_decrypt_fuel_free update_cnx_fuel_free
  : fuel_free.

Lemma incoming_segment_fuel_free (quic : picoquic_quic_t) (bytes : list Z)
    (length packet_length consumed : Z) (addr_from addr_to : sockaddr)
    (if_index_to current_time : Z)
    (previous_dest_id : picoquic_connection_id_t) :
  fuel_free (picoquic_incoming_segment quic bytes length packet_length consumed
               addr_from addr_to if_index_to current_time previous_dest_id).
Proof.
  unfold picoquic_incoming_segment, process_segment, dispatch_packet,
    dispatch_initial, picoquic_incoming_version_negotiation,
    picoquic_incoming_stateless_reset, picoquic_set_cnx_state,
    conclude_segment, negotiate_plugins, update_path_0.
  fuel_free_tac.
Qed.

End FuelFree.

(** ** Every segment that is accepted makes the walk advance *)

Section Termination.

Context `{!picoquic_externals}.

Lemma parse_short_header_progress (quic : picoquic_quic_t) (bytes : list Z)
    (length : Z) (addr_from : sockaddr) (ph : picoquic_packet_header)
    (pcnx : option nat) :
  packet_type_zero = picoquic_packet_error ->
  0 < length <= 2 ^ 32 - 2 ^ 17 ->
  parse_short_header (Some quic) bytes length addr_from
    (set_ph_version_index (-1) ph_memset_zero) None 1 = Done (0, ph, pcnx) ->
  parsed_progress length ph pcnx.
Proof.
  intros Hzero Hlen Hrun. change (2 ^ 32 - 2 ^ 17) with 4294836224 in Hlen.
  unfold parse_short_header in Hrun.
  change (1 =? 0) with false in Hrun. cbn [andb mbind outcome_bind] in Hrun.
  unfold parsed_progress.
  pose proof (u8_range (local_ctx_length quic)) as Hl.
  destruct (s32 length >=? 1 + _).
  - pose proof (parse_connection_id_advance (advance bytes 1)
                  (u8 (local_ctx_length quic)) ltac:(lia)) as Hn.
    destruct (picoquic_parse_connection_id _ _) as [n cid].
    cbv zeta in Hn. cbn [fst snd] in Hn. destruct Hn as (Hn & _ & _).
    cbn [ph_offset set_ph_offset set_ph_dest_cnx_id] in Hrun.
    rewrite (u32_small (1 + n)) in Hrun by lia.
    destruct (if _ >? 0 then _ else _) as [h|].
    + destruct (deref_cnx (Some quic) (Some h)) as [c| |];
        cbn [mbind outcome_bind] in Hrun; try discriminate.
      destruct (length <? _) eqn:Hlt; [discriminate|].
      injection Hrun as <- <-.
      cbn [ph_payload_length set_ph_payload_length].
      split; [apply u16_range|]. left.
      destruct (version_header_encoding _); cbn; rewrite ?Hzero;
        (split; [lia|discriminate]).
    + injection Hrun as <- <-. cbn -[remaining16].
      split; [apply remaining16_range|]. left. rewrite Hzero.
      split; [lia|discriminate].
  - injection Hrun as <- <-. cbn. split; [lia|]. left.
    split; [lia|discriminate].
Qed.

(** A header that the parser accepts ends where [parsed_progress] says. *)
Lemma parse_packet_header_progress (quic : picoquic_quic_t) (bytes : list Z)
    (length : Z) (addr_from : sockaddr) (ph : picoquic_packet_header)
    (pcnx : option nat) :
  packet_type_zero = picoquic_packet_error ->
  0 < length <= 2 ^ 32 - 2 ^ 17 ->
  picoquic_parse_packet_header (Some quic) bytes length addr_from None 1
    = Done (0, ph, pcnx) ->
  parsed_progress length ph pcnx.
Proof.
  intros Hzero Hlen Hrun. unfold picoquic_parse_packet_header in Hrun.
  destruct (length =? 0); [discriminate|].
  destruct (negb _).
  - injection Hrun as <- <-. unfold parsed_progress. cbn.
    change (2 ^ 32 - 2 ^ 17) with 4294836224 in Hlen.
    split; [lia|]. left. split; [lia|discriminate].
  - destruct (_ =? 128).
    + apply (parse_long_header_progress quic bytes length addr_from); auto.
    + apply (parse_short_header_progress quic bytes length addr_from); auto.
Qed.

Lemma iter_offset_small (n : nat) (o : Z) :
  0 <= o -> o + Z.of_nat n < 4294967296 ->
  Nat.iter n (fun o => u32 (o + 1)) o = o + Z.of_nat n.
Proof.
  intros Ho. induction n as [|n IH]; intros Hn.
  - cbn. lia.
  - rewrite Nat.iter_succ, IH by lia. rewrite u32_small; lia.
Qed.

(** Removing the header protection leaves the header where the packet
    number starts, or moves its end past the one to four bytes of the
    packet number; the payload length stays that of a [uint16_t]. *)
Lemma remove_header_protection_progress (bytes : list Z) (length : Z)
    (ph : picoquic_packet_header) (hp_enc : option Z) :
  0 <= ph_offset ph < 4294967296 - 4 ->
  0 <= ph_payload_length ph < 65536 ->
  let ph' := (remove_header_protection bytes length ph hp_enc).2 in
  0 <= ph_payload_length ph' < 65536 /\
  (ph_offset ph' = ph_pn_offset ph \/
   ph_offset ph < ph_offset ph' <= ph_offset ph + 4).
Proof.
  intros Ho Hp. unfold remove_header_protection.
  destruct hp_enc as [hp|]; [|cbn; auto].
  destruct (_ >? length); [cbn; auto|].
  set (pn_l := u8 (Z.land (unmasked_first_byte hp bytes ph) 3 + 1)).
  assert (Hpn : 1 <= pn_l <= 4).
  { subst pn_l. pose proof (land_3_bounds (unmasked_first_byte hp bytes ph)).
    unfold u8. rewrite Z.mod_small; lia. }
  pose proof (pn_decode_loop_fields (hp_mask hp bytes ph) (Z.to_nat pn_l) 1
                (store_byte bytes 0 (unmasked_first_byte hp bytes ph))
                (set_ph_pnmask 18446744073709551615 ph) 0) as Hf.
  cbv zeta in Hf.
  destruct (pn_decode_loop _ _ _ _ _ _) as [[b1 ph1] pn_val].
  cbn [fst snd] in Hf. destruct Hf as (_ & Hoff & _).
  cbn [ph_offset set_ph_pnmask] in Hoff.
  rewrite iter_offset_small in Hoff by lia. rewrite Z2Nat.id in Hoff by lia.
  cbv zeta. split.
  - destruct (bool_decide _); cbn; apply u16_range.
  - right. destruct (bool_decide _); cbn; lia.
Qed.

Lemma decrypt_packet_progress (cnx : picoquic_cnx_t) (bytes : list Z)
    (packet_length : Z) (ph : picoquic_packet_header)
    (hp_enc aead_context : option Z) (already_received : option Z)
    (path_from : option nat) (decoded : Z) (bytes' : list Z)
    (ph' : picoquic_packet_header) (already_received' : option Z) :
  0 <= ph_offset ph < 4294967296 - 4 ->
  0 <= ph_payload_length ph < 65536 ->
  picoquic_decrypt_packet cnx bytes packet_length ph hp_enc aead_context
    already_received path_from
  = Done (decoded, bytes', ph', already_received') ->
  0 <= ph_payload_length ph' < 65536 /\
  (ph_offset ph' = ph_pn_offset ph \/
   ph_offset ph < ph_offset ph' <= ph_offset ph + 4).
Proof.
  intros Ho Hp Hrun. unfold picoquic_decrypt_packet in Hrun.
  destruct (match path_from with
            | Some _ => _
            | None => _
            end) as [p| |]; cbn [mbind outcome_bind] in Hrun;
    try discriminate.
  pose proof (remove_header_protection_progress bytes
                (u32 (ph_offset ph + ph_payload_length ph)) ph hp_enc Ho Hp)
    as Hf.
  cbv zeta in Hf.
  destruct (remove_header_protection _ _ _ _) as [b1 ph1].
  cbn [snd] in Hf.
  destruct (picoquic_aead_decrypt_generic _ _ _ _ _) as [d out].
  injection Hrun as _ _ <- _. cbn. exact Hf.
Qed.

(** Decryption by type leaves in [*consumed] what it was given, except for
    an Initial packet, for which it is where the decrypted payload ends. *)
Lemma decrypt_by_type_progress (cnx : picoquic_cnx_t) (bytes : list Z)
    (length packet_length bound : Z) (ph : picoquic_packet_header)
    (ret consumed r1 d : Z) (b1 : list Z) (ph1 : picoquic_packet_header)
    (a1 l1 c1 : Z) :
  bound <= 4294836224 ->
  1 <= ph_offset ph <= bound + 600 ->
  0 <= ph_payload_length ph < 65536 ->
  (ph_ptype ph = picoquic_packet_initial -> ph_pn_offset ph = ph_offset ph) ->
  1 <= consumed < bound + 131072 ->
  decrypt_by_type cnx bytes length packet_length ph ret consumed
    = Done (r1, d, b1, ph1, a1, l1, c1) ->
  1 <= c1 < bound + 131072.
Proof.
  intros Hb Ho Hp Hinit Hc Hrun. unfold decrypt_by_type in Hrun.
  destruct (picoquic_get_incoming_path cnx ph) as [pf| |];
    cbn [mbind outcome_bind] in Hrun; try discriminate.
  destruct (ph_ptype ph) eqn:Hty;
    try (injection Hrun as _ _ _ _ _ _ <-; exact Hc);
    destruct (picoquic_decrypt_packet _ _ _ _ _ _ _ _)
      as [[[[d' b'] ph'] a']| |] eqn:Hdp;
    cbn [mbind outcome_bind] in Hrun; try discriminate;
    try (injection Hrun as _ _ _ _ _ _ <-; exact Hc).
  apply decrypt_packet_progress in Hdp; [|lia|exact Hp].
  destruct Hdp as (Hp' & Ho'). rewrite (Hinit eq_refl) in Ho'.
  injection Hrun as _ _ _ _ _ _ <-. rewrite u32_small; lia.
Qed.

(** The codes that [picoquic_parse_header_and_decrypt] returns. *)
Definition parse_and_decrypt_code (ret : Z) : Prop :=
  ret = 0 \/ ret = -1 \/ ret = PICOQUIC_ERROR_INITIAL_TOO_SHORT \/
  ret = PICOQUIC_ERROR_DETECTED \/ ret = PICOQUIC_ERROR_AEAD_CHECK \/
  ret = PICOQUIC_ERROR_DUPLICATE \/ ret = PICOQUIC_ERROR_STATELESS_RESET.

(** What [picoquic_parse_header_and_decrypt] leaves in [*consumed] when it
    returns 0: at least one byte and less than the length of the segment
    plus [2 ^ 17], unless the packet is an Error packet of a supported
    version without connection. *)
Lemma parse_header_and_decrypt_progress (quic : picoquic_quic_t)
    (bytes : list Z) (length packet_length : Z) (addr_from : sockaddr)
    (current_time consumed ret : Z) (quic1 : picoquic_quic_t)
    (bytes1 : list Z) (ph : picoquic_packet_header) (cnx : option nat)
    (consumed1 ncc1 : Z) :
  packet_type_zero = picoquic_packet_error ->
  0 < length <= 2 ^ 32 - 2 ^ 17 ->
  picoquic_parse_header_and_decrypt quic bytes length packet_length addr_from
    current_time None consumed 0
  = Done (ret, quic1, bytes1, ph, cnx, consumed1, ncc1) ->
  parse_and_decrypt_code ret /\
  (ret = 0 ->
   1 <= consumed1 < length + 2 ^ 17 \/
   (cnx = None /\ 0 <= ph_version_index ph)).
Proof.
  intros Hzero Hlen Hrun. unfold picoquic_parse_header_and_decrypt in Hrun.
  unfold parse_and_decrypt_code.
  destruct (picoquic_parse_packet_header _ _ _ _ _ _)
    as [[[ret0 ph0] pcnx0]| |] eqn:Hparse;
    cbn [mbind outcome_bind] in Hrun; try discriminate.
  pose proof (parse_packet_header_ret _ _ _ _ _ _ _ _ _ Hparse) as Hret0.
  destruct Hret0 as [->| ->].
  2:{ change (negb (-1 =? 0)) with true in Hrun. cbv iota in Hrun.
      injection Hrun as <- _ _ _ _ _ _. split; [auto|discriminate]. }
  change (negb (0 =? 0)) with false in Hrun. cbv iota zeta in Hrun.
  apply parse_packet_header_progress in Hparse; [|exact Hzero|exact Hlen].
  destruct Hparse as (Hpl & Hcase).
  change (2 ^ 32 - 2 ^ 17) with 4294836224 in Hlen.
  change (2 ^ 17) with 131072.
  destruct (if bool_decide (ph_ptype ph0 = picoquic_packet_initial)
            then _ else _) as [[[[ra qa] pa] na]| |] eqn:Hadmit;
    cbn [mbind outcome_bind] in Hrun; try discriminate.
  assert (Hra : (ra = 0 \/ ra = PICOQUIC_ERROR_INITIAL_TOO_SHORT) /\
                (ph_ptype ph0 <> picoquic_packet_initial -> pa = pcnx0)).
  { destruct (bool_decide (ph_ptype ph0 = picoquic_packet_initial)) eqn:Hinit.
    - apply bool_decide_eq_true in Hinit.
      apply admit_initial_cases in Hadmit. split; [apply Hadmit|].
      intros Hne. contradiction.
    - injection Hadmit as <- _ <- _. auto. }
  destruct Hra as (Hra & Hpa).
  destruct pa as [h|].
  - destruct (deref_cnx _ _) as [c| |]; cbn [mbind outcome_bind] in Hrun;
      try discriminate.
    destruct (decrypt_by_type _ _ _ _ _ _ _)
      as [[[[[[[r1 d] b1] ph1] a1] l1] c1]| |] eqn:Hd;
      cbn [mbind outcome_bind] in Hrun; try discriminate.
    assert (Hleft : 1 <= ph_offset ph0 <= length + 600 /\
                    (ph_ptype ph0 = picoquic_packet_initial ->
                     ph_pn_offset ph0 = ph_offset ph0)).
    { destruct Hcase as [Hl|(Hty & Hnone & _)]; [exact Hl|].
      rewrite <- Hpa in Hnone by (rewrite Hty; discriminate). discriminate. }
    destruct Hleft as (Ho & Hinit).
    pose proof (decrypt_by_type_ret _ _ _ _ _ _ _ _ _ _ _ _ _ _ Hd) as Hr1.
    apply (decrypt_by_type_progress _ _ _ _ length) in Hd;
      [|lia|exact Ho|exact Hpl|exact Hinit|rewrite u32_small; lia].
    repeat case_hyp Hrun; injection Hrun as <- _ _ _ _ <- _;
      (split; [intuition (subst; auto 10)|intros _; left; exact Hd]).
  - assert (Hcons : forall r q b p c n,
              Done (r, q, b, p, c, u32 (ph_offset ph0 + ph_payload_length ph0), n)
              = Done (ret, quic1, bytes1, ph, cnx, consumed1, ncc1) ->
              (1 <= ph_offset ph0 <= length + 600) ->
              1 <= consumed1 < length + 131072).
    { intros r q b p c n Heq Ho. injection Heq as _ _ _ _ _ <- _.
      rewrite u32_small; lia. }
    destruct Hcase as [(Ho & _)|(Hty & Hnone & Hvi)].
    + destruct (_ || _).
      * destruct (detect_stateless_reset _ _ _ _ _) as [[r2 p2]| |] eqn:Hsr;
          cbn [mbind outcome_bind] in Hrun; try discriminate.
        apply detect_stateless_reset_ret in Hsr.
        split; [|intros _; left; eapply Hcons; eauto].
        injection Hrun as <- _ _ _ _ _ _. intuition (subst; auto 10).
      * split; [|intros _; left; eapply Hcons; eauto].
        injection Hrun as <- _ _ _ _ _ _. intuition (subst; auto 10).
    + rewrite Hty in Hrun.
      rewrite (bool_decide_false_eq picoquic_packet_error
                 picoquic_packet_1rtt_protected_phi0) in Hrun by discriminate.
      rewrite (bool_decide_false_eq picoquic_packet_error
                 picoquic_packet_1rtt_protected_phi1) in Hrun by discriminate.
      cbn [orb] in Hrun. injection Hrun as <- _ _ <- <- _ _.
      split; [intuition (subst; auto 10)|]. intros _. right. auto.
Qed.

(** The bookkeeping by return code yields 0 only for a segment that was
    processed with code 0 or [PICOQUIC_ERROR_SPURIOUS_REPEAT]. *)
Lemma conclude_segment_zero (quic : picoquic_quic_t) (cnx : option nat)
    (ph : picoquic_packet_header) (current_time ret : Z)
    (quic' : picoquic_quic_t) :
  conclude_segment quic cnx ph current_time ret = Done (0, quic') ->
  ret = 0 \/ ret = PICOQUIC_ERROR_SPURIOUS_REPEAT.
Proof.
  intros Hrun. unfold conclude_segment in Hrun.
  destruct (Z.eqb_spec ret 0) as [H0|H0]; [auto|].
  destruct (Z.eqb_spec ret PICOQUIC_ERROR_SPURIOUS_REPEAT) as [Hs|Hs]; [auto|].
  cbn [orb] in Hrun. exfalso.
  repeat case_hyp Hrun; discriminate Hrun.
Qed.

(** [picoquic_incoming_stateless_reset] returns
    [PICOQUIC_ERROR_AEAD_CHECK]. *)
Lemma incoming_stateless_reset_ret (quic : picoquic_quic_t) (h : nat)
    (r : Z * picoquic_quic_t) :
  picoquic_incoming_stateless_reset quic h = Done r ->
  r.1 = PICOQUIC_ERROR_AEAD_CHECK.
Proof.
  intros Hrun. unfold picoquic_incoming_stateless_reset in Hrun.
  repeat case_hyp Hrun; injection Hrun as <-; reflexivity.
Qed.

(** A segment is processed with code 0 or [PICOQUIC_ERROR_SPURIOUS_REPEAT]
    only if it was parsed and decrypted with code 0 and either a
    connection was found or the version is not a supported one. *)
Lemma process_segment_accepts (quic : picoquic_quic_t) (cnx : option nat)
    (bytes : list Z) (length consumed : Z) (addr_from addr_to : sockaddr)
    (if_index_to : Z) (ph : picoquic_packet_header)
    (current_time new_context_created ret r2 : Z) (quic2 : picoquic_quic_t)
    (cnx2 : option nat) :
  parse_and_decrypt_code ret ->
  process_segment quic cnx bytes length consumed addr_from addr_to if_index_to
    ph current_time new_context_created ret = Done (r2, quic2, cnx2) ->
  r2 = 0 \/ r2 = PICOQUIC_ERROR_SPURIOUS_REPEAT ->
  ret = 0 /\ (cnx = None -> ph_version_index ph < 0).
Proof.
  intros Hcode Hrun Hr2. unfold parse_and_decrypt_code in Hcode.
  destruct (Z.eq_dec ret 0) as [->|H0].
  - split; [reflexivity|]. intros ->. unfold process_segment in Hrun.
    change (0 =? 0) with true in Hrun. cbv iota in Hrun.
    destruct (ph_version_index ph <? 0) eqn:Hvi; [apply Z.ltb_lt; exact Hvi|].
    cbn [andb] in Hrun. injection Hrun as <- _ _.
    destruct Hr2 as [Hr2|Hr2]; discriminate Hr2.
  - exfalso. destruct (Z.eq_dec ret PICOQUIC_ERROR_STATELESS_RESET) as [->|Hs].
    + unfold process_segment in Hrun.
      change (PICOQUIC_ERROR_STATELESS_RESET =? 0) with false in Hrun.
      change (PICOQUIC_ERROR_STATELESS_RESET =? PICOQUIC_ERROR_STATELESS_RESET)
        with true in Hrun.
      cbv iota in Hrun.
      destruct (deref cnx) as [h| |]; cbn [mbind outcome_bind] in Hrun;
        try discriminate.
      destruct (picoquic_incoming_stateless_reset quic h) as [r| |] eqn:Hsr;
        cbn [mbind outcome_bind] in Hrun; try discriminate.
      apply incoming_stateless_reset_ret in Hsr.
      injection Hrun as <- _ _. rewrite Hsr in Hr2.
      destruct Hr2 as [Hr2|Hr2]; discriminate Hr2.
    + rewrite process_segment_error in Hrun by assumption.
      injection Hrun as <- _ _.
      destruct Hr2 as [->| ->]; [contradiction|].
      repeat (destruct Hcode as [Hcode|Hcode]; try discriminate Hcode).
Qed.

(** A call of [picoquic_incoming_segment] that returns 0 leaves in
    [*consumed] at least one byte, and less than the length of the segment
    plus [2 ^ 17]. *)
Lemma incoming_segment_progress (quic : picoquic_quic_t) (bytes : list Z)
    (length packet_length consumed : Z) (addr_from addr_to : sockaddr)
    (if_index_to current_time : Z)
    (previous_dest_id : picoquic_connection_id_t)
    (quic' : picoquic_quic_t) (bytes' : list Z) (consumed' : Z)
    (previous_dest_id' : picoquic_connection_id_t) (ncc' : Z) :
  packet_type_zero = picoquic_packet_error ->
  0 < length <= 2 ^ 32 - 2 ^ 17 ->
  picoquic_incoming_segment quic bytes length packet_length consumed
    addr_from addr_to if_index_to current_time previous_dest_id
  = Done (0, quic', bytes', consumed', previous_dest_id', ncc') ->
  1 <= consumed' < length + 2 ^ 17.
Proof.
  intros Hzero Hlen Hrun. unfold picoquic_incoming_segment in Hrun.
  cbv zeta in Hrun.
  destruct (picoquic_parse_header_and_decrypt _ _ _ _ _ _ _ _ _)
    as [[[[[[[r1 q1] b1] ph] c1] cons] ncc]| |] eqn:Hphd;
    cbn [mbind outcome_bind] in Hrun; try discriminate.
  destruct (process_segment _ _ _ _ _ _ _ _ _ _ _ _)
    as [[[r2 q2] c2]| |] eqn:Hps;
    cbn [mbind outcome_bind] in Hrun; try discriminate.
  destruct (conclude_segment _ _ _ _ _) as [[r3 q3]| |] eqn:Hcs;
    cbn [mbind outcome_bind] in Hrun; try discriminate.
  destruct (negotiate_plugins _ _) as [q4| |];
    cbn [mbind outcome_bind] in Hrun; try discriminate.
  injection Hrun as -> _ _ <- _ _.
  apply conclude_segment_zero in Hcs.
  apply parse_header_and_decrypt_progress in Hphd;
    [|exact Hzero|exact Hlen].
  destruct Hphd as (Hcode & Hcons).
  apply (process_segment_accepts _ _ _ _ _ _ _ _ _ _ _ _ _ _ _ Hcode) in Hps;
    [|exact Hcs].
  destruct Hps as (-> & Hvi).
  destruct (Hcons eq_refl) as [Hok|(Hnone & Hpos)]; [exact Hok|].
  specialize (Hvi Hnone). lia.
Qed.

(** The walk ends: with as much fuel as there are bytes left in the
    datagram, the loop does not run out of it. *)
Lemma incoming_packet_loop_terminates (length : Z)
    (addr_from addr_to : sockaddr) (if_index_to current_time : Z) :
  packet_type_zero = picoquic_packet_error ->
  length <= 2 ^ 32 - 2 ^ 17 ->
  forall (fuel : nat) (quic : picoquic_quic_t) (bytes : list Z)
         (consumed_index : Z) (previous_destid : picoquic_connection_id_t)
         (new_context_created ret : Z) (walked : list (Z * Z * Z)),
  0 <= consumed_index < 2 ^ 32 ->
  (Z.to_nat (length - consumed_index) <= fuel)%nat ->
  fuel_free
    (incoming_packet_loop fuel quic bytes length consumed_index addr_from
       addr_to if_index_to current_time previous_destid new_context_created
       ret walked).
Proof.
  intros Hzero Hlen. change (2 ^ 32 - 2 ^ 17) with 4294836224 in Hlen.
  change (2 ^ 32) with 4294967296.
  induction fuel as [|fuel IH]; intros quic bytes ci pd ncc ret walked Hci
    Hfuel; cbn [incoming_packet_loop].
  - destruct (Z.ltb_spec ci length) as [Hlt|Hge]; [lia|apply fuel_free_done].
  - destruct (Z.ltb_spec ci length) as [Hlt|Hge]; [|apply fuel_free_done].
    cbv zeta.
    pose proof (incoming_segment_fuel_free quic (advance bytes ci)
                  (u32 (length - ci)) length 0 addr_from addr_to if_index_to
                  current_time pd) as Hseg.
    destruct (picoquic_incoming_segment _ _ _ _ _ _ _ _ _ _)
      as [[[[[[rs qs] bs] cs] ps] ns]| |] eqn:Hrun;
      cbn [mbind outcome_bind];
      [|apply fuel_free_fault|exfalso; apply Hseg; reflexivity].
    destruct (Z.eqb_spec rs 0) as [->|Hrs]; [|apply fuel_free_done].
    rewrite u32_small in Hrun by lia.
    apply incoming_segment_progress in Hrun;
      [|exact Hzero|change (2 ^ 32 - 2 ^ 17) with 4294836224; lia].
    change (2 ^ 17) with 131072 in Hrun.
    rewrite u32_small by lia. apply IH; lia.
Qed.

(** C10: for a datagram of at most [2 ^ 32 - 2 ^ 17] bytes, with
    [picoquic_packet_error] the packet type of value 0, the walk of
    [picoquic_incoming_packet] ends, with as much fuel as the datagram has
    bytes: unless a null pointer is dereferenced on the way, the function
    returns, and the code it returns is 0; the segment for which
    [picoquic_incoming_segment] returned a code other than 0, if there is
    one, is the last one the walk processed. *)
Theorem incoming_packet_returns_zero (quic : picoquic_quic_t)
    (bytes : list Z) (length : Z) (addr_from addr_to : sockaddr)
    (if_index_to current_time new_context_created : Z) (fuel : nat) :
  packet_type_zero = picoquic_packet_error ->
  0 <= length <= 2 ^ 32 - 2 ^ 17 ->
  (Z.to_nat length <= fuel)%nat ->
  picoquic_incoming_packet fuel quic bytes length addr_from addr_to
    if_index_to current_time new_context_created = Fault \/
  exists (quic' : picoquic_quic_t) (bytes' : list Z) (n' : Z)
         (walked : list (Z * Z * Z)),
    picoquic_incoming_packet fuel quic bytes length addr_from addr_to
      if_index_to current_time new_context_created
    = Done (0, quic', bytes', n', walked) /\
    forall (k : nat) (index r consumed : Z),
      walked !! k = Some (index, r, consumed) -> r <> 0 ->
      walked !! S k = None.
Proof.
  intros Hzero Hlen Hfuel.
  pose proof (incoming_packet_loop_terminates length addr_from addr_to
                if_index_to current_time Hzero (proj2 Hlen) fuel quic bytes 0
                picoquic_null_connection_id new_context_created 0 []
                ltac:(lia) ltac:(rewrite Z.sub_0_r; exact Hfuel)) as Hfree.
  unfold picoquic_incoming_packet.
  destruct (incoming_packet_loop _ _ _ _ _ _ _ _ _ _ _ _ _)
    as [[[[[r q] b] n] w]| |] eqn:Hrun.
  - right. apply incoming_packet_loop_walk in Hrun.
    destruct Hrun as (new & -> & Hchain & Hr). cbn [app].
    assert (r = 0) as -> by (destruct Hr; assumption).
    exists q, b, n, new. split; [reflexivity|].
    exact (walk_chain_error_is_last _ _ _ Hchain).
  - left. reflexivity.
  - exfalso. apply Hfree. reflexivity.
Qed.

End Termination.

(** The witness of [incoming_packet_returns_zero]: a datagram of 36 bytes
    from [peer], made of a Handshake packet in 29 bytes, which the
    connection accepts, and of a long header of an unknown version in 7,
    to which a Version Negotiation answers.  No null pointer is
    dereferenced, and both segments are processed. *)
Lemma incoming_packet_returns_zero_witness :
  (picoquic_incoming_packet 36 Example.quic_one
     (Example.handshake_segment ++ Example.unknown_version_segment) 36
     Example.peer Example.here 0 0 0 = Fault \/
   exists (quic' : picoquic_quic_t) (bytes' : list Z) (n' : Z)
          (walked : list (Z * Z * Z)),
     picoquic_incoming_packet 36 Example.quic_one
       (Example.handshake_segment ++ Example.unknown_version_segment) 36
       Example.peer Example.here 0 0 0
     = Done (0, quic', bytes', n', walked) /\
     forall (k : nat) (index r consumed : Z),
       walked !! k = Some (index, r, consumed) -> r <> 0 ->
       walked !! S k = None) /\
  picoquic_incoming_packet 36 Example.quic_one
    (Example.handshake_segment ++ Example.unknown_version_segment) 36
    Example.peer Example.here 0 0 0 <> Fault.
Proof.
  split.
  - apply (incoming_packet_returns_zero Example.quic_one
             (Example.handshake_segment ++ Example.unknown_version_segment) 36
             Example.peer Example.here 0 0 0 36).
    + reflexivity.
    + vm_compute. split; discriminate.
    + vm_compute. repeat constructor.
  - vm_compute. discriminate.
Defined.

(** ** Coalesced segments, fed together or apart *)






Section Coalescing.

Context `{!picoquic_externals}.

(** *** The buffer does not shrink *)









(** *** What a segment does not depend on *)



(** *** The walk from the middle of a datagram *)






End Coalescing.



(** ** More of the dispatcher *)

(** The record of a walk that advances: every call is made inside the
    datagram, and a call that is not the last one returned 0, consumed at
    least one byte, and is followed by a call at the index it reached. *)
Fixpoint walk_advances (length from : Z) (walked : list (Z * Z * Z)) : Prop :=
  match walked with
  | [] => True
  | (index, ret, consumed) :: rest =>
      index = from /\ from < length /\
      (rest = [] \/
       (ret = 0 /\ 1 <= consumed /\
        walk_advances length (from + consumed) rest))
  end.

Section Dispatcher.

Context `{!picoquic_externals}.

(** [picoquic_parse_header_and_decrypt] returns 0, -1 or one of five
    error codes. *)
Lemma parse_header_and_decrypt_codes (quic : picoquic_quic_t)
    (bytes : list Z) (length packet_length : Z) (addr_from : sockaddr)
    (current_time consumed ret : Z) (quic1 : picoquic_quic_t)
    (bytes1 : list Z) (ph : picoquic_packet_header) (cnx : option nat)
    (consumed1 ncc1 : Z) :
  picoquic_parse_header_and_decrypt quic bytes length packet_length addr_from
    current_time None consumed 0
  = Done (ret, quic1, bytes1, ph, cnx, consumed1, ncc1) ->
  parse_and_decrypt_code ret.
Proof.
  intros Hrun. unfold picoquic_parse_header_and_decrypt in Hrun.
  unfold parse_and_decrypt_code.
  destruct (picoquic_parse_packet_header _ _ _ _ _ _)
    as [[[ret0 ph0] pcnx0]| |] eqn:Hparse;
    cbn [mbind outcome_bind] in Hrun; try discriminate.
  apply parse_packet_header_ret in Hparse.
  destruct Hparse as [->| ->].
  2:{ change (negb (-1 =? 0)) with true in Hrun. cbv iota in Hrun.
      injection Hrun as <- _ _ _ _ _ _. auto. }
  change (negb (0 =? 0)) with false in Hrun. cbv iota zeta in Hrun.
  destruct (if bool_decide (ph_ptype ph0 = picoquic_packet_initial)
            then _ else _) as [[[[ra qa] pa] na]| |] eqn:Hadmit;
    cbn [mbind outcome_bind] in Hrun; try discriminate.
  assert (Hra : ra = 0 \/ ra = PICOQUIC_ERROR_INITIAL_TOO_SHORT).
  { destruct (bool_decide (ph_ptype ph0 = picoquic_packet_initial)).
    - apply admit_initial_cases in Hadmit. apply Hadmit.
    - injection Hadmit as <- _ _ _. auto. }
  destruct pa as [h|].
  - destruct (deref_cnx _ _) as [c| |]; cbn [mbind outcome_bind] in Hrun;
      try discriminate.
    destruct (decrypt_by_type _ _ _ _ _ _ _)
      as [[[[[[[r1 d] b1] ph1] a1] l1] c1]| |] eqn:Hd;
      cbn [mbind outcome_bind] in Hrun; try discriminate.
    apply decrypt_by_type_ret in Hd.
    repeat case_hyp Hrun; injection Hrun as <- _ _ _ _ _ _;
      intuition (subst; auto 10).
  - destruct (_ || _).
    + destruct (detect_stateless_reset _ _ _ _ _) as [[r2 p2]| |] eqn:Hsr;
        cbn [mbind outcome_bind] in Hrun; try discriminate.
      apply detect_stateless_reset_ret in Hsr.
      injection Hrun as <- _ _ _ _ _ _. intuition (subst; auto 10).
    + injection Hrun as <- _ _ _ _ _ _. intuition (subst; auto 10).
Qed.

(** The four codes for which neither a handler nor the bookkeeping of
    duplicates is run. *)
Lemma conclude_segment_dropped (quic : picoquic_quic_t) (cnx : option nat)
    (ph : picoquic_packet_header) (current_time ret : Z) :
  ret = -1 \/ ret = PICOQUIC_ERROR_INITIAL_TOO_SHORT \/
  ret = PICOQUIC_ERROR_DETECTED \/ ret = PICOQUIC_ERROR_AEAD_CHECK ->
  conclude_segment quic cnx ph current_time ret = Done (-1, quic).
Proof. intros [->|[->|[->| ->]]]; reflexivity. Qed.

(** A segment that [picoquic_parse_header_and_decrypt] refuses, for any
    reason but a duplicate or a stateless reset, is dropped in silence:
    no handler is called, the endpoint is the one the parser left but for
    a pending plugin negotiation of the connection that was found, the
    destination id of the previous segment stays, and the code is -1
    whatever the reason was. *)
Theorem incoming_segment_drops_errors (quic : picoquic_quic_t)
    (bytes : list Z) (length packet_length consumed : Z)
    (addr_from addr_to : sockaddr) (if_index_to current_time : Z)
    (previous_dest_id : picoquic_connection_id_t) (ret : Z)
    (quic1 : picoquic_quic_t) (bytes1 : list Z) (ph : picoquic_packet_header)
    (cnx : option nat) (consumed1 ncc1 : Z) :
  picoquic_parse_header_and_decrypt quic bytes length packet_length addr_from
    current_time None consumed 0
  = Done (ret, quic1, bytes1, ph, cnx, consumed1, ncc1) ->
  ret <> 0 -> ret <> PICOQUIC_ERROR_DUPLICATE ->
  ret <> PICOQUIC_ERROR_STATELESS_RESET ->
  picoquic_incoming_segment quic bytes length packet_length consumed
    addr_from addr_to if_index_to current_time previous_dest_id
  = (quic' ← negotiate_plugins quic1 cnx;
     Done (-1, quic', bytes1, consumed1, previous_dest_id, ncc1)).
Proof.
  intros Hphd H0 Hdup Hreset.
  pose proof (parse_header_and_decrypt_codes _ _ _ _ _ _ _ _ _ _ _ _ _ _ Hphd)
    as Hcode.
  unfold picoquic_incoming_segment. cbv zeta. rewrite Hphd.
  cbn [mbind outcome_bind].
  rewrite process_segment_error by assumption. cbn [mbind outcome_bind].
  rewrite conclude_segment_dropped
    by (unfold parse_and_decrypt_code in Hcode; intuition congruence).
  cbn [mbind outcome_bind].
  rewrite (proj2 (Z.eqb_neq ret 0) H0). reflexivity.
Qed.

(** *** A first byte without the fixed bit *)

(** A datagram whose first byte does not have the bit 0x40 is walked in one
    step: the segment is taken for the whole datagram, it is refused, and
    the endpoint and the buffer are what they were. *)
Theorem fixed_bit_clear_is_dropped (fuel : nat) (quic : picoquic_quic_t)
    (bytes : list Z) (length : Z) (addr_from addr_to : sockaddr)
    (if_index_to current_time new_context_created : Z) :
  0 < length < 2 ^ 32 ->
  Z.land (byte_at bytes 0) 0x40 <> 0x40 ->
  picoquic_incoming_packet (S fuel) quic bytes length addr_from addr_to
    if_index_to current_time new_context_created
  = Done (0, quic, bytes, 0, [(0, -1, length)]).
Proof.
  intros Hlen Hbit. change (2 ^ 32) with 4294967296 in Hlen.
  unfold picoquic_incoming_packet. cbn [incoming_packet_loop].
  rewrite (proj2 (Z.ltb_lt 0 length)) by lia. cbv zeta.
  replace (advance bytes 0) with bytes by reflexivity.
  rewrite Z.sub_0_r, u32_small by lia.
  unfold picoquic_incoming_segment, picoquic_parse_header_and_decrypt,
    picoquic_parse_packet_header.
  rewrite (proj2 (Z.eqb_neq length 0)) by lia.
  rewrite (proj2 (Z.eqb_neq _ _) Hbit).
  cbn. rewrite Z.add_0_r, u32_small by lia. reflexivity.
Qed.

(** *** The plugin negotiation *)

(** The plugin negotiation at the end of [picoquic_incoming_segment] runs
    once: on the endpoint it leaves, it has nothing more to do. *)
Theorem negotiate_plugins_once (quic quic' : picoquic_quic_t)
    (cnx : option nat) :
  negotiate_plugins quic cnx = Done quic' ->
  negotiate_plugins quic' cnx = Done quic'.
Proof.
  intros Hrun. unfold negotiate_plugins in *.
  destruct cnx as [h|]; [|injection Hrun as <-; reflexivity].
  destruct (cnx_table quic !! h) as [c|] eqn:Hc;
    cbn [deref mbind outcome_bind] in Hrun; [|discriminate].
  destruct ((processed_transport_parameter c =? 0)
            && negb (remote_parameters_received c =? 0)) eqn:Hdue.
  - unfold update_cnx in Hrun.
    destruct (cnx_table (picoquic_handle_plugin_negotiation quic h) !! h)
      as [c'|] eqn:Hc'; cbn [deref mbind outcome_bind] in Hrun;
      [|discriminate].
    injection Hrun as <-. cbn. rewrite lookup_insert_eq. reflexivity.
  - injection Hrun as <-. rewrite Hc. cbn [deref mbind outcome_bind].
    rewrite Hdue. reflexivity.
Qed.

(** *** The walk advances *)

Lemma incoming_packet_loop_advances (length : Z)
    (addr_from addr_to : sockaddr) (if_index_to current_time : Z) :
  packet_type_zero = picoquic_packet_error ->
  length <= 2 ^ 32 - 2 ^ 17 ->
  forall (fuel : nat) (quic : picoquic_quic_t) (bytes : list Z)
         (consumed_index : Z) (previous_destid : picoquic_connection_id_t)
         (new_context_created ret : Z) (walked0 : list (Z * Z * Z)) (r : Z)
         (quic' : picoquic_quic_t) (bytes' : list Z) (n' : Z)
         (walked : list (Z * Z * Z)),
  0 <= consumed_index ->
  incoming_packet_loop fuel quic bytes length consumed_index addr_from addr_to
    if_index_to current_time previous_destid new_context_created ret walked0
  = Done (r, quic', bytes', n', walked) ->
  exists new, walked = walked0 ++ new /\
              walk_advances length consumed_index new.
Proof.
  intros Hzero Hlen. change (2 ^ 32 - 2 ^ 17) with 4294836224 in Hlen.
  induction fuel as [|fuel IH]; intros quic bytes ci pd ncc ret walked0 r quic'
    bytes' n' walked Hci Hrun; cbn [incoming_packet_loop] in Hrun.
  - destruct (ci <? length); [discriminate|].
    injection Hrun as _ _ _ _ <-. exists []. rewrite app_nil_r.
    split; [reflexivity|exact I].
  - destruct (Z.ltb_spec ci length) as [Hlt|Hge].
    + destruct (picoquic_incoming_segment _ _ _ _ _ _ _ _ _ _)
        as [[[[[[rs qs] bs] cs] ps] ns]| |] eqn:Hseg;
        cbn [mbind outcome_bind] in Hrun; try discriminate.
      destruct (Z.eqb_spec rs 0) as [->|Hrs].
      * rewrite u32_small in Hseg by lia.
        apply incoming_segment_progress in Hseg;
          [|exact Hzero|change (2 ^ 32 - 2 ^ 17) with 4294836224; lia].
        change (2 ^ 17) with 131072 in Hseg.
        rewrite u32_small in Hrun by lia.
        apply IH in Hrun; [|lia].
        destruct Hrun as (new & -> & Hadv).
        exists ((ci, 0, cs) :: new). rewrite <- app_assoc.
        split; [reflexivity|]. cbn [walk_advances].
        split; [reflexivity|]. split; [exact Hlt|]. right.
        split; [reflexivity|]. split; [lia|exact Hadv].
      * injection Hrun as _ _ _ _ <-. exists [(ci, rs, cs)].
        split; [reflexivity|]. cbn [walk_advances]. auto.
    + injection Hrun as _ _ _ _ <-. exists []. rewrite app_nil_r.
      split; [reflexivity|exact I].
Qed.

Lemma walk_advances_count (length : Z) (walked : list (Z * Z * Z)) :
  forall from, walk_advances length from walked ->
  Z.of_nat (List.length walked) <= Z.max 0 (length - from).
Proof.
  induction walked as [|[[i r] c] rest IH]; intros from Hadv; [cbn; lia|].
  cbn [walk_advances] in Hadv. destruct Hadv as (_ & Hlt & [->|(_ & Hc & Hrest)]).
  - cbn. lia.
  - specialize (IH _ Hrest). cbn [List.length]. lia.
Qed.

Lemma walk_advances_next (length : Z) (walked : list (Z * Z * Z)) :
  forall from, walk_advances length from walked ->
  forall (k : nat) (i1 r1 c1 i2 r2 c2 : Z),
    walked !! k = Some (i1, r1, c1) -> walked !! S k = Some (i2, r2, c2) ->
    r1 = 0 /\ 1 <= c1 /\ i2 = i1 + c1.
Proof.
  induction walked as [|[[i r] c] rest IH]; intros from Hadv k i1 r1 c1 i2 r2
    c2 H1 H2; [discriminate H1|].
  cbn [walk_advances] in Hadv.
  destruct Hadv as (-> & Hlt & [->|(-> & Hc & Hrest)]); [discriminate H2|].
  destruct k as [|k].
  - injection H1 as <- <- <-. destruct rest as [|[[i' r'] c'] rest'];
      [discriminate H2|]. injection H2 as <- <- <-.
    cbn [walk_advances] in Hrest. destruct Hrest as (-> & _).
    auto.
  - exact (IH _ Hrest k i1 r1 c1 i2 r2 c2 H1 H2).
Qed.

(** A datagram of [length] bytes is walked in at most [length] calls of
    [picoquic_incoming_segment], and each call but the last returned 0,
    consumed at least one byte, and is followed by a call at the index it
    reached. *)
Theorem walk_is_bounded (fuel : nat) (quic : picoquic_quic_t)
    (bytes : list Z) (length : Z) (addr_from addr_to : sockaddr)
    (if_index_to current_time new_context_created : Z)
    (ret : Z) (quic' : picoquic_quic_t) (bytes' : list Z) (n' : Z)
    (walked : list (Z * Z * Z)) :
  packet_type_zero = picoquic_packet_error ->
  0 <= length <= 2 ^ 32 - 2 ^ 17 ->
  picoquic_incoming_packet fuel quic bytes length addr_from addr_to if_index_to
    current_time new_context_created
  = Done (ret, quic', bytes', n', walked) ->
  Z.of_nat (List.length walked) <= length /\
  forall (k : nat) (i1 r1 c1 i2 r2 c2 : Z),
    walked !! k = Some (i1, r1, c1) -> walked !! S k = Some (i2, r2, c2) ->
    r1 = 0 /\ 1 <= c1 /\ i2 = i1 + c1.
Proof.
  intros Hzero Hlen Hrun. unfold picoquic_incoming_packet in Hrun.
  apply incoming_packet_loop_advances in Hrun;
    [|exact Hzero|apply Hlen|lia].
  destruct Hrun as (new & -> & Hadv). cbn [app]. split.
  - pose proof (walk_advances_count _ _ _ Hadv). lia.
  - exact (walk_advances_next _ _ _ Hadv).
Qed.

(** *** What the removal of the header protection writes *)

Lemma byte_at_store_byte_ne (bytes : list Z) (i j v : Z) :
  0 <= i -> 0 <= j -> i <> j ->
  byte_at (store_byte bytes i v) j = byte_at bytes j.
Proof.
  intros Hi Hj Hne. unfold byte_at, store_byte. rewrite !nth_lookup.
  rewrite list_lookup_insert_ne by lia. reflexivity.
Qed.

Lemma pn_decode_loop_untouched (mask : list Z) (n : nat) :
  forall (i : Z) (bytes : list Z) (ph : picoquic_packet_header)
         (pn_val j : Z),
  0 <= ph_offset ph -> ph_offset ph + Z.of_nat n < 4294967296 ->
  0 <= j -> j < ph_offset ph \/ ph_offset ph + Z.of_nat n <= j ->
  byte_at (pn_decode_loop mask n i bytes ph pn_val).1.1 j = byte_at bytes j.
Proof.
  induction n as [|n IH]; intros i bytes ph pn_val j Ho Hn Hj Hout;
    [reflexivity|].
  cbn [pn_decode_loop]. cbv zeta. rewrite IH.
  - apply byte_at_store_byte_ne; lia.
  - cbn. rewrite u32_small; lia.
  - cbn. rewrite u32_small; lia.
  - exact Hj.
  - cbn. rewrite u32_small; lia.
Qed.

(** Removing the header protection writes the first byte of the packet
    and the bytes of the packet number, at most four from the end of the
    header on, and no other byte. *)
Theorem header_protection_touches_only_pn (bytes : list Z) (length : Z)
    (ph : picoquic_packet_header) (hp_enc : option Z) (j : Z) :
  0 <= ph_offset ph < 2 ^ 32 - 4 ->
  0 < j -> j < ph_offset ph \/ ph_offset ph + 4 <= j ->
  byte_at (remove_header_protection bytes length ph hp_enc).1 j
  = byte_at bytes j.
Proof.
  intros Ho Hj Hout. change (2 ^ 32 - 4) with 4294967292 in Ho.
  unfold remove_header_protection.
  destruct hp_enc as [hp|]; [|reflexivity].
  destruct (_ >? length); [reflexivity|]. cbv zeta.
  set (pn_l := u8 (Z.land (unmasked_first_byte hp bytes ph) 3 + 1)).
  assert (Hpn : 1 <= pn_l <= 4).
  { subst pn_l. pose proof (land_3_bounds (unmasked_first_byte hp bytes ph)).
    unfold u8. rewrite Z.mod_small; lia. }
  pose proof (pn_decode_loop_untouched (hp_mask hp bytes ph) (Z.to_nat pn_l) 1
                (store_byte bytes 0 (unmasked_first_byte hp bytes ph))
                (set_ph_pnmask 18446744073709551615 ph) 0 j) as Hsame.
  cbn [ph_offset set_ph_pnmask] in Hsame.
  destruct (pn_decode_loop _ _ _ _ _ _) as [[b1 ph1] pn_val].
  cbn [fst snd] in *. rewrite Hsame by lia.
  apply byte_at_store_byte_ne; lia.
Qed.

(** *** Packets other than Initial *)

Lemma decrypt_by_type_consumed (cnx : picoquic_cnx_t) (bytes : list Z)
    (length packet_length : Z) (ph : picoquic_packet_header)
    (ret consumed r1 d : Z) (b1 : list Z) (ph1 : picoquic_packet_header)
    (a1 l1 c1 : Z) :
  ph_ptype ph <> picoquic_packet_initial ->
  decrypt_by_type cnx bytes length packet_length ph ret consumed
    = Done (r1, d, b1, ph1, a1, l1, c1) ->
  c1 = consumed.
Proof.
  intros Hty Hrun. unfold decrypt_by_type in Hrun.
  destruct (picoquic_get_incoming_path cnx ph) as [pf| |];
    cbn [mbind outcome_bind] in Hrun; try discriminate.
  destruct (ph_ptype ph); try congruence;
    try (injection Hrun as _ _ _ _ _ _ <-; reflexivity);
    destruct (picoquic_decrypt_packet _ _ _ _ _ _ _ _)
      as [[[[d' b'] ph'] a']| |];
    cbn [mbind outcome_bind] in Hrun; try discriminate;
    injection Hrun as _ _ _ _ _ _ <-; reflexivity.
Qed.

(** For a packet that is not an Initial, [picoquic_parse_header_and_decrypt]
    creates no connection, and leaves in [*consumed] where the header
    parser saw the end of the payload; without connection, the header is
    the one the parser made. *)
Lemma parse_header_and_decrypt_not_initial (quic : picoquic_quic_t)
    (bytes : list Z) (length packet_length : Z) (addr_from : sockaddr)
    (current_time consumed ret : Z) (quic1 : picoquic_quic_t)
    (bytes1 : list Z) (ph0 ph : picoquic_packet_header)
    (pcnx0 cnx : option nat) (consumed1 ncc1 : Z) :
  picoquic_parse_packet_header (Some quic) bytes length addr_from None 1
    = Done (0, ph0, pcnx0) ->
  ph_ptype ph0 <> picoquic_packet_initial ->
  picoquic_parse_header_and_decrypt quic bytes length packet_length addr_from
    current_time None consumed 0
  = Done (ret, quic1, bytes1, ph, cnx, consumed1, ncc1) ->
  consumed1 = u32 (ph_offset ph0 + ph_payload_length ph0) /\
  quic1 = quic /\ ncc1 = 0 /\
  (pcnx0 <> None -> cnx = pcnx0) /\
  (cnx = None -> pcnx0 = None /\ ph = ph0) /\
  (pcnx0 = None -> cnx = None \/ ret = PICOQUIC_ERROR_STATELESS_RESET).
Proof.
  intros Hparse Hty Hrun. unfold picoquic_parse_header_and_decrypt in Hrun.
  rewrite Hparse in Hrun. cbn [mbind outcome_bind] in Hrun.
  change (negb (0 =? 0)) with false in Hrun. cbv iota zeta in Hrun.
  rewrite (bool_decide_false_eq _ _ Hty) in Hrun.
  cbn [mbind outcome_bind] in Hrun.
  destruct pcnx0 as [h|].
  - destruct (deref_cnx _ _) as [c| |]; cbn [mbind outcome_bind] in Hrun;
      try discriminate.
    destruct (decrypt_by_type _ _ _ _ _ _ _)
      as [[[[[[[r1 d] b1] ph1] a1] l1] c1]| |] eqn:Hd;
      cbn [mbind outcome_bind] in Hrun; try discriminate.
    apply decrypt_by_type_consumed in Hd; [|exact Hty]. subst c1.
    change (negb (0 =? 0)) with false in Hrun. cbv iota in Hrun.
    destruct (d >? u32 (l1 - ph_offset ph1));
      [|destruct (negb (a1 =? 0))];
      injection Hrun as _ <- _ _ <- <- <-;
      repeat split; auto; discriminate.
  - destruct (_ || _).
    + destruct (detect_stateless_reset _ _ _ _ _) as [[r2 p2]| |] eqn:Hsr;
        cbn [mbind outcome_bind] in Hrun; try discriminate.
      apply detect_stateless_reset_ret in Hsr.
      injection Hrun as <- <- _ <- <- <- <-.
      destruct Hsr as [(-> & ->)|(-> & _ & Hn)]; repeat split; auto;
        intros; congruence.
    + injection Hrun as _ <- _ <- <- <- <-. repeat split; auto.
Qed.

(** A segment without connection is accepted only for a version that is
    not zero and not supported. *)
Lemma process_segment_accepts_unknown (quic : picoquic_quic_t)
    (bytes : list Z) (length consumed : Z) (addr_from addr_to : sockaddr)
    (if_index_to : Z) (ph : picoquic_packet_header)
    (current_time new_context_created r2 : Z) (quic2 : picoquic_quic_t)
    (cnx2 : option nat) :
  process_segment quic None bytes length consumed addr_from addr_to if_index_to
    ph current_time new_context_created 0 = Done (r2, quic2, cnx2) ->
  r2 = 0 \/ r2 = PICOQUIC_ERROR_SPURIOUS_REPEAT ->
  ph_version_index ph < 0 /\ ph_vn ph <> 0.
Proof.
  intros Hrun Hr2. unfold process_segment in Hrun.
  change (0 =? 0) with true in Hrun. cbv iota in Hrun.
  destruct (ph_version_index ph <? 0) eqn:Hvi;
    destruct (ph_vn ph =? 0) eqn:Hvn; cbn [andb negb] in Hrun;
    try (injection Hrun as <- _ _; destruct Hr2 as [Hr2|Hr2];
         discriminate Hr2).
  split; [apply Z.ltb_lt; exact Hvi|apply Z.eqb_neq; exact Hvn].
Qed.

(** What the parser makes of a short header. *)
Lemma parse_short_header_end (quic : picoquic_quic_t) (bytes : list Z)
    (length : Z) (addr_from : sockaddr) (ph : picoquic_packet_header)
    (pcnx : option nat) :
  packet_type_zero = picoquic_packet_error ->
  0 < length < 65536 ->
  parse_short_header (Some quic) bytes length addr_from
    (set_ph_version_index (-1) ph_memset_zero) None 1 = Done (0, ph, pcnx) ->
  ph_ptype ph <> picoquic_packet_initial /\ ph_vn ph = 0 /\
  (pcnx <> None -> ph_offset ph + ph_payload_length ph = length).
Proof.
  intros Hzero Hlen Hrun.
  unfold parse_short_header in Hrun.
  change (1 =? 0) with false in Hrun. cbn [andb mbind outcome_bind] in Hrun.
  pose proof (u8_range (local_ctx_length quic)) as Hl.
  destruct (s32 length >=? 1 + _).
  - pose proof (parse_connection_id_advance (advance bytes 1)
                  (u8 (local_ctx_length quic)) ltac:(lia)) as Hn.
    destruct (picoquic_parse_connection_id _ _) as [n cid].
    cbv zeta in Hn. cbn [fst snd] in Hn. destruct Hn as (Hn & _ & _).
    cbn [ph_offset set_ph_offset set_ph_dest_cnx_id] in Hrun.
    rewrite (u32_small (1 + n)) in Hrun by lia.
    destruct (if _ >? 0 then _ else _) as [h|].
    + destruct (deref_cnx (Some quic) (Some h)) as [c| |];
        cbn [mbind outcome_bind] in Hrun; try discriminate.
      destruct (length <? _) eqn:Hlt; [discriminate|].
      injection Hrun as <- <-. apply Z.ltb_ge in Hlt.
      destruct (version_header_encoding _); cbn in *; rewrite ?Hzero;
        (split; [discriminate|]); (split; [reflexivity|]); intros _;
        rewrite u16_small; lia.
    + injection Hrun as <- <-. cbn -[remaining16]. rewrite Hzero.
      split; [discriminate|]. split; [reflexivity|]. intros Hn'.
      contradiction.
  - injection Hrun as <- <-. cbn. split; [discriminate|].
    split; [reflexivity|]. intros Hn'. contradiction.
Qed.

(** A short-header packet that is accepted reaches the end of the
    datagram: the segment that [picoquic_incoming_segment] consumes is all
    that was left, so that no segment can follow a short header. *)
Theorem short_header_segment_is_last (quic : picoquic_quic_t)
    (bytes : list Z) (length packet_length consumed : Z)
    (addr_from addr_to : sockaddr) (if_index_to current_time : Z)
    (previous_dest_id : picoquic_connection_id_t)
    (quic' : picoquic_quic_t) (bytes' : list Z) (consumed' : Z)
    (previous_dest_id' : picoquic_connection_id_t) (ncc' : Z) :
  packet_type_zero = picoquic_packet_error ->
  0 < length < 65536 ->
  Z.land (byte_at bytes 0) 0x80 <> 0x80 ->
  picoquic_incoming_segment quic bytes length packet_length consumed
    addr_from addr_to if_index_to current_time previous_dest_id
  = Done (0, quic', bytes', consumed', previous_dest_id', ncc') ->
  consumed' = length.
Proof.
  intros Hzero Hlen Hshort Hrun. unfold picoquic_incoming_segment in Hrun.
  cbv zeta in Hrun.
  destruct (picoquic_parse_header_and_decrypt _ _ _ _ _ _ _ _ _)
    as [[[[[[[r1 q1] b1] ph] c1] cons] ncc]| |] eqn:Hphd;
    cbn [mbind outcome_bind] in Hrun; try discriminate.
  destruct (process_segment _ _ _ _ _ _ _ _ _ _ _ _)
    as [[[r2 q2] c2]| |] eqn:Hps;
    cbn [mbind outcome_bind] in Hrun; try discriminate.
  destruct (conclude_segment _ _ _ _ _) as [[r3 q3]| |] eqn:Hcs;
    cbn [mbind outcome_bind] in Hrun; try discriminate.
  destruct (negotiate_plugins _ _) as [q4| |];
    cbn [mbind outcome_bind] in Hrun; try discriminate.
  injection Hrun as -> _ _ <- _ _.
  apply conclude_segment_zero in Hcs.
  pose proof (parse_header_and_decrypt_codes _ _ _ _ _ _ _ _ _ _ _ _ _ _ Hphd)
    as Hcode.
  destruct (process_segment_accepts _ _ _ _ _ _ _ _ _ _ _ _ _ _ _ Hcode Hps
              Hcs) as (-> & _).
  destruct (picoquic_parse_packet_header (Some quic) bytes length addr_from
              None 1) as [[[ret0 ph0] pcnx0]| |] eqn:Hparse.
  2,3: unfold picoquic_parse_header_and_decrypt in Hphd;
    rewrite Hparse in Hphd; discriminate Hphd.
  assert (ret0 = 0) as ->.
  { unfold picoquic_parse_header_and_decrypt in Hphd. rewrite Hparse in Hphd.
    cbn [mbind outcome_bind] in Hphd.
    destruct (Z.eqb_spec ret0 0) as [->|Hne]; [reflexivity|].
    cbn [negb] in Hphd. injection Hphd as Hr _ _ _ _ _ _. contradiction. }
  assert (Hend : ph_ptype ph0 <> picoquic_packet_initial /\
                 (pcnx0 = None -> ph_vn ph0 = 0) /\
                 (pcnx0 <> None ->
                  ph_offset ph0 + ph_payload_length ph0 = length)).
  { pose proof Hparse as Hp. unfold picoquic_parse_packet_header in Hp.
    rewrite (proj2 (Z.eqb_neq length 0)) in Hp by lia.
    destruct (negb _).
    - injection Hp as <- <-. cbn. split; [discriminate|].
      split; [reflexivity|]. intros Hn. contradiction.
    - rewrite (proj2 (Z.eqb_neq _ _) Hshort) in Hp.
      apply parse_short_header_end in Hp; [|exact Hzero|exact Hlen].
      destruct Hp as (H1 & H2 & H3). auto. }
  destruct Hend as (Hty & Hvn & Hlast).
  destruct (parse_header_and_decrypt_not_initial _ _ _ _ _ _ _ _ _ _ _ _ _ _
              _ _ Hparse Hty Hphd) as (-> & _ & _ & Hsome & Hnone & Hreset).
  destruct c1 as [h|].
  - destruct pcnx0 as [h0|].
    + rewrite Hlast by discriminate. apply u32_small. lia.
    + exfalso. destruct (Hreset eq_refl) as [Hn|Hr]; discriminate.
  - exfalso. destruct (Hnone eq_refl) as (-> & ->).
    apply process_segment_accepts_unknown in Hps; [|exact Hcs].
    destruct Hps as (_ & Hvn'). apply Hvn'. apply Hvn. reflexivity.
Qed.

(** *** A version that is not supported *)

(** What the parser makes of a long header whose version is neither zero
    nor supported. *)
Lemma parse_long_header_unknown_version (quic : picoquic_quic_t)
    (bytes : list Z) (length : Z) (addr_from : sockaddr) :
  packet_type_zero = picoquic_packet_error ->
  7 <= length < 65536 ->
  6 + byte_at bytes 5 + 1 <= length ->
  PICOPARSE_32 (advance bytes 1) <> 0 ->
  picoquic_get_version_index (PICOPARSE_32 (advance bytes 1)) < 0 ->
  exists ph,
    parse_long_header (Some quic) bytes length addr_from
      (set_ph_version_index (-1) ph_memset_zero) None = Done (0, ph, None) /\
    ph_vn ph = PICOPARSE_32 (advance bytes 1) /\
    ph_version_index ph < 0 /\
    ph_ptype ph = picoquic_packet_error /\
    ph_dest_cnx_id ph
    = (picoquic_parse_connection_id (advance bytes 6) (byte_at bytes 5)).2 /\
    7 <= ph_offset ph <= 47 /\
    ph_offset ph + ph_payload_length ph = Z.max length (ph_offset ph).
Proof.
  intros Hzero Hlen Hdest Hvn Hvi. unfold parse_long_header.
  rewrite (proj2 (Z.ltb_ge length 7)) by lia.
  rewrite s32_small by lia. rewrite gtb_false by lia.
  cbn [ph_offset set_ph_offset set_ph_vn set_ph_dest_cnx_id].
  pose proof (byte_at_range bytes 5) as Hb5.
  pose proof (parse_connection_id_advance (advance bytes 6) (byte_at bytes 5)
                ltac:(lia)) as Hn1.
  destruct (picoquic_parse_connection_id (advance bytes 6) (byte_at bytes 5))
    as [n1 cid1]. cbv zeta in Hn1. cbn [fst snd] in Hn1.
  destruct Hn1 as (Hn1 & _ & _).
  rewrite (u32_small (6 + n1)) by lia.
  cbn [ph_offset set_ph_offset set_ph_vn set_ph_dest_cnx_id].
  rewrite (u32_small (6 + n1 + 1)) by lia.
  pose proof (byte_at_range bytes (6 + n1)) as Hbs.
  pose proof (parse_connection_id_advance (advance bytes (6 + n1 + 1))
                (byte_at bytes (6 + n1)) ltac:(lia)) as Hn2.
  destruct (picoquic_parse_connection_id (advance bytes (6 + n1 + 1))
              (byte_at bytes (6 + n1))) as [n2 cid2].
  cbv zeta in Hn2. cbn [fst snd] in Hn2. destruct Hn2 as (Hn2 & _ & _).
  cbn [ph_offset set_ph_offset set_ph_srce_cnx_id].
  rewrite (u32_small (6 + n1 + 1 + n2)) by lia.
  cbn [ph_vn set_ph_spin set_ph_has_spin_bit set_ph_offset set_ph_srce_cnx_id
       set_ph_dest_cnx_id set_ph_vn set_ph_version_index ph_memset_zero].
  rewrite (proj2 (Z.eqb_neq _ 0) Hvn).
  cbn [ph_version_index set_ph_version_index].
  assert (Hge : (picoquic_get_version_index (PICOPARSE_32 (advance bytes 1))
                 >=? 0) = false).
  { rewrite Z.geb_leb. apply Z.leb_gt. exact Hvi. }
  rewrite Hge.
  match goal with
  | |- context [long_header_payload_length bytes length ?r] => set (ph2 := r)
  end.
  assert (Ho2 : ph_offset ph2 = 6 + n1 + 1 + n2) by reflexivity.
  assert (Ht2 : ph_ptype ph2 = picoquic_packet_error) by exact Hzero.
  assert (Hv2 : ph_version_index ph2
                = picoquic_get_version_index (PICOPARSE_32 (advance bytes 1)))
    by reflexivity.
  assert (Hvn2 : ph_vn ph2 = PICOPARSE_32 (advance bytes 1)) by reflexivity.
  assert (Hd2 : ph_dest_cnx_id ph2 = cid1) by reflexivity.
  clearbody ph2. unfold long_header_payload_length.
  rewrite Ht2.
  rewrite (bool_decide_false_eq picoquic_packet_error picoquic_packet_retry)
    by discriminate.
  rewrite Hv2, (proj2 (Z.ltb_lt _ 0) Hvi).
  destruct (if ph_offset ph2 <? length then _ else _) as [vl pl].
  rewrite orb_true_r.
  cbn [ph_ptype set_ph_ptype set_ph_payload_length].
  rewrite bool_decide_eq_false_2 by (intros Hne; apply Hne; reflexivity).
  eexists. split; [reflexivity|].
  cbn [ph_vn ph_version_index ph_ptype ph_dest_cnx_id ph_offset
       ph_payload_length set_ph_payload_length set_ph_ptype snd].
  rewrite Hvn2, Hv2, Hd2, Ho2.
  repeat split; try lia.
  unfold remaining16. cbn [ph_offset set_ph_ptype]. rewrite Ho2.
  destruct (Z.gtb_spec length (6 + n1 + 1 + n2)) as [Hgt|Hle].
  - rewrite u32_small, u16_small by lia. lia.
  - change (u16 0) with 0. lia.
Qed.

(** A long header whose version is neither zero nor supported is answered
    by a Version Negotiation: [picoquic_incoming_segment] calls
    [picoquic_prepare_version_negotiation] with the header and nothing
    else, takes the segment for all that is left of the datagram, and
    returns 0. *)
Theorem unknown_version_is_answered (quic : picoquic_quic_t)
    (bytes : list Z) (length packet_length consumed : Z)
    (addr_from addr_to : sockaddr) (if_index_to current_time : Z)
    (previous_dest_id : picoquic_connection_id_t) :
  packet_type_zero = picoquic_packet_error ->
  7 <= length < 65536 ->
  Z.land (byte_at bytes 0) 0x40 = 0x40 ->
  Z.land (byte_at bytes 0) 0x80 = 0x80 ->
  6 + byte_at bytes 5 + 1 <= length ->
  PICOPARSE_32 (advance bytes 1) <> 0 ->
  picoquic_get_version_index (PICOPARSE_32 (advance bytes 1)) < 0 ->
  exists ph,
    picoquic_incoming_segment quic bytes length packet_length consumed
      addr_from addr_to if_index_to current_time previous_dest_id
    = Done (0,
            picoquic_prepare_version_negotiation quic addr_from addr_to
              if_index_to ph,
            bytes, Z.max length (ph_offset ph),
            (if picoquic_is_connection_id_null previous_dest_id
             then ph_dest_cnx_id ph else previous_dest_id), 0) /\
    ph_vn ph = PICOPARSE_32 (advance bytes 1) /\
    ph_dest_cnx_id ph
    = (picoquic_parse_connection_id (advance bytes 6) (byte_at bytes 5)).2.
Proof.
  intros Hzero Hlen Hfixed Hlong Hdest Hvn Hvi.
  destruct (parse_long_header_unknown_version quic bytes length addr_from
              Hzero Hlen Hdest Hvn Hvi)
    as (ph & Hparse & Hphvn & Hphvi & Hty & Hcid & Hoff & Hend).
  exists ph. split; [|auto].
  unfold picoquic_incoming_segment, picoquic_parse_header_and_decrypt,
    picoquic_parse_packet_header.
  rewrite (proj2 (Z.eqb_neq length 0)) by lia.
  rewrite Hfixed, Hlong. change (64 =? 64) with true.
  change (128 =? 128) with true. cbn [negb]. rewrite Hparse.
  cbn [mbind outcome_bind]. change (negb (0 =? 0)) with false. cbv iota zeta.
  rewrite Hty.
  rewrite (bool_decide_false_eq picoquic_packet_error picoquic_packet_initial)
    by discriminate.
  cbn [mbind outcome_bind].
  rewrite (bool_decide_false_eq picoquic_packet_error
             picoquic_packet_1rtt_protected_phi0) by discriminate.
  rewrite (bool_decide_false_eq picoquic_packet_error
             picoquic_packet_1rtt_protected_phi1) by discriminate.
  cbn [orb mbind outcome_bind]. unfold process_segment.
  change (0 =? 0) with true. cbn [andb]. cbv iota.
  rewrite (proj2 (Z.ltb_lt _ 0) Hphvi). rewrite Hphvn.
  rewrite (proj2 (Z.eqb_neq _ 0) Hvn). cbn [andb negb mbind outcome_bind].
  unfold conclude_segment. change (0 =? 0) with true. cbn [orb].
  cbn [mbind outcome_bind negotiate_plugins].
  rewrite Hend, u32_small by lia. reflexivity.
Qed.

(** *** A connection context created for an Initial *)

Lemma decrypt_by_type_initial_ret (cnx : picoquic_cnx_t) (bytes : list Z)
    (length packet_length : Z) (ph : picoquic_packet_header)
    (ret consumed r1 d : Z) (b1 : list Z) (ph1 : picoquic_packet_header)
    (a1 l1 c1 : Z) :
  ph_ptype ph = picoquic_packet_initial ->
  decrypt_by_type cnx bytes length packet_length ph ret consumed
    = Done (r1, d, b1, ph1, a1, l1, c1) ->
  r1 = ret.
Proof.
  intros Hty Hrun. unfold decrypt_by_type in Hrun. rewrite Hty in Hrun.
  destruct (picoquic_get_incoming_path cnx ph) as [pf| |];
    cbn [mbind outcome_bind] in Hrun; try discriminate.
  destruct (picoquic_decrypt_packet _ _ _ _ _ _ _ _)
    as [[[[d' b'] ph'] a']| |];
    cbn [mbind outcome_bind] in Hrun; try discriminate.
  injection Hrun as <- _ _ _ _ _ _. reflexivity.
Qed.

(** When [picoquic_parse_header_and_decrypt] reports that it created a
    connection context, the datagram was at least as long as the enforced
    Initial MTU, the context is the one [picoquic_create_cnx] made and it
    is handed to the caller, and the packet was decrypted: the code is 0 or
    that of a duplicate.  A context whose first packet fails the AEAD
    check is deleted before the function returns, and is not reported. *)
Theorem new_context_outlives_decryption (quic : picoquic_quic_t)
    (bytes : list Z) (length packet_length : Z) (addr_from : sockaddr)
    (current_time consumed ret : Z) (quic1 : picoquic_quic_t)
    (bytes1 : list Z) (ph : picoquic_packet_header) (cnx : option nat)
    (consumed1 ncc1 : Z) :
  picoquic_parse_header_and_decrypt quic bytes length packet_length addr_from
    current_time None consumed 0
  = Done (ret, quic1, bytes1, ph, cnx, consumed1, ncc1) ->
  ncc1 <> 0 ->
  ncc1 = 1 /\ cnx <> None /\
  (ret = 0 \/ ret = PICOQUIC_ERROR_DUPLICATE) /\
  PICOQUIC_ENFORCED_INITIAL_MTU <= packet_length /\
  exists dcid scid vn,
    picoquic_create_cnx quic dcid scid addr_from current_time vn
    = (cnx, quic1).
Proof.
  intros Hrun Hncc. unfold picoquic_parse_header_and_decrypt in Hrun.
  destruct (picoquic_parse_packet_header _ _ _ _ _ _)
    as [[[ret0 ph0] pcnx0]| |] eqn:Hparse; cbn [mbind outcome_bind] in Hrun;
    try discriminate.
  destruct (negb (ret0 =? 0));
    [injection Hrun as _ _ _ _ _ _ Hn; exfalso; apply Hncc; symmetry;
     exact Hn|].
  cbv zeta in Hrun.
  destruct (bool_decide (ph_ptype ph0 = picoquic_packet_initial)) eqn:Hinit.
  - apply bool_decide_eq_true in Hinit.
    destruct (admit_initial _ _ _ _ _ _ _) as [[[[ra qa] pa] na]| |] eqn:Ha;
      cbn [mbind outcome_bind] in Hrun; try discriminate.
    destruct (admit_initial_cases _ _ _ _ _ _ _ _ _ _ Ha)
      as (_ & [(-> & -> & ->)|(-> & -> & Hmtu & Hc & ->)]).
    + exfalso. destruct pcnx0 as [h|].
      * destruct (deref_cnx _ _) as [c| |]; cbn [mbind outcome_bind] in Hrun;
          try discriminate.
        destruct (decrypt_by_type _ _ _ _ _ _ _)
          as [[[[[[[r1 d] b1] ph1] a1] l1] c1]| |];
          cbn [mbind outcome_bind] in Hrun; try discriminate.
        change (negb (0 =? 0)) with false in Hrun. cbv iota in Hrun.
        destruct (d >? u32 (l1 - ph_offset ph1));
          [|destruct (negb (a1 =? 0))];
          injection Hrun as _ _ _ _ _ _ Hn; apply Hncc; symmetry; exact Hn.
      * destruct (_ || _).
        -- destruct (detect_stateless_reset _ _ _ _ _) as [[r2 p2]| |];
             cbn [mbind outcome_bind] in Hrun; try discriminate.
           injection Hrun as _ _ _ _ _ _ Hn. apply Hncc. symmetry. exact Hn.
        -- injection Hrun as _ _ _ _ _ _ Hn. apply Hncc. symmetry. exact Hn.
    + destruct pa as [h|].
      * rewrite bool_decide_eq_false_2 in Hrun by discriminate.
        destruct (deref_cnx _ _) as [c| |]; cbn [mbind outcome_bind] in Hrun;
          try discriminate.
        destruct (decrypt_by_type _ _ _ _ _ _ _)
          as [[[[[[[r1 d] b1] ph1] a1] l1] c1]| |] eqn:Hd;
          cbn [mbind outcome_bind] in Hrun; try discriminate.
        apply decrypt_by_type_initial_ret in Hd; [|exact Hinit]. subst r1.
        change (negb (1 =? 0)) with true in Hrun. cbv iota in Hrun.
        destruct (d >? u32 (l1 - ph_offset ph1));
          [injection Hrun as _ _ _ _ _ _ Hn; exfalso; apply Hncc; symmetry;
           exact Hn|].
        destruct (negb (a1 =? 0)); injection Hrun as <- <- _ _ <- _ <-;
          (split; [reflexivity|]); (split; [discriminate|]);
          (split; [auto|]); (split; [exact Hmtu|]);
          eexists _, _, _; exact Hc.
      * exfalso.
        rewrite (bool_decide_eq_true_2 (@None nat = None) eq_refl) in Hrun.
        destruct (_ || _).
        -- destruct (detect_stateless_reset _ _ _ _ _) as [[r2 p2]| |];
             cbn [mbind outcome_bind] in Hrun; try discriminate.
           injection Hrun as _ _ _ _ _ _ Hn. apply Hncc. symmetry. exact Hn.
        -- injection Hrun as _ _ _ _ _ _ Hn. apply Hncc. symmetry. exact Hn.
  - cbn [mbind outcome_bind] in Hrun. exfalso. destruct pcnx0 as [h|].
    + destruct (deref_cnx _ _) as [c| |]; cbn [mbind outcome_bind] in Hrun;
        try discriminate.
      destruct (decrypt_by_type _ _ _ _ _ _ _)
        as [[[[[[[r1 d] b1] ph1] a1] l1] c1]| |];
        cbn [mbind outcome_bind] in Hrun; try discriminate.
      change (negb (0 =? 0)) with false in Hrun. cbv iota in Hrun.
      destruct (d >? u32 (l1 - ph_offset ph1));
        [|destruct (negb (a1 =? 0))];
        injection Hrun as _ _ _ _ _ _ Hn; apply Hncc; symmetry; exact Hn.
    + destruct (_ || _).
      * destruct (detect_stateless_reset _ _ _ _ _) as [[r2 p2]| |];
          cbn [mbind outcome_bind] in Hrun; try discriminate.
        injection Hrun as _ _ _ _ _ _ Hn. apply Hncc. symmetry. exact Hn.
      * injection Hrun as _ _ _ _ _ _ Hn. apply Hncc. symmetry. exact Hn.
Qed.

(** *** Stateless resets *)

(** The types of the 1-RTT packets. *)
Definition is_1rtt (ptype : picoquic_packet_type_enum) : Prop :=
  ptype = picoquic_packet_1rtt_protected_phi0 \/
  ptype = picoquic_packet_1rtt_protected_phi1.

Lemma long_header_type_29_not_1rtt (bytes : list Z) (length type : Z)
    (ph : picoquic_packet_header) :
  ~ is_1rtt (ph_ptype (long_header_type_29 bytes length type ph)).
Proof.
  unfold long_header_type_29, is_1rtt.
  destruct (picoquic_varint_decode _ _) as [l v].
  repeat match goal with
         | |- context [if ?b then _ else _] => destruct b
         end; cbn; intros [Hp|Hp]; discriminate Hp.
Qed.

Lemma long_header_payload_length_not_1rtt (bytes : list Z) (length : Z)
    (ph : picoquic_packet_header) :
  ~ is_1rtt (ph_ptype ph) ->
  ~ is_1rtt (ph_ptype (long_header_payload_length bytes length ph).1.1).
Proof.
  intros Hph. unfold long_header_payload_length, is_1rtt.
  destruct (bool_decide _).
  - destruct (_ >? _); cbn; [exact Hph|intros [Hp|Hp]; discriminate Hp].
  - destruct (if ph_offset ph <? length then _ else _) as [vl pl].
    destruct (_ || _ || _); cbn; [intros [Hp|Hp]; discriminate Hp|exact Hph].
Qed.

(** The parser gives the type of a 1-RTT packet only to a packet for
    which it found a connection. *)
Lemma parse_packet_header_1rtt (quic : picoquic_quic_t) (bytes : list Z)
    (length : Z) (addr_from : sockaddr) (ret : Z)
    (ph : picoquic_packet_header) :
  packet_type_zero = picoquic_packet_error ->
  picoquic_parse_packet_header (Some quic) bytes length addr_from None 1
    = Done (ret, ph, None) ->
  ~ is_1rtt (ph_ptype ph).
Proof.
  intros Hzero Hrun. unfold picoquic_parse_packet_header in Hrun.
  assert (Hz : ~ is_1rtt packet_type_zero)
    by (rewrite Hzero; intros [Hp|Hp]; discriminate Hp).
  destruct (length =? 0); [injection Hrun as _ <-; exact Hz|].
  destruct (negb _);
    [injection Hrun as _ <-; cbn; intros [Hp|Hp]; discriminate Hp|].
  destruct (_ =? 128).
  - unfold parse_long_header in Hrun.
    destruct (length <? 7); [injection Hrun as _ <-; exact Hz|].
    destruct (_ >? s32 length); [injection Hrun as _ <-; exact Hz|].
    destruct (picoquic_parse_connection_id _ _) as [n1 cid1].
    destruct (picoquic_parse_connection_id _ _) as [n2 cid2].
    destruct (_ =? 0).
    + destruct (vn_find_cnx _ _ _ _) as [p| |];
        cbn [mbind outcome_bind] in Hrun; try discriminate.
      injection Hrun as _ <- _. cbn. intros [Hp|Hp]; discriminate Hp.
    + match type of Hrun with
      | context [long_header_payload_length bytes length ?r] =>
          set (ph2 := r) in Hrun
      end.
      assert (H2 : ~ is_1rtt (ph_ptype ph2)).
      { subst ph2. destruct (_ >=? 0); [|exact Hz].
        destruct (version_header_encoding _);
          [apply long_header_type_29_not_1rtt|].
        cbn. intros [Hp|Hp]; discriminate Hp. }
      clearbody ph2.
      pose proof (long_header_payload_length_not_1rtt bytes length ph2 H2)
        as H3.
      destruct (long_header_payload_length bytes length ph2)
        as [[ph3 pl] vl]. cbn [fst] in H3.
      destruct (bool_decide _).
      * destruct (long_header_find_cnx _ _ _ _) as [p| |];
          cbn [mbind outcome_bind] in Hrun; try discriminate.
        injection Hrun as _ <- _. exact H3.
      * injection Hrun as _ <-. exact H3.
  - unfold parse_short_header in Hrun.
    change (1 =? 0) with false in Hrun. cbn [andb mbind outcome_bind] in Hrun.
    destruct (s32 length >=? 1 + _);
      [|injection Hrun as _ <-; cbn; intros [Hp|Hp]; discriminate Hp].
    destruct (picoquic_parse_connection_id _ _) as [n cid].
    destruct (if _ >? 0 then _ else _) as [h|].
    + destruct (deref_cnx (Some quic) (Some h)) as [c| |];
        cbn [mbind outcome_bind] in Hrun; try discriminate.
      destruct (length <? _); discriminate Hrun.
    + injection Hrun as _ <-. exact Hz.
Qed.

(** [picoquic_incoming_segment] never asks for a stateless reset: when no
    connection is found for a packet, either a Version Negotiation is
    prepared or the packet is refused and the endpoint left as it is,
    because the parser gives the type of a 1-RTT packet, which
    [picoquic_process_unexpected_cnxid] wants, only to a packet with a
    connection. *)
Theorem no_stateless_reset_is_queued (quic : picoquic_quic_t)
    (bytes : list Z) (length packet_length : Z) (addr_from addr_to : sockaddr)
    (if_index_to current_time consumed : Z) (quic1 : picoquic_quic_t)
    (bytes1 : list Z) (ph : picoquic_packet_header) (consumed1 ncc1 : Z) :
  packet_type_zero = picoquic_packet_error ->
  picoquic_parse_header_and_decrypt quic bytes length packet_length addr_from
    current_time None consumed 0
  = Done (0, quic1, bytes1, ph, None, consumed1, ncc1) ->
  process_segment quic1 None bytes1 length consumed1 addr_from addr_to
    if_index_to ph current_time ncc1 0
  = Done (if (ph_version_index ph <? 0) && negb (ph_vn ph =? 0)
          then (0,
                picoquic_prepare_version_negotiation quic1 addr_from addr_to
                  if_index_to ph, None)
          else (PICOQUIC_ERROR_DETECTED, quic1, None)).
Proof.
  intros Hzero Hphd.
  assert (Hty : ~ is_1rtt (ph_ptype ph)).
  { unfold picoquic_parse_header_and_decrypt in Hphd.
    destruct (picoquic_parse_packet_header _ _ _ _ _ _)
      as [[[ret0 ph0] pcnx0]| |] eqn:Hparse;
      cbn [mbind outcome_bind] in Hphd; try discriminate.
    destruct (negb (ret0 =? 0)).
    { injection Hphd as _ _ _ <- -> _ _.
      exact (parse_packet_header_1rtt _ _ _ _ _ _ Hzero Hparse). }
    cbv zeta in Hphd.
    destruct (if bool_decide (ph_ptype ph0 = picoquic_packet_initial)
              then _ else _) as [[[[ra qa] pa] na]| |] eqn:Hadmit;
      cbn [mbind outcome_bind] in Hphd; try discriminate.
    destruct pa as [h|].
    - destruct (deref_cnx _ _) as [c| |]; cbn [mbind outcome_bind] in Hphd;
        try discriminate.
      destruct (decrypt_by_type _ _ _ _ _ _ _)
        as [[[[[[[r1 d] b1] ph1] a1] l1] c1]| |];
        cbn [mbind outcome_bind] in Hphd; try discriminate.
      repeat case_hyp Hphd; discriminate Hphd.
    - destruct (bool_decide (ph_ptype ph0 = picoquic_packet_1rtt_protected_phi0)
                || bool_decide (ph_ptype ph0
                                = picoquic_packet_1rtt_protected_phi1))
        eqn:H1rtt.
      + exfalso. apply orb_true_iff in H1rtt.
        assert (Hne : ph_ptype ph0 <> picoquic_packet_initial).
        { destruct H1rtt as [Hp|Hp]; apply bool_decide_eq_true in Hp;
            rewrite Hp; discriminate. }
        rewrite (bool_decide_false_eq _ _ Hne) in Hadmit.
        injection Hadmit as _ _ -> _.
        apply (parse_packet_header_1rtt _ _ _ _ _ _ Hzero Hparse).
        destruct H1rtt as [Hp|Hp]; apply bool_decide_eq_true in Hp;
          [left|right]; exact Hp.
      + injection Hphd as _ _ _ <- _ _.
        apply orb_false_iff in H1rtt. destruct H1rtt as (Hp0 & Hp1).
        apply bool_decide_eq_false in Hp0, Hp1.
        intros [Hp|Hp]; contradiction. }
  unfold process_segment. change (0 =? 0) with true. cbv iota.
  destruct ((ph_version_index ph <? 0) && negb (ph_vn ph =? 0));
    [reflexivity|].
  unfold picoquic_process_unexpected_cnxid.
  rewrite (bool_decide_false_eq (ph_ptype ph)
             picoquic_packet_1rtt_protected_phi0)
    by (intros Hp; apply Hty; left; exact Hp).
  rewrite (bool_decide_false_eq (ph_ptype ph)
             picoquic_packet_1rtt_protected_phi1)
    by (intros Hp; apply Hty; right; exact Hp).
  rewrite andb_false_r. destruct (negb _); reflexivity.
Qed.

End Dispatcher.

(** *** The theorems above, on the small endpoint *)

(** [incoming_segment_drops_errors], for the Initial of 12 bytes from a
    stranger, which is refused as too short. *)
Lemma incoming_segment_drops_errors_witness :
  picoquic_incoming_segment Example.quic_empty Example.initial_segment 12 12 0
    Example.stranger Example.here 0 0 picoquic_null_connection_id
  = (quic' ← negotiate_plugins Example.initial_alone.1.1.1.1.1.2
               Example.initial_alone.1.1.2;
     Done (-1, quic', Example.initial_alone.1.1.1.1.2,
           Example.initial_alone.1.2, picoquic_null_connection_id,
           Example.initial_alone.2)).
Proof.
  apply (incoming_segment_drops_errors Example.quic_empty
           Example.initial_segment 12 12 0 Example.stranger Example.here 0 0
           picoquic_null_connection_id Example.initial_alone.1.1.1.1.1.1
           Example.initial_alone.1.1.1.1.1.2 Example.initial_alone.1.1.1.1.2
           Example.initial_alone.1.1.1.2 Example.initial_alone.1.1.2
           Example.initial_alone.1.2 Example.initial_alone.2).
  - vm_compute. reflexivity.
  - vm_compute. discriminate.
  - vm_compute. discriminate.
  - vm_compute. discriminate.
Defined.

(** [fixed_bit_clear_is_dropped], for a datagram of two bytes. *)
Lemma fixed_bit_clear_is_dropped_witness :
  picoquic_incoming_packet 1 Example.quic_one [0x00; 0x01] 2 Example.peer
    Example.here 0 0 0
  = Done (0, Example.quic_one, [0x00; 0x01], 0, [(0, -1, 2)]).
Proof.
  apply (fixed_bit_clear_is_dropped 0 Example.quic_one [0x00; 0x01] 2
           Example.peer Example.here 0 0 0).
  - vm_compute. split; reflexivity.
  - vm_compute. discriminate.
Defined.

(** [negotiate_plugins_once], for a connection that has just received the
    transport parameters of its peer. *)
Lemma negotiate_plugins_once_witness :
  negotiate_plugins Example.quic_negotiated (Some 0%nat)
  = Done Example.quic_negotiated.
Proof.
  apply (negotiate_plugins_once Example.quic_parameters_received
           Example.quic_negotiated (Some 0%nat)).
  vm_compute. reflexivity.
Defined.

(** [walk_is_bounded], for the datagram of 36 bytes made of a Handshake
    packet and of a long header of an unknown version. *)
Lemma walk_is_bounded_witness :
  Z.of_nat (List.length [(0, 0, 29); (29, 0, 7)]) <= 36 /\
  forall (k : nat) (i1 r1 c1 i2 r2 c2 : Z),
    [(0, 0, 29); (29, 0, 7)] !! k = Some (i1, r1, c1) ->
    [(0, 0, 29); (29, 0, 7)] !! S k = Some (i2, r2, c2) ->
    r1 = 0 /\ 1 <= c1 /\ i2 = i1 + c1.
Proof.
  apply (walk_is_bounded 36 Example.quic_one
           (Example.handshake_segment ++ Example.unknown_version_segment) 36
           Example.peer Example.here 0 0 0 Example.two_segments.1.1.1.1
           Example.two_segments.1.1.1.2 Example.two_segments.1.1.2
           Example.two_segments.1.2 [(0, 0, 29); (29, 0, 7)]).
  - reflexivity.
  - vm_compute. split; discriminate.
  - vm_compute. reflexivity.
Defined.

(** [header_protection_touches_only_pn], for the short-header packet of 23
    bytes, whose packet number is the byte at index 2: the byte at index
    10 stays. *)
Lemma header_protection_touches_only_pn_witness :
  byte_at
    (remove_header_protection Example.one_rtt_segment 23
       Example.one_rtt_header (Some 1)).1 10
  = byte_at Example.one_rtt_segment 10.
Proof.
  apply (header_protection_touches_only_pn Example.one_rtt_segment 23
           Example.one_rtt_header (Some 1) 10).
  - vm_compute. split; [discriminate|reflexivity].
  - reflexivity.
  - right. vm_compute. discriminate.
Defined.

(** [short_header_segment_is_last], for the same packet on the endpoint
    that has its connection. *)
Lemma short_header_segment_is_last_witness :
  Example.one_rtt_at_head.1.1.2 = 23.
Proof.
  apply (short_header_segment_is_last Example.quic_one Example.one_rtt_segment
           23 23 0 Example.peer Example.here 0 0 picoquic_null_connection_id
           Example.one_rtt_at_head.1.1.1.1.2 Example.one_rtt_at_head.1.1.1.2
           Example.one_rtt_at_head.1.1.2 Example.one_rtt_at_head.1.2
           Example.one_rtt_at_head.2).
  - reflexivity.
  - vm_compute. split; reflexivity.
  - vm_compute. discriminate.
  - vm_compute. reflexivity.
Defined.

(** [unknown_version_is_answered], for the long header of seven bytes of
    the version [0x0a0a0a0a]. *)
Lemma unknown_version_is_answered_witness :
  exists ph,
    picoquic_incoming_segment Example.quic_empty
      Example.unknown_version_segment 7 7 0 Example.stranger Example.here 0 0
      picoquic_null_connection_id
    = Done (0,
            picoquic_prepare_version_negotiation Example.quic_empty
              Example.stranger Example.here 0 ph,
            Example.unknown_version_segment, Z.max 7 (ph_offset ph),
            (if picoquic_is_connection_id_null picoquic_null_connection_id
             then ph_dest_cnx_id ph else picoquic_null_connection_id), 0) /\
    ph_vn ph = PICOPARSE_32 (advance Example.unknown_version_segment 1) /\
    ph_dest_cnx_id ph
    = (picoquic_parse_connection_id
         (advance Example.unknown_version_segment 6)
         (byte_at Example.unknown_version_segment 5)).2.
Proof.
  apply (unknown_version_is_answered Example.quic_empty
           Example.unknown_version_segment 7 7 0 Example.stranger Example.here
           0 0 picoquic_null_connection_id).
  - reflexivity.
  - vm_compute. split; [discriminate|reflexivity].
  - vm_compute. reflexivity.
  - vm_compute. reflexivity.
  - vm_compute. discriminate.
  - vm_compute. discriminate.
  - vm_compute. reflexivity.
Defined.

(** [new_context_outlives_decryption], for an Initial in a datagram of
    1200 bytes from a stranger, with the externals that give the Initial
    keys. *)
Lemma new_context_outlives_decryption_witness :
  Example.padded_initial_parsed.2 = 1 /\
  Example.padded_initial_parsed.1.1.2 <> None /\
  (Example.padded_initial_parsed.1.1.1.1.1.1 = 0 \/
   Example.padded_initial_parsed.1.1.1.1.1.1 = PICOQUIC_ERROR_DUPLICATE) /\
  @PICOQUIC_ENFORCED_INITIAL_MTU Example.keyed_externals <= 1200 /\
  exists dcid scid vn,
    @picoquic_create_cnx Example.keyed_externals Example.quic_empty dcid scid
      Example.stranger 0 vn
    = (Example.padded_initial_parsed.1.1.2,
       Example.padded_initial_parsed.1.1.1.1.1.2).
Proof.
  apply (@new_context_outlives_decryption Example.keyed_externals
           Example.quic_empty Example.padded_initial 1200 1200 Example.stranger
           0 0 Example.padded_initial_parsed.1.1.1.1.1.1
           Example.padded_initial_parsed.1.1.1.1.1.2
           Example.padded_initial_parsed.1.1.1.1.2
           Example.padded_initial_parsed.1.1.1.2
           Example.padded_initial_parsed.1.1.2
           Example.padded_initial_parsed.1.2
           Example.padded_initial_parsed.2).
  - vm_compute. reflexivity.
  - vm_compute. discriminate.
Defined.

(** [no_stateless_reset_is_queued], for a short-header packet of 40 bytes
    whose connection id is that of no connection. *)
Lemma no_stateless_reset_is_queued_witness :
  process_segment Example.reset_parsed.1.1.1.1.1.2 None
    Example.reset_parsed.1.1.1.1.2 40 Example.reset_parsed.1.2 Example.peer
    Example.here 0 Example.reset_parsed.1.1.1.2 0 Example.reset_parsed.2 0
  = Done (if (ph_version_index Example.reset_parsed.1.1.1.2 <? 0)
             && negb (ph_vn Example.reset_parsed.1.1.1.2 =? 0)
          then (0,
                picoquic_prepare_version_negotiation
                  Example.reset_parsed.1.1.1.1.1.2 Example.peer Example.here 0
                  Example.reset_parsed.1.1.1.2, None)
          else (PICOQUIC_ERROR_DETECTED, Example.reset_parsed.1.1.1.1.1.2,
                None)).
Proof.
  apply (no_stateless_reset_is_queued Example.quic_one Example.reset_segment
           40 40 Example.peer Example.here 0 0 0
           Example.reset_parsed.1.1.1.1.1.2 Example.reset_parsed.1.1.1.1.2
           Example.reset_parsed.1.1.1.2 Example.reset_parsed.1.2
           Example.reset_parsed.2).
  - reflexivity.
  - vm_compute. reflexivity.
Defined.

(** ** The handlers of packet.c

    [picoquic_incoming_segment] was verified above for any handlers.  The
    bodies that follow are those of packet.c; what they call or read and
    packet.c does not define is a variable of their section. *)
Module Handlers.

Definition set_initial_cnxid (v : picoquic_connection_id_t)
    (r : picoquic_cnx_t) : picoquic_cnx_t :=
  {| cnx_state := cnx_state r; client_mode := client_mode r;
     version_index := version_index r; initial_cnxid := v; path := path r;
     crypto_context := crypto_context r; callback_fn := callback_fn r;
     original_destination_connection_id :=
       original_destination_connection_id r;
     processed_transport_parameter := processed_transport_parameter r;
     remote_parameters_received := remote_parameters_received r;
     cnx_rest := cnx_rest r |}.

Section Retry.

(** [picoquic_supported_versions[i].version] *)
Variable supported_version : Z -> Z.
(** [picoquic_parse_packet_header_cnxid_lengths]: the two lengths that a
    byte encodes, each a [uint8_t]. *)
Variable picoquic_parse_packet_header_cnxid_lengths : Z -> Z * Z.
(** Whether [malloc] of that many bytes returns a null pointer. *)
Variable malloc_fails : Z -> bool.
(** [cnx->retry_token] and [cnx->retry_token_length], which the record of
    the connection does not have. *)
Variable set_retry_token : option (list Z) -> Z -> picoquic_cnx_t -> picoquic_cnx_t.
Variable picoquic_reset_cnx : picoquic_cnx_t -> Z -> picoquic_cnx_t.

(** [picoquic_incoming_retry] (packet.c, lines 857-928).  The result is
    the return code with the connection. *)
Definition picoquic_incoming_retry (cnx : picoquic_cnx_t) (bytes : list Z)
    (ph : picoquic_packet_header) (current_time : Z)
  : Z * picoquic_cnx_t :=
  let ret := 0 in
  let token_length := 0 in
  let token : option (list Z) := None in
  let ret :=
    if bool_decide (cnx_state cnx <> picoquic_state_client_init_sent)
       && bool_decide (cnx_state cnx <> picoquic_state_client_init_resent)
    then PICOQUIC_ERROR_UNEXPECTED_PACKET
    else
      (* Verify that the header is a proper echo of what was sent *)
      if negb (ph_vn ph =? supported_version (version_index cnx))
      then PICOQUIC_ERROR_UNEXPECTED_PACKET
      else if negb (ph_pn64 ph =? 0)
      then PICOQUIC_ERROR_UNEXPECTED_PACKET (* PN is required to be 0 *)
      else ret in
  let '(ret, token, token_length) :=
    if ret =? 0 then
      (* Parse the retry frame *)
      let byte_index := ph_offset ph in
      let '(unused_cil, odcil) :=
        picoquic_parse_packet_header_cnxid_lengths (byte_at bytes byte_index) in
      let byte_index := u64 (byte_index + 1) in
      if negb (u8 odcil =? id_len (initial_cnxid cnx))
         || (u8 odcil + 1 >? ph_payload_length ph)
         || negb (memcmp_eq (initial_cnxid cnx) (advance bytes byte_index)
                            (u8 odcil))
      then
        (* malformed ODCIL, or does not match initial cid; ignore *)
        (PICOQUIC_ERROR_UNEXPECTED_PACKET, token, token_length)
      else
        let byte_index := u64 (byte_index + u8 odcil) in
        let token_length :=
          u64 (u32 (ph_offset ph + ph_payload_length ph) - byte_index) in
        if token_length >? 0 then
          if malloc_fails token_length
          then (PICOQUIC_ERROR_MEMORY, None, token_length)
          else (ret,
                Some (take (Z.to_nat token_length) (advance bytes byte_index)),
                token_length)
        else (ret, token, token_length)
    else (ret, token, token_length) in
  let cnx :=
    if ret =? 0 then
      (* reset the initial CNX_ID to the version sent by the server *)
      let cnx := set_initial_cnxid (ph_srce_cnx_id ph) cnx in
      (* keep a copy of the retry token *)
      let cnx := set_retry_token token (u32 token_length) cnx in
      picoquic_reset_cnx cnx current_time
    else cnx in
  (* Mark the packet as not required for ack *)
  let ret := if ret =? 0 then PICOQUIC_ERROR_RETRY else ret in
  (ret, cnx).

(** [picoquic_incoming_retry] never returns 0: it returns
    [PICOQUIC_ERROR_RETRY] for a Retry that it takes, and else
    [PICOQUIC_ERROR_UNEXPECTED_PACKET] or [PICOQUIC_ERROR_MEMORY] with the
    connection as it was.  Whatever it returns, the bookkeeping of
    [picoquic_incoming_segment] makes -1 of it and records no packet
    number: a Retry is never acknowledged. *)
Theorem incoming_retry_is_never_acknowledged `{!picoquic_externals}
    (cnx : picoquic_cnx_t) (bytes : list Z) (ph : picoquic_packet_header)
    (current_time : Z) :
  let r := picoquic_incoming_retry cnx bytes ph current_time in
  (r.1 = PICOQUIC_ERROR_RETRY \/
   (r.1 = PICOQUIC_ERROR_UNEXPECTED_PACKET \/ r.1 = PICOQUIC_ERROR_MEMORY) /\
   r.2 = cnx) /\
  forall (quic : picoquic_quic_t) (h : option nat)
         (ph' : picoquic_packet_header) (t : Z),
    conclude_segment quic h ph' t r.1 = Done (-1, quic).
Proof.
  cbv zeta.
  assert (Hcode :
    (picoquic_incoming_retry cnx bytes ph current_time).1
      = PICOQUIC_ERROR_RETRY \/
    ((picoquic_incoming_retry cnx bytes ph current_time).1
       = PICOQUIC_ERROR_UNEXPECTED_PACKET \/
     (picoquic_incoming_retry cnx bytes ph current_time).1
       = PICOQUIC_ERROR_MEMORY) /\
    (picoquic_incoming_retry cnx bytes ph current_time).2 = cnx).
  { unfold picoquic_incoming_retry.
    destruct (_ && _); [right; split; [left|]; reflexivity|].
    destruct (negb (ph_vn ph =? _)); [right; split; [left|]; reflexivity|].
    destruct (negb (ph_pn64 ph =? 0)); [right; split; [left|]; reflexivity|].
    change (0 =? 0) with true. cbv iota.
    destruct (picoquic_parse_packet_header_cnxid_lengths _) as [unused odcil].
    destruct (_ || _ || _); [right; split; [left|]; reflexivity|].
    destruct (_ >? 0); [|left; reflexivity].
    destruct (malloc_fails _); [right; split; [right|]; reflexivity|].
    left. reflexivity. }
  split; [exact Hcode|]. intros quic h ph' t.
  destruct Hcode as [->|([->| ->] & _)]; reflexivity.
Qed.

End Retry.

(** [picoquic_stateless_packet_t]: [sp_bytes] holds the [sp_length] bytes
    that were written, in the order of their writing. *)
Record picoquic_stateless_packet_t : Type := {
  sp_bytes : list Z;
  sp_length : Z;
  sp_addr_to : sockaddr;
  sp_addr_local : sockaddr;
  sp_if_index_local : Z
}.

Section StatelessReset.

Context `{!picoquic_externals}.

(** [picoquic_public_uniform_random(n)], a value below [n], and
    [picoquic_public_random], which fills that many bytes. *)
Variable picoquic_public_uniform_random : Z -> Z.
Variable picoquic_public_random : Z -> list Z.
(** The 16 bytes that [picoquic_create_cnxid_reset_secret] writes. *)
Variable picoquic_create_cnxid_reset_secret :
  picoquic_quic_t -> picoquic_connection_id_t -> list Z.

(** [picoquic_process_unexpected_cnxid] (packet.c, lines 661-704).
    [created] tells whether [picoquic_create_stateless_packet] returned a
    packet; the result is the packet given to
    [picoquic_queue_stateless_packet], if one is. *)
Definition picoquic_process_unexpected_cnxid (quic : picoquic_quic_t)
    (created : bool) (length : Z) (addr_from addr_to : sockaddr)
    (if_index_to : Z) (ph : picoquic_packet_header)
  : option picoquic_stateless_packet_t :=
  if (length >? PICOQUIC_RESET_PACKET_MIN_SIZE)
     && (bool_decide (ph_ptype ph = picoquic_packet_1rtt_protected_phi0)
         || bool_decide (ph_ptype ph = picoquic_packet_1rtt_protected_phi1))
  then
    if created then
      let pad_size := u32 (length - 17) in
      let byte_index := 0 in
      let pad_size :=
        if pad_size >? 20
        then u32 (u32 (picoquic_public_uniform_random (u32 (pad_size - 20)))
                  + 20)
        else 20 in
      (* Packet type set to short header *)
      let bytes :=
        [if bool_decide (ph_ptype ph = picoquic_packet_1rtt_protected_phi0)
         then 0x30 else 0x70] in
      let byte_index := byte_index + 1 in
      (* Add the random bytes *)
      let bytes := bytes ++ picoquic_public_random pad_size in
      let byte_index := byte_index + pad_size in
      (* Add the public reset secret *)
      let bytes :=
        bytes ++ picoquic_create_cnxid_reset_secret quic (ph_dest_cnx_id ph) in
      let byte_index := byte_index + PICOQUIC_RESET_SECRET_SIZE in
      Some {| sp_bytes := bytes; sp_length := byte_index;
              sp_addr_to := addr_from; sp_addr_local := addr_to;
              sp_if_index_local := if_index_to |}
    else None
  else None.

(** The stateless reset that [picoquic_process_unexpected_cnxid] builds is
    shorter than the packet it answers, and has at least 37 bytes: one
    byte, 20 bytes of padding or more and the 16 bytes of the secret.  Two
    endpoints cannot answer each other's resets for ever. *)
Theorem stateless_reset_is_shorter (quic : picoquic_quic_t) (created : bool)
    (length : Z) (addr_from addr_to : sockaddr) (if_index_to : Z)
    (ph : picoquic_packet_header) (sp : picoquic_stateless_packet_t) :
  (forall n, 0 < n -> 0 <= picoquic_public_uniform_random n < n) ->
  37 <= PICOQUIC_RESET_PACKET_MIN_SIZE ->
  0 <= length < 2 ^ 32 ->
  picoquic_process_unexpected_cnxid quic created length addr_from addr_to
    if_index_to ph = Some sp ->
  37 <= sp_length sp < length /\
  sp_addr_to sp = addr_from /\ sp_addr_local sp = addr_to.
Proof.
  intros Hrandom Hmin Hlen Hrun. change (2 ^ 32) with 4294967296 in Hlen.
  unfold picoquic_process_unexpected_cnxid in Hrun.
  destruct (Z.gtb_spec length PICOQUIC_RESET_PACKET_MIN_SIZE) as [Hgt|Hle];
    [|discriminate].
  destruct (_ || _); [|discriminate]. cbn [andb] in Hrun.
  destruct created; [|discriminate].
  injection Hrun as <-. cbn [sp_length sp_addr_to sp_addr_local].
  split; [|split; reflexivity].
  rewrite (u32_small (length - 17)) by lia.
  unfold PICOQUIC_RESET_SECRET_SIZE.
  destruct (Z.gtb_spec (length - 17) 20) as [Hpad|Hpad]; [|lia].
  rewrite (u32_small (length - 17 - 20)) by lia.
  pose proof (Hrandom (length - 17 - 20) ltac:(lia)) as Hr.
  rewrite (u32_small (picoquic_public_uniform_random _)) by lia.
  rewrite u32_small by lia. lia.
Qed.

End StatelessReset.

(** Modelled from the spec: [picoformat_32] (intformat.c) writes a 32-bit
    value in network byte order, which is what [PICOPARSE_32] reads, and
    [picoquic_format_connection_id] (util.c) copies the bytes of a
    connection id and returns their number, or copies nothing and returns
    0 when they do not fit in the room left. *)
Definition picoformat_32 (v : Z) : list Z :=
  [u8 (Z.shiftr v 24); u8 (Z.shiftr v 16); u8 (Z.shiftr v 8); u8 v].

Definition picoquic_format_connection_id (bytes_max : Z)
    (cnx_id : picoquic_connection_id_t) : Z * list Z :=
  if bytes_max <? id_len cnx_id then (0, []) else (id_len cnx_id, cnx_id).

Section VersionNegotiation.

Context `{!picoquic_externals}.

Variable PICOQUIC_MAX_PACKET_SIZE : Z.
(** The versions of the table [picoquic_supported_versions], in order. *)
Variable picoquic_supported_versions : list Z.

(** [picoquic_prepare_version_negotiation] (packet.c, lines 606-650).
    [created] tells whether [picoquic_create_stateless_packet] returned a
    packet and [random] is the byte that [picoquic_public_random] writes;
    the result is the return code with the packet given to
    [picoquic_queue_stateless_packet], if one is. *)
Definition picoquic_prepare_version_negotiation (created : bool) (random : Z)
    (addr_from addr_to : sockaddr) (if_index_to : Z)
    (ph : picoquic_packet_header)
  : Z * option picoquic_stateless_packet_t :=
  let ret := -1 in
  if created then
    let byte_index := 0 in
    (* Packet type set to random value for version negotiation *)
    let bytes := [Z.lor (u8 random) 0x80] in
    let byte_index := byte_index + 1 in
    (* Set the version number to zero *)
    let bytes := bytes ++ picoformat_32 0 in
    let byte_index := byte_index + 4 in
    (* Encode the CIDs, in reverse of the incoming packet *)
    let bytes := bytes ++ [u8 (id_len (ph_srce_cnx_id ph))] in
    let byte_index := byte_index + 1 in
    let '(n, id) :=
      picoquic_format_connection_id (PICOQUIC_MAX_PACKET_SIZE - byte_index)
                                    (ph_srce_cnx_id ph) in
    let bytes := bytes ++ id in
    let byte_index := byte_index + n in
    let bytes := bytes ++ [u8 (id_len (ph_dest_cnx_id ph))] in
    let byte_index := byte_index + 1 in
    let '(n, id) :=
      picoquic_format_connection_id (PICOQUIC_MAX_PACKET_SIZE - byte_index)
                                    (ph_dest_cnx_id ph) in
    let bytes := bytes ++ id in
    let byte_index := byte_index + n in
    (* Set the payload to the list of versions *)
    let bytes := bytes ++ concat (map picoformat_32 picoquic_supported_versions) in
    let byte_index :=
      byte_index + 4 * Z.of_nat (List.length picoquic_supported_versions) in
    (* Set length and addresses, and queue. *)
    (ret,
     Some {| sp_bytes := bytes; sp_length := byte_index;
             sp_addr_to := addr_from; sp_addr_local := addr_to;
             sp_if_index_local := if_index_to |})
  else (ret, None).

(** A connection id whose bytes are bytes. *)
Definition bytes_only (id : picoquic_connection_id_t) : bool :=
  forallb (fun b => (0 <=? b) && (b <? 256)) id.

Lemma u8_small (x : Z) : 0 <= x < 256 -> u8 x = x.
Proof. intros Hx. unfold u8. apply Z.mod_small. exact Hx. Qed.

Lemma read_back (id rest : list Z) :
  bytes_only id = true ->
  map (byte_at (id ++ rest)) (map Z.of_nat (seq 0 (List.length id))) = id.
Proof.
  intros Hid. unfold bytes_only in Hid. rewrite forallb_forall in Hid.
  apply list_eq. intros i. rewrite !list_lookup_fmap.
  destruct (id !! i) as [b|] eqn:Hb.
  - rewrite lookup_seq_lt by (eapply lookup_lt_Some; exact Hb).
    cbn. f_equal. unfold byte_at. rewrite Nat2Z.id, nth_lookup.
    rewrite lookup_app_l by (eapply lookup_lt_Some; exact Hb).
    rewrite Hb. cbn.
    assert (Hin : In b id)
      by (apply list_elem_of_In; eapply list_elem_of_lookup_2; exact Hb).
    specialize (Hid b Hin). apply andb_true_iff in Hid.
    destruct Hid as (H0 & H1). apply Z.leb_le in H0. apply Z.ltb_lt in H1.
    apply Z.mod_small. lia.
  - rewrite lookup_seq_ge; [reflexivity|].
    apply lookup_ge_None. exact Hb.
Qed.

Lemma parse_back (id rest : list Z) :
  bytes_only id = true -> id_len id <= 20 ->
  picoquic_parse_connection_id (id ++ rest) (id_len id) = (id_len id, id).
Proof.
  intros Hid Hlen. unfold picoquic_parse_connection_id.
  unfold PICOQUIC_CONNECTION_ID_MAX_SIZE.
  rewrite (proj2 (Z.leb_le _ _) Hlen). unfold id_len. rewrite Nat2Z.id.
  rewrite read_back by exact Hid. reflexivity.
Qed.

(** The Version Negotiation packet that
    [picoquic_prepare_version_negotiation] builds, read by
    [picoquic_parse_packet_header]: it is a Version Negotiation packet
    whose destination id is the source id of the header it answers, whose
    source id is its destination id, and whose payload has four bytes for
    each supported version, provided that the random byte has the bit
    0x40.  The function itself returns -1. *)
Theorem version_negotiation_round_trip (quic : option picoquic_quic_t)
    (random : Z) (addr_from addr_to addr : sockaddr) (if_index_to : Z)
    (ph : picoquic_packet_header) :
  bytes_only (ph_srce_cnx_id ph) = true ->
  bytes_only (ph_dest_cnx_id ph) = true ->
  id_len (ph_srce_cnx_id ph) <= 20 -> id_len (ph_dest_cnx_id ph) <= 20 ->
  48 <= PICOQUIC_MAX_PACKET_SIZE ->
  Z.of_nat (List.length picoquic_supported_versions) < 16000 ->
  Z.land (u8 random) 0x40 = 0x40 ->
  exists sp ph',
    picoquic_prepare_version_negotiation true random addr_from addr_to
      if_index_to ph = (-1, Some sp) /\
    picoquic_parse_packet_header quic (sp_bytes sp) (sp_length sp) addr None 1
    = (pcnx ← vn_find_cnx quic addr ph' None; Done (0, ph', pcnx)) /\
    ph_ptype ph' = picoquic_packet_version_negotiation /\
    ph_vn ph' = 0 /\
    ph_dest_cnx_id ph' = ph_srce_cnx_id ph /\
    ph_srce_cnx_id ph' = ph_dest_cnx_id ph /\
    ph_payload_length ph'
    = 4 * Z.of_nat (List.length picoquic_supported_versions) /\
    ph_offset ph' + ph_payload_length ph' = sp_length sp.
Proof.
  intros Hs Hd Hsl Hdl Hmax Hnv Hbit.
  unfold picoquic_prepare_version_negotiation, picoquic_format_connection_id.
  pose proof (Zle_0_nat (List.length (ph_srce_cnx_id ph))) as Hs0.
  pose proof (Zle_0_nat (List.length (ph_dest_cnx_id ph))) as Hd0.
  unfold id_len in *.
  set (s := ph_srce_cnx_id ph) in *. set (d := ph_dest_cnx_id ph) in *.
  set (k := List.length picoquic_supported_versions) in *.
  set (vs := concat (map picoformat_32 picoquic_supported_versions)).
  rewrite (proj2 (Z.ltb_ge _ _)) by lia.
  rewrite (proj2 (Z.ltb_ge _ _)) by lia.
  eexists _, _. split; [reflexivity|].
  cbn [sp_bytes sp_length].
  set (b0 := Z.lor (u8 random) 128).
  set (ls := Z.of_nat (List.length s)) in *.
  set (ld := Z.of_nat (List.length d)) in *.
  rewrite (u8_small ls), (u8_small ld) by lia.
  replace (((((([b0] ++ picoformat_32 0) ++ [ls]) ++ s) ++ [ld]) ++ d) ++ vs)
    with (b0 :: 0 :: 0 :: 0 :: 0 :: ls :: s ++ ld :: d ++ vs)
    by (cbn; rewrite <- !app_assoc; reflexivity).
  set (bytes := b0 :: 0 :: 0 :: 0 :: 0 :: ls :: s ++ ld :: d ++ vs).
  replace (0 + 1 + 4 + 1 + ls + 1 + ld + 4 * Z.of_nat k)
    with (7 + ls + ld + 4 * Z.of_nat k) by lia.
  set (L := 7 + ls + ld + 4 * Z.of_nat k).
  assert (HL : 7 <= L < 65536) by (subst L; lia).
  assert (E0 : Z.land (byte_at bytes 0) 64 = 64 /\
               Z.land (byte_at bytes 0) 128 = 128).
  { change (byte_at bytes 0) with (u8 b0). subst b0.
    pose proof (for_all_bytes
      (fun b => implb (Z.land b 64 =? 64)
                  ((Z.land (u8 (Z.lor b 128)) 64 =? 64)
                   && (Z.land (u8 (Z.lor b 128)) 128 =? 128)))
      ltac:(vm_compute; reflexivity) (u8 random) (u8_range random)) as Hb.
    cbv beta in Hb. rewrite Hbit in Hb. change (64 =? 64) with true in Hb.
    cbn [implb] in Hb. apply andb_true_iff in Hb. destruct Hb as (H1 & H2).
    split; apply Z.eqb_eq; assumption. }
  destruct E0 as (E64 & E128).
  assert (E2 : PICOPARSE_32 (advance bytes 1) = 0) by reflexivity.
  assert (E3 : byte_at bytes 5 = ls)
    by (change (byte_at bytes 5) with (u8 ls); apply u8_small; lia).
  assert (E4 : picoquic_parse_connection_id (advance bytes 6) ls = (ls, s)).
  { change (advance bytes 6) with (s ++ ld :: d ++ vs).
    apply parse_back; assumption. }
  assert (E5 : byte_at bytes (6 + ls) = ld).
  { unfold byte_at. replace (Z.to_nat (6 + ls)) with (6 + List.length s)%nat
      by (subst ls; lia).
    change (nth (6 + List.length s) bytes 0)
      with (nth (List.length s) (s ++ ld :: d ++ vs) 0).
    rewrite app_nth2 by lia. rewrite Nat.sub_diag. cbn.
    apply u8_small. lia. }
  assert (E6 : picoquic_parse_connection_id (advance bytes (6 + ls + 1)) ld
               = (ld, d)).
  { unfold advance.
    replace (Z.to_nat (6 + ls + 1)) with (6 + S (List.length s))%nat
      by (subst ls; lia).
    change (drop (6 + S (List.length s)) bytes)
      with (drop (S (List.length s)) (s ++ ld :: d ++ vs)).
    replace (s ++ ld :: d ++ vs) with ((s ++ [ld]) ++ d ++ vs)
      by (rewrite <- app_assoc; reflexivity).
    rewrite drop_app_length' by (rewrite length_app; cbn; lia).
    apply parse_back; assumption. }
  clearbody bytes.
  unfold picoquic_parse_packet_header.
  rewrite (proj2 (Z.eqb_neq L 0)) by lia.
  rewrite E64, E128. change (64 =? 64) with true.
  change (128 =? 128) with true. cbn [negb].
  unfold parse_long_header.
  rewrite (proj2 (Z.ltb_ge L 7)) by lia.
  rewrite E3, s32_small by lia. rewrite gtb_false by lia.
  cbn [ph_offset set_ph_offset set_ph_vn set_ph_dest_cnx_id].
  rewrite E4. rewrite (u32_small (6 + ls)) by lia.
  cbn [ph_offset set_ph_offset set_ph_vn set_ph_dest_cnx_id].
  rewrite E5. rewrite (u32_small (6 + ls + 1)) by lia. rewrite E6.
  cbn [ph_offset set_ph_offset set_ph_srce_cnx_id].
  rewrite (u32_small (6 + ls + 1 + ld)) by lia.
  cbn [ph_vn set_ph_spin set_ph_has_spin_bit set_ph_offset set_ph_srce_cnx_id
       set_ph_dest_cnx_id set_ph_vn set_ph_version_index ph_memset_zero].
  rewrite E2. change (0 =? 0) with true. cbv iota.
  split; [reflexivity|].
  unfold remaining16.
  cbn [ph_ptype ph_vn ph_dest_cnx_id ph_srce_cnx_id ph_payload_length
       ph_offset set_ph_payload_length set_ph_pc set_ph_ptype set_ph_spin
       set_ph_has_spin_bit set_ph_offset set_ph_srce_cnx_id
       set_ph_dest_cnx_id set_ph_vn set_ph_version_index ph_memset_zero].
  subst L ls ld.
  match goal with
  | |- context [?a >? ?b] => destruct (Z.gtb_spec a b) as [Hgt|Hle]
  end.
  - rewrite u32_small, u16_small by lia.
    repeat split; try reflexivity; lia.
  - change (u16 0) with 0. repeat split; try reflexivity; lia.
Qed.

End VersionNegotiation.

End Handlers.

(** The stateless reset that answers a 1-RTT packet of 40 bytes, with a
    random generator that returns 0. *)
Definition reset_example : Handlers.picoquic_stateless_packet_t :=
  Eval vm_compute in
    default
      {| Handlers.sp_bytes := []; Handlers.sp_length := 0;
         Handlers.sp_addr_to := []; Handlers.sp_addr_local := [];
         Handlers.sp_if_index_local := 0 |}
      (Handlers.picoquic_process_unexpected_cnxid (fun _ => 0)
         (fun n => repeat 0 (Z.to_nat n)) (fun _ _ => repeat 1 16)
         Example.quic_one true 40 Example.peer Example.here 0
         (set_ph_ptype picoquic_packet_1rtt_protected_phi0
            Example.one_rtt_header)).

Lemma stateless_reset_is_shorter_witness :
  37 <= Handlers.sp_length reset_example < 40 /\
  Handlers.sp_addr_to reset_example = Example.peer /\
  Handlers.sp_addr_local reset_example = Example.here.
Proof.
  apply (Handlers.stateless_reset_is_shorter (fun _ => 0)
           (fun n => repeat 0 (Z.to_nat n)) (fun _ _ => repeat 1 16)
           Example.quic_one true 40 Example.peer Example.here 0
           (set_ph_ptype picoquic_packet_1rtt_protected_phi0
              Example.one_rtt_header) reset_example).
  - intros n Hn. lia.
  - vm_compute. discriminate.
  - vm_compute. split; [discriminate|reflexivity].
  - vm_compute. reflexivity.
Defined.

(** The Version Negotiation that answers the Initial of 12 bytes, with
    one supported version and the random byte 0x40. *)
Lemma version_negotiation_round_trip_witness :
  exists sp ph',
    Handlers.picoquic_prepare_version_negotiation 1536 [0xff00001d] true 0x40
      Example.stranger Example.here 0 Example.initial_header = (-1, Some sp) /\
    picoquic_parse_packet_header (Some Example.quic_empty)
      (Handlers.sp_bytes sp) (Handlers.sp_length sp) Example.here None 1
    = (pcnx ← vn_find_cnx (Some Example.quic_empty) Example.here ph' None;
       Done (0, ph', pcnx)) /\
    ph_ptype ph' = picoquic_packet_version_negotiation /\
    ph_vn ph' = 0 /\
    ph_dest_cnx_id ph' = ph_srce_cnx_id Example.initial_header /\
    ph_srce_cnx_id ph' = ph_dest_cnx_id Example.initial_header /\
    ph_payload_length ph' = 4 * Z.of_nat (List.length [0xff00001d]) /\
    ph_offset ph' + ph_payload_length ph' = Handlers.sp_length sp.
Proof.
  apply (Handlers.version_negotiation_round_trip 1536 [0xff00001d]
           (Some Example.quic_empty) 0x40 Example.stranger Example.here
           Example.here 0 Example.initial_header).
  - reflexivity.
  - reflexivity.
  - vm_compute. discriminate.
  - vm_compute. discriminate.
  - lia.
  - vm_compute. reflexivity.
  - reflexivity.
Defined.
